(** * Workflow runner, acceptance pollers and bombard executor

    A shallow embedding of the Go packages [helpers] (the RPC workflow
    runner with its acceptance pollers) and [bombard] (the bombard
    executor) of avalanche-testing.

    The Go code talks to remote nodes and reads the clock.  Both are
    modelled by an explicit world: a monotonic clock and the chronological
    list of calls made so far.  The remote side is a deterministic test
    double [Env]: every reply is a function of the clock, of the call
    history and of the arguments of the call.  Go functions returning
    [(value, error)] return a pair here, so the value that comes with a
    non-nil error is still there to be (mis)used, as in Go.  A panic and
    the end of the fuel of a loop are outcomes of their own.  Logging
    calls ([logrus]) change nothing of the modelled state and are left
    out. *)

From Stdlib Require Import ZArith List String Bool Lia DecimalString.
From Stdlib Require Import Strings.Byte.
Import ListNotations.
Open Scope string_scope.
Open Scope list_scope.
Open Scope Z_scope.

(** ** Data *)

(** [ids.ID] is a 32-byte array; its zero value is the all-zero array. *)
Definition ID := N.
Definition emptyID : ID := 0%N.

(** [time.Duration] and clock readings, in nanoseconds. *)
Definition Duration := Z.
Definition Second : Duration := 1000000000.

(** [*services.Client]: the handle of one node's API endpoint. *)
Definition Client := nat.

(** [api.UserPass] *)
Record UserPass := { Username : string; Password : string }.

(** [choices.Status], the X chain's transaction status. *)
Inductive XStatus := XUnknown | XProcessing | XRejected | XAccepted.

(** [platformvm.Status], the P chain's status vocabulary. *)
Inductive PStatus :=
| PUnknown | PPreferred | PCreated | PValidating | PCommitted
| PAborted | PProcessing | PSyncing | PDropped.

Definition XStatus_eqb (a b : XStatus) : bool :=
  match a, b with
  | XUnknown, XUnknown | XProcessing, XProcessing
  | XRejected, XRejected | XAccepted, XAccepted => true
  | _, _ => false
  end.

Definition PStatus_eqb (a b : PStatus) : bool :=
  match a, b with
  | PUnknown, PUnknown | PPreferred, PPreferred | PCreated, PCreated
  | PValidating, PValidating | PCommitted, PCommitted | PAborted, PAborted
  | PProcessing, PProcessing | PSyncing, PSyncing | PDropped, PDropped => true
  | _, _ => false
  end.

(** [avax.UTXO]: the reference to an output of an earlier transaction. *)
Record UTXO := {
  utxoTxID : ID;
  utxoOutputIndex : Z;
  utxoAssetID : ID;
  utxoAmount : Z
}.

Definition PrivateKey := list byte.

(** ** Errors

    [stacktrace.NewError], [stacktrace.Propagate] and [fmt.Errorf] are kept
    as the format string with its arguments, unformatted. *)
Inductive fmtArg :=
| ArgID (id : ID)
| ArgStr (s : string)
| ArgInt (n : Z)
| ArgXStatus (s : XStatus)
| ArgPStatus (s : PStatus).

Inductive error :=
| ExtError (msg : string)
| NewError (fmt : string) (args : list fmtArg)
| Propagated (cause : error) (fmt : string) (args : list fmtArg)
| Errorf (fmt : string) (args : list fmtArg)
| ErrorfWrap (fmt : string) (args : list fmtArg) (wrapped : error).

(** [stacktrace.Propagate] returns nil when its cause is nil. *)
Definition Propagate (cause : option error) (fmt : string) (args : list fmtArg)
  : option error :=
  match cause with
  | None => None
  | Some e => Some (Propagated e fmt args)
  end.

(** ** Calls and the world *)

Inductive Call :=
| CRandInt
| CSleep (d : Duration)
| CKeystoreCreateUser (c : Client) (u : UserPass)
| CXImportKey (c : Client) (u : UserPass) (privateKey : string)
| CXCreateAddress (c : Client) (u : UserPass)
| CPCreateAddress (c : Client) (u : UserPass)
| CXListAddresses (c : Client) (u : UserPass)
| CXSend (c : Client) (u : UserPass) (amount : Z) (assetID : string) (to : string)
| CXExportAVAX (c : Client) (u : UserPass) (amount : Z) (to : string)
| CXImportAVAX (c : Client) (u : UserPass) (to : string) (sourceChain : string)
| CPExportAVAX (c : Client) (u : UserPass) (to : string) (amount : Z)
| CPImportAVAX (c : Client) (u : UserPass) (to : string) (sourceChain : string)
| CXIssueTx (c : Client) (txBytes : list byte)
| CXGetTxStatus (c : Client) (txID : ID)
| CPGetTxStatus (c : Client) (txID : ID)
| CXGetBalance (c : Client) (addr : string) (assetID : string)
| CXGetUTXOs (c : Client) (addrs : list string) (limit : Z)
    (startAddress startUTXOID : string)
| CXExportKey (c : Client) (u : UserPass) (addr : string)
| CCreateConsecutiveTransactions
    (utxo : option UTXO) (numTxs amount txFee : Z) (key : PrivateKey).

(** The history: every call with the clock reading at which it was made. *)
Definition History := list (Z * Call).

Record World := { now : Z; trace : History }.

(** The test double.  Handlers that answer a call see the world at the
    call: the clock and the history before it.  [createXChainCodec], [codecUnmarshal], [formattingDecode] and
    [toPrivateKey] are pure library functions; a pointer that may be nil is
    an [option].  [createConsecutiveTransactions] stands for the chain
    builder, whose source is not part of the modelled files; the last three
    fields are the constants
    [DefaultLocalNetGenesisConfig.FundedAddresses.PrivateKey],
    [constants.XChainID.String()] and [constants.PlatformChainID.String()]. *)
Record Env := {
  latency : World -> Call -> N;
  randInt : World -> Z;
  keystoreCreateUser : World -> Client -> UserPass -> bool * option error;
  xImportKey : World -> Client -> UserPass -> string -> string * option error;
  xCreateAddress : World -> Client -> UserPass -> string * option error;
  pCreateAddress : World -> Client -> UserPass -> string * option error;
  xListAddresses : World -> Client -> UserPass -> list string * option error;
  xSend : World -> Client -> UserPass -> Z -> string -> string -> ID * option error;
  xExportAVAX : World -> Client -> UserPass -> Z -> string -> ID * option error;
  xImportAVAX : World -> Client -> UserPass -> string -> string -> ID * option error;
  pExportAVAX : World -> Client -> UserPass -> string -> Z -> ID * option error;
  pImportAVAX : World -> Client -> UserPass -> string -> string -> ID * option error;
  xIssueTx : World -> Client -> list byte -> ID * option error;
  xGetTxStatus : World -> Client -> ID -> XStatus * option error;
  pGetTxStatus : World -> Client -> ID -> PStatus * option error;
  xGetBalance : World -> Client -> string -> string -> Z * option error;
  xGetUTXOs : World -> Client -> list string -> Z -> string -> string ->
              list (list byte) * option error;
  xExportKey : World -> Client -> UserPass -> string -> string * option error;
  createXChainCodec : option error;
  codecUnmarshal : list byte -> UTXO * option error;
  formattingDecode : string -> list byte * option error;
  toPrivateKey : list byte -> option PrivateKey * option error;
  createConsecutiveTransactions :
    option UTXO -> Z -> Z -> Z -> PrivateKey ->
    list (list byte) * list ID * option error;
  genesisPrivateKey : string;
  xChainIDString : string;
  platformChainIDString : string
}.

(** ** The monad: state, panics and fuel *)

Inductive panicValue :=
| IndexOutOfRange (i : Z) (len : Z)
| SliceOutOfRange (i : Z) (len : Z)
| MakeLenOutOfRange
| NilDereference
| NilInterfaceConversion
| NegativeWaitGroupCounter
| Deadlock
| PanicError (e : error).

Inductive outcome (A : Type) :=
| Ret (a : A)
| Panic (p : panicValue)
| OutOfFuel.
Arguments Ret {A} a.
Arguments Panic {A} p.
Arguments OutOfFuel {A}.

Definition M (A : Type) := World -> outcome A * World.

Definition ret {A} (a : A) : M A := fun w => (Ret a, w).

Definition bind {A B} (m : M A) (k : A -> M B) : M B :=
  fun w =>
    match m w with
    | (Ret a, w') => k a w'
    | (Panic p, w') => (Panic p, w')
    | (OutOfFuel, w') => (OutOfFuel, w')
    end.

Definition panic {A} (p : panicValue) : M A := fun w => (Panic p, w).

Declare Scope go_scope.
Delimit Scope go_scope with go.
Notation "x <- m ;; k" := (bind m (fun x => k))
  (at level 61, m at next level, right associativity) : go_scope.
Notation "' pat <- m ;; k" := (bind m (fun x => match x with pat => k end))
  (at level 61, pat pattern, m at next level, right associativity) : go_scope.
Notation "m ;; k" := (bind m (fun _ => k))
  (at level 61, right associativity) : go_scope.
Open Scope go_scope.

(** The events a run adds to the trace. *)
Definition newEvents (w w' : World) : History :=
  skipn (List.length (trace w)) (trace w').

Section Runner.

Variable env : Env.

(** A call to the outside: the handler answers from the world, the call
    is recorded with its time and the clock advances by the call's
    latency. *)
Definition advance (w : World) (c : Call) (d : Duration) : World :=
  {| now := now w + d + Z.of_N (latency env w c);
     trace := trace w ++ [(now w, c)] |}.

Definition call {A} (c : Call) (h : World -> A) : M A :=
  fun w => (Ret (h w), advance w c 0).

(** [time.Now], [time.Since] and [time.Sleep]; a sleep lasts at least its
    duration. *)
Definition timeNow : M Z := fun w => (Ret (now w), w).
Definition timeSince (t : Z) : M Duration := fun w => (Ret (now w - t), w).
Definition timeSleep (d : Duration) : M unit :=
  fun w => (Ret tt, advance w (CSleep d) (Z.max d 0)).

(** [RPCWorkFlowRunner] *)
Record RPCWorkFlowRunner := {
  client : Client;
  userPass : UserPass;
  networkAcceptanceTimeout : Duration
}.

Definition NewRPCWorkFlowRunner (c : Client) (user : UserPass)
    (timeout : Duration) : RPCWorkFlowRunner :=
  {| client := c; userPass := user; networkAcceptanceTimeout := timeout |}.

Definition User (runner : RPCWorkFlowRunner) : UserPass := userPass runner.

Definition AvaxAssetID : string := "AVAX".

(** *** The acceptance pollers *)

(** The loop of [waitForXchainTransactionAcceptance]; one unit of fuel per
    evaluation of the loop condition. *)
Fixpoint pollXchain (fuel : nat) (runner : RPCWorkFlowRunner)
    (pollStartTime : Z) (txID : ID) : M (option error) :=
  match fuel with
  | O => fun w => (OutOfFuel, w)
  | S fuel' =>
    elapsed <- timeSince pollStartTime ;;
    if elapsed <? networkAcceptanceTimeout runner then
      '(status, err) <- call (CXGetTxStatus (client runner) txID)
                          (fun h => xGetTxStatus env h (client runner) txID) ;;
      match err with
      | Some e => ret (Propagate (Some e) "Failed to get status." [])
      | None =>
        if XStatus_eqb status XAccepted then ret None
        else if XStatus_eqb status XRejected then
          ret (Some (NewError "Transaciton %s was rejected" [ArgID txID]))
        else
          timeSleep Second ;;
          pollXchain fuel' runner pollStartTime txID
      end
    else
      ret (Some (NewError
        "Timed out waiting for transaction %s to be accepted on the XChain."
        [ArgID txID]))
  end.

(** Loop-condition evaluations that a timeout can allow, and one more. *)
Definition pollFuel (timeout : Duration) : nat :=
  Z.to_nat (timeout / Second) + 2.

Definition waitForXchainTransactionAcceptance (runner : RPCWorkFlowRunner)
    (txID : ID) : M (option error) :=
  pollStartTime <- timeNow ;;
  pollXchain (pollFuel (networkAcceptanceTimeout runner)) runner
    pollStartTime txID.

(** The loop of [waitForPChainTransactionAcceptance]. *)
Fixpoint pollPChain (fuel : nat) (runner : RPCWorkFlowRunner)
    (pollStartTime : Z) (txID : ID) : M (option error) :=
  match fuel with
  | O => fun w => (OutOfFuel, w)
  | S fuel' =>
    elapsed <- timeSince pollStartTime ;;
    if elapsed <? networkAcceptanceTimeout runner then
      '(status, err) <- call (CPGetTxStatus (client runner) txID)
                          (fun h => pGetTxStatus env h (client runner) txID) ;;
      match err with
      | Some e => ret (Propagate (Some e) "Failed to get status" [])
      | None =>
        if PStatus_eqb status PCommitted then ret None
        else if PStatus_eqb status PDropped || PStatus_eqb status PAborted then
          ret (Some (NewError "Abandoned Tx: %s because it had status: %s"
                       [ArgID txID; ArgPStatus status]))
        else
          timeSleep Second ;;
          pollPChain fuel' runner pollStartTime txID
      end
    else
      ret (Some (NewError
        "Timed out waiting for transaction %s to be accepted on the PChain."
        [ArgID txID]))
  end.

Definition waitForPChainTransactionAcceptance (runner : RPCWorkFlowRunner)
    (txID : ID) : M (option error) :=
  pollStartTime <- timeNow ;;
  pollPChain (pollFuel (networkAcceptanceTimeout runner)) runner
    pollStartTime txID.

(** *** Workflows *)

(** [ImportGenesisFunds] *)
Definition ImportGenesisFunds (runner : RPCWorkFlowRunner)
  : M (string * option error) :=
  '(_, err) <- call (CKeystoreCreateUser (client runner) (userPass runner))
                 (fun h => keystoreCreateUser env h (client runner) (userPass runner)) ;;
  match err with
  | Some e => ret ("", Some e)
  | None =>
    '(genesisAccountAddress, err) <-
       call (CXImportKey (client runner) (userPass runner) (genesisPrivateKey env))
         (fun h => xImportKey env h (client runner) (userPass runner)
                     (genesisPrivateKey env)) ;;
    match err with
    | Some e =>
      ret ("", Propagate (Some e) "Failed to take control of genesis account." [])
    | None => ret (genesisAccountAddress, None)
    end
  end.

(** [CreateDefaultAddresses] *)
Definition CreateDefaultAddresses (runner : RPCWorkFlowRunner)
  : M (string * string * option error) :=
  '(_, err) <- call (CKeystoreCreateUser (client runner) (userPass runner))
                 (fun h => keystoreCreateUser env h (client runner) (userPass runner)) ;;
  match err with
  | Some e => ret ("", "", Some e)
  | None =>
    '(xAddress, err) <- call (CXCreateAddress (client runner) (userPass runner))
                          (fun h => xCreateAddress env h (client runner) (userPass runner)) ;;
    match err with
    | Some e => ret ("", "", Some e)
    | None =>
      '(pAddress, err) <- call (CPCreateAddress (client runner) (userPass runner))
                            (fun h => pCreateAddress env h (client runner) (userPass runner)) ;;
      ret (xAddress, pAddress, err)
    end
  end.

(** [FundXChainAddresses]: the range loop over [addresses]; the result is
    the value the function returns. *)
Fixpoint FundXChainAddresses (runner : RPCWorkFlowRunner)
    (addresses : list string) (amount : Z) : M (option error) :=
  match addresses with
  | [] => ret None
  | address :: rest =>
    '(txID, err) <-
       call (CXSend (client runner) (userPass runner) amount AvaxAssetID address)
         (fun h => xSend env h (client runner) (userPass runner) amount
                     AvaxAssetID address) ;;
    match err with
    | Some e => ret (Some e)
    | None =>
      err <- waitForXchainTransactionAcceptance runner txID ;;
      match err with
      | Some e => ret (Some e)
      | None => FundXChainAddresses runner rest amount
      end
    end
  end.

(** [TransferAvaXChainToPChain] *)
Definition TransferAvaXChainToPChain (runner : RPCWorkFlowRunner)
    (pChainAddress : string) (amount : Z) : M (option error) :=
  '(txID, err) <-
     call (CXExportAVAX (client runner) (userPass runner) amount pChainAddress)
       (fun h => xExportAVAX env h (client runner) (userPass runner) amount
                   pChainAddress) ;;
  match err with
  | Some e =>
    ret (Propagate (Some e) "Failed to export AVAX to pchainAddress %s"
           [ArgStr pChainAddress])
  | None =>
    err <- waitForXchainTransactionAcceptance runner txID ;;
    match err with
    | Some e => ret (Propagate (Some e) "" [])
    | None =>
      '(importTxID, err) <-
         call (CPImportAVAX (client runner) (userPass runner) pChainAddress
                 (xChainIDString env))
           (fun h => pImportAVAX env h (client runner) (userPass runner)
                       pChainAddress (xChainIDString env)) ;;
      match err with
      | Some e =>
        ret (Propagate (Some e) "Failed import AVAX to pchainAddress %s"
               [ArgStr pChainAddress])
      | None =>
        err <- waitForPChainTransactionAcceptance runner importTxID ;;
        match err with
        | Some e =>
          ret (Propagate (Some e) "Failed to Accept ImportTx: %s"
                 [ArgID importTxID])
        | None => ret None
        end
      end
    end
  end.

(** [TransferAvaPChainToXChain].  The [err] of the import is assigned and
    then overwritten by the result of the wait, without a test between. *)
Definition TransferAvaPChainToXChain (runner : RPCWorkFlowRunner)
    (xChainAddress : string) (amount : Z) : M (option error) :=
  '(exportTxID, err) <-
     call (CPExportAVAX (client runner) (userPass runner) xChainAddress amount)
       (fun h => pExportAVAX env h (client runner) (userPass runner)
                   xChainAddress amount) ;;
  match err with
  | Some e =>
    ret (Propagate (Some e) "Failed to export AVAX to xChainAddress %s"
           [ArgStr xChainAddress])
  | None =>
    err <- waitForPChainTransactionAcceptance runner exportTxID ;;
    match err with
    | Some e =>
      ret (Propagate (Some e) "Failed to accept ExportTx: %s" [ArgID exportTxID])
    | None =>
      '(txID, _) <-
         call (CXImportAVAX (client runner) (userPass runner) xChainAddress
                 (platformChainIDString env))
           (fun h => xImportAVAX env h (client runner) (userPass runner)
                       xChainAddress (platformChainIDString env)) ;;
      err <- waitForXchainTransactionAcceptance runner txID ;;
      match err with
      | Some e =>
        ret (Propagate (Some e)
               "Failed to wait for acceptance of transaction on XChain." [])
      | None => ret None
      end
    end
  end.

(** [IssueTxList] *)
Fixpoint IssueTxList (runner : RPCWorkFlowRunner) (txList : list (list byte))
  : M (option error) :=
  match txList with
  | [] => ret None
  | txBytes :: rest =>
    '(_, err) <- call (CXIssueTx (client runner) txBytes)
                   (fun h => xIssueTx env h (client runner) txBytes) ;;
    match err with
    | Some e => ret (Propagate (Some e) "Failed to issue transaction." [])
    | None => IssueTxList runner rest
    end
  end.

(** [AwaitXChainTxs] *)
Fixpoint AwaitXChainTxs (runner : RPCWorkFlowRunner) (txIDs : list ID)
  : M (option error) :=
  match txIDs with
  | [] => ret None
  | txID :: rest =>
    err <- waitForXchainTransactionAcceptance runner txID ;;
    match err with
    | Some e => ret (Some e)
    | None => AwaitXChainTxs runner rest
    end
  end.

(** [AwaitPChainTxs] *)
Fixpoint AwaitPChainTxs (runner : RPCWorkFlowRunner) (txIDs : list ID)
  : M (option error) :=
  match txIDs with
  | [] => ret None
  | txID :: rest =>
    err <- waitForPChainTransactionAcceptance runner txID ;;
    match err with
    | Some e => ret (Some e)
    | None => AwaitPChainTxs runner rest
    end
  end.

(** [VerifyXChainAVABalance] *)
Definition VerifyXChainAVABalance (runner : RPCWorkFlowRunner)
    (address : string) (expectedBalance : Z) : M (option error) :=
  '(balance, err) <- call (CXGetBalance (client runner) address AvaxAssetID)
                       (fun h => xGetBalance env h (client runner) address
                                   AvaxAssetID) ;;
  match err with
  | Some e => ret (Propagate (Some e) "Failed to retrieve X Chain balance." [])
  | None =>
    let actualBalance := balance in
    if negb (actualBalance =? expectedBalance) then
      ret (Some (NewError
        "Found unexpected X Chain Balance for address: %s. Expected: %v, found: %v"
        [ArgStr address; ArgInt expectedBalance; ArgInt actualBalance]))
    else ret None
  end.

End Runner.

(** ** Slices and pointers *)

Definition len {A} (l : list A) : Z := Z.of_nat (List.length l).

(** [l[i]] *)
Definition index {A} (l : list A) (i : nat) : M A :=
  match nth_error l i with
  | Some x => ret x
  | None => panic (IndexOutOfRange (Z.of_nat i) (len l))
  end.

(** [l[i] = v] *)
Definition store {A} (l : list A) (i : nat) (v : A) : M (list A) :=
  if (i <? List.length l)%nat then ret (firstn i l ++ v :: skipn (Datatypes.S i) l)
  else panic (IndexOutOfRange (Z.of_nat i) (len l)).

(** [make([]T, n)], every element the zero value of [T]. *)
Definition make {A} (zero : A) (n : Z) : M (list A) :=
  if n <? 0 then panic MakeLenOutOfRange
  else ret (repeat zero (Z.to_nat n)).

(** [l[lo:]] *)
Definition sliceFrom {A} (l : list A) (lo : nat) : M (list A) :=
  if (lo <=? List.length l)%nat then ret (skipn lo l)
  else panic (SliceOutOfRange (Z.of_nat lo) (len l)).

(** [*p], for a pointer that may be nil. *)
Definition deref {A} (p : option A) : M A :=
  match p with
  | Some x => ret x
  | None => panic NilDereference
  end.

(** ** The bombard executor *)

(** [constants.SecretKeyPrefix] of the node library. *)
Definition SecretKeyPrefix : string := "PrivateKey-".

(** [strings.TrimPrefix] *)
Definition TrimPrefix (s p : string) : string :=
  if prefix p s then substring (String.length p) (String.length s - String.length p) s
  else s.

(** [uint64] arithmetic wraps around. *)
Definition wrap64 (z : Z) : Z := z mod 2 ^ 64.

Record bombardExecutor := {
  normalClients : list Client;
  acceptanceTimeout : Duration;
  numTxs : Z;
  txFee : Z
}.

Definition NewBombardExecutor (clients : list Client) (numTxs txFee : Z)
    (acceptanceTimeout : Duration) : bombardExecutor :=
  {| normalClients := clients; numTxs := numTxs;
     acceptanceTimeout := acceptanceTimeout; txFee := txFee |}.

(** [seedAmount := (e.numTxs + 1) * e.txFee] *)
Definition seedAmount (e : bombardExecutor) : Z :=
  wrap64 (wrap64 (numTxs e + 1) * txFee e).

Section Bombard.

Variable env : Env.

(** [createRandomString] *)
Definition createRandomString : M string :=
  n <- call env CRandInt (randInt env) ;;
  ret ("rand:" ++ NilZero.string_of_int (Z.to_int n))%string.

(** The first loop of [ExecuteTest]: a runner and an X chain address for
    every client after the first.  [inl] carries the value [ExecuteTest]
    returns from inside the loop, [inr] the slices when the loop is done. *)
Fixpoint setupLoop (e : bombardExecutor) (i : nat) (clients : list Client)
    (secondaryClients : list (option RPCWorkFlowRunner))
    (xChainAddrs : list string)
  : M (option error + list (option RPCWorkFlowRunner) * list string) :=
  match clients with
  | [] => ret (inr (secondaryClients, xChainAddrs))
  | client :: rest =>
    username <- createRandomString ;;
    password <- createRandomString ;;
    let runner := NewRPCWorkFlowRunner client
                    {| Username := username; Password := password |}
                    (acceptanceTimeout e) in
    secondaryClients <- store secondaryClients i (Some runner) ;;
    '(xChainAddress, _, err) <- CreateDefaultAddresses env runner ;;
    match err with
    | Some er =>
      ret (inl (Propagate (Some er)
                  "Failed to create default addresses for client: %d"
                  [ArgInt (Z.of_nat i)]))
    | None =>
      xChainAddrs <- store xChainAddrs i xChainAddress ;;
      setupLoop e (Datatypes.S i) rest secondaryClients xChainAddrs
    end
  end.

(** The loop that decodes the UTXOs of one address. *)
Fixpoint decodeLoop (i : nat) (utxosBytes : list (list byte))
    (utxos : list (option UTXO)) : M (option error + list (option UTXO)) :=
  match utxosBytes with
  | [] => ret (inr utxos)
  | utxoBytes :: rest =>
    let '(utxo, err) := codecUnmarshal env utxoBytes in
    match err with
    | Some er =>
      ret (inl (Propagate (Some er) "Failed to unmarshal utxo bytes." []))
    | None =>
      utxos <- store utxos i (Some utxo) ;;
      decodeLoop (Datatypes.S i) rest utxos
    end
  end.

(** The loop that verifies the balance of every funded address and
    fetches its UTXOs. *)
Fixpoint verifyLoop (e : bombardExecutor) (genesisClient : Client)
    (xChainAddrs : list string) (i : nat)
    (clients : list (option RPCWorkFlowRunner))
    (utxoLists : list (list (option UTXO)))
  : M (option error + list (list (option UTXO))) :=
  match clients with
  | [] => ret (inr utxoLists)
  | client :: rest =>
    addr <- index xChainAddrs i ;;
    runner <- deref client ;;
    err <- VerifyXChainAVABalance env runner addr (seedAmount e) ;;
    match err with
    | Some er =>
      ret (inl (Propagate (Some er)
                  "Failed to verify X Chain Balance for Client: %d"
                  [ArgInt (Z.of_nat i)]))
    | None =>
      addr <- index xChainAddrs i ;;
      '(utxosBytes, err) <-
         call env (CXGetUTXOs genesisClient [addr] 10 "" "")
           (fun h => xGetUTXOs env h genesisClient [addr] 10 "" "") ;;
      match err with
      | Some er => ret (inl (Some er))
      | None =>
        utxos <- make None (len utxosBytes) ;;
        r <- decodeLoop 0 utxosBytes utxos ;;
        match r with
        | inl res => ret (inl res)
        | inr utxos =>
          utxoLists <- store utxoLists i utxos ;;
          verifyLoop e genesisClient xChainAddrs (Datatypes.S i) rest utxoLists
        end
      end
    end
  end.

(** The loop that builds one chain of transactions per secondary client. *)
Fixpoint buildLoop (e : bombardExecutor)
    (secondaryClients : list (option RPCWorkFlowRunner))
    (xChainAddrs : list string) (utxoLists : list (list (option UTXO)))
    (i : nat) (clients : list Client)
    (privateKeys : list (option PrivateKey))
    (txLists : list (list (list byte))) (txIDLists : list (list ID))
  : M (option error + list (list (list byte)) * list (list ID)) :=
  match clients with
  | [] => ret (inr (txLists, txIDLists))
  | client :: rest =>
    utxos <- index utxoLists i ;;
    utxo <- index utxos 0 ;;
    secondary <- index secondaryClients i ;;
    runner <- deref secondary ;;
    addr <- index xChainAddrs i ;;
    '(pkStr, err) <- call env (CXExportKey client (User runner) addr)
                       (fun h => xExportKey env h client (User runner) addr) ;;
    match err with
    | Some er => ret (inl (Propagate (Some er) "Failed to export key." []))
    | None =>
      if negb (prefix SecretKeyPrefix pkStr) then
        ret (inl (Some (Errorf "private key missing %s prefix"
                          [ArgStr SecretKeyPrefix])))
      else
        let trimmedPrivateKey := TrimPrefix pkStr SecretKeyPrefix in
        let '(pkBytes, err) := formattingDecode env trimmedPrivateKey in
        match err with
        | Some er =>
          ret (inl (Some (ErrorfWrap "problem parsing private key: %w" [] er)))
        | None =>
          let '(skIntf, _) := toPrivateKey env pkBytes in
          sk <- match skIntf with
                | Some k => ret k
                | None => panic NilInterfaceConversion
                end ;;
          privateKeys <- store privateKeys i (Some sk) ;;
          '(txs, txIDs, err) <-
             call env (CCreateConsecutiveTransactions utxo (numTxs e)
                         (seedAmount e) (txFee e) sk)
               (fun _ => createConsecutiveTransactions env utxo (numTxs e)
                           (seedAmount e) (txFee e) sk) ;;
          match err with
          | Some er =>
            ret (inl (Propagate (Some er) "Failed to create transaction list." []))
          | None =>
            txLists <- store txLists i txs ;;
            txIDLists <- store txIDLists i txIDs ;;
            buildLoop e secondaryClients xChainAddrs utxoLists (Datatypes.S i)
              rest privateKeys txLists txIDLists
          end
        end
    end
  end.

(** [issueTxsAsync], the closure over the wait group [wg]; it is called,
    not started with [go].  The wait group is its counter. *)
Definition issueTxsAsync (wg : Z) (runner : option RPCWorkFlowRunner)
    (txList : list (list byte)) : M Z :=
  r <- deref runner ;;
  err <- IssueTxList env r txList ;;
  match err with
  | Some er => panic (PanicError er)
  | None =>
    if wg - 1 <? 0 then panic NegativeWaitGroupCounter else ret (wg - 1)
  end.

(** The loop that issues the chains. *)
Fixpoint issueLoop (wg : Z) (i : nat)
    (clients : list (option RPCWorkFlowRunner))
    (txLists : list (list (list byte))) : M Z :=
  match clients with
  | [] => ret wg
  | client :: rest =>
    wg <- (if wg + 1 <? 0 then panic NegativeWaitGroupCounter
           else ret (wg + 1)) ;;
    txList <- index txLists i ;;
    wg <- issueTxsAsync wg client txList ;;
    issueLoop wg (Datatypes.S i) rest txLists
  end.

(** [wg.Wait()]: with no other goroutine to count the group down, a
    positive counter blocks for ever. *)
Definition wgWait (wg : Z) : M unit :=
  if wg =? 0 then ret tt else panic Deadlock.

(** The loop that awaits the issued transactions.  The value of
    [stacktrace.Propagate] is dropped and the loop goes on. *)
Fixpoint confirmLoop (highLevelGenesisClient : RPCWorkFlowRunner)
    (txIDLists : list (list ID)) : M unit :=
  match txIDLists with
  | [] => ret tt
  | txIDs :: rest =>
    err <- AwaitXChainTxs env highLevelGenesisClient txIDs ;;
    match err with
    | Some er =>
      let _ := Propagate (Some er) "Failed to confirm transactions." [] in
      confirmLoop highLevelGenesisClient rest
    | None => confirmLoop highLevelGenesisClient rest
    end
  end.

(** [ExecuteTest] *)
Definition ExecuteTest (e : bombardExecutor) : M (option error) :=
  genesisClient <- index (normalClients e) 0 ;;
  secondaryClients <- make None (len (normalClients e) - 1) ;;
  xChainAddrs <- make ""%string (len (normalClients e) - 1) ;;
  others <- sliceFrom (normalClients e) 1 ;;
  r <- setupLoop e 0 others secondaryClients xChainAddrs ;;
  match r with
  | inl res => ret res
  | inr (secondaryClients, xChainAddrs) =>
    username <- createRandomString ;;
    password <- createRandomString ;;
    let genesisUser := {| Username := username; Password := password |} in
    let highLevelGenesisClient :=
      NewRPCWorkFlowRunner genesisClient genesisUser (acceptanceTimeout e) in
    '(_, err) <- ImportGenesisFunds env highLevelGenesisClient ;;
    match err with
    | Some er => ret (Propagate (Some er) "Failed to fund genesis client." [])
    | None =>
      '(addrs, err) <- call env (CXListAddresses genesisClient genesisUser)
                         (fun h => xListAddresses env h genesisClient genesisUser) ;;
      match err with
      | Some er =>
        ret (Propagate (Some er) "Failed to get genesis client's addresses" [])
      | None =>
        if negb (len addrs =? 1) then
          ret (Some (NewError
            "Found unexecpted number of addresses for genesis client: %d"
            [ArgInt (len addrs)]))
        else
          genesisAddress <- index addrs 0 ;;
          err <- FundXChainAddresses env highLevelGenesisClient xChainAddrs
                   (seedAmount e) ;;
          match err with
          | Some er =>
            ret (Propagate (Some er)
                   "Failed to fund X Chain Addresses for Clients" [])
          | None =>
            match createXChainCodec env with
            | Some er => ret (Propagate (Some er) "Failed to initialize codec." [])
            | None =>
              utxoLists <- make [] (len secondaryClients) ;;
              r <- verifyLoop e genesisClient xChainAddrs 0 secondaryClients
                     utxoLists ;;
              match r with
              | inl res => ret res
              | inr utxoLists =>
                privateKeys <- make None (len secondaryClients) ;;
                txLists <- make [] (len secondaryClients) ;;
                txIDLists <- make [] (len secondaryClients) ;;
                others <- sliceFrom (normalClients e) 1 ;;
                r <- buildLoop e secondaryClients xChainAddrs utxoLists 0
                       others privateKeys txLists txIDLists ;;
                match r with
                | inl res => ret res
                | inr (txLists, txIDLists) =>
                  wg <- issueLoop 0 0 secondaryClients txLists ;;
                  wgWait wg ;;
                  confirmLoop highLevelGenesisClient txIDLists ;;
                  ret None
                end
              end
            end
          end
      end
    end
  end.

End Bombard.

(** ** The transaction chain builder *)

(** A transaction before signing: the output it spends, what that output
    holds, and what its single output sends back. *)
Record UnsignedTx := {
  inputTxID : ID;
  inputIndex : Z;
  inputAmount : Z;
  outputAmount : Z
}.

(** One built transaction: its content, its signed bytes, its identifier. *)
Record BuiltTx := {
  content : UnsignedTx;
  signedBytes : list byte;
  builtID : ID
}.

Definition insufficientFunds : error := ExtError "insufficient funds".
Definition signingFailed : error := ExtError "failed to sign transaction".

Section Builder.

(** Signing with serialisation ([None] when signing fails) and the
    identifier of a serialised transaction belong to the ledger library. *)
Variable sign : PrivateKey -> UnsignedTx -> option (list byte).
Variable txIDOf : list byte -> ID.

(** Modelled from the spec: the loop of [CreateConsecutiveTransactions],
    the Transaction Chain Builder, whose source is not among the files.
    Each of the [n] transactions spends the one output left by the one
    before it (the first spends the given UTXO, holding [balance]) and
    sends back the balance less the fee; a fee that would drive the
    balance negative and a failed signature are construction errors. *)
Fixpoint buildChain (n : nat) (inID : ID) (inIndex : Z) (balance txFee : Z)
    (key : PrivateKey) : error + list BuiltTx :=
  match n with
  | O => inr []
  | Datatypes.S n' =>
    if balance - txFee <? 0 then inl insufficientFunds
    else
      let utx := {| inputTxID := inID; inputIndex := inIndex;
                    inputAmount := balance;
                    outputAmount := balance - txFee |} in
      match sign key utx with
      | None => inl signingFailed
      | Some bytes =>
        match buildChain n' (txIDOf bytes) 0 (balance - txFee) txFee key with
        | inl e => inl e
        | inr rest =>
          inr ({| content := utx; signedBytes := bytes;
                  builtID := txIDOf bytes |} :: rest)
        end
      end
  end.

(** Modelled from the spec: [CreateConsecutiveTransactions] as the bombard
    executor calls it, with the UTXO, the count, the UTXO's value, the fee
    and the key; it returns the serialised transactions and their
    identifiers, index-aligned, or a construction error and nothing. *)
Definition CreateConsecutiveTransactions (utxo : UTXO) (numTxs amount txFee : Z)
    (key : PrivateKey) : list (list byte) * list ID * option error :=
  match buildChain (Z.to_nat numTxs) (utxoTxID utxo) (utxoOutputIndex utxo)
          amount txFee key with
  | inl e => ([], [], Some e)
  | inr chain => (map signedBytes chain, map builtID chain, None)
  end.

End Builder.

(** Transaction [k] of a chain spends output 0 of transaction [k-1]. *)
Fixpoint linked (prevID : ID) (prevIndex : Z) (chain : list BuiltTx) : Prop :=
  match chain with
  | [] => True
  | tx :: rest =>
    inputTxID (content tx) = prevID /\ inputIndex (content tx) = prevIndex /\
    linked (builtID tx) 0 rest
  end.

(** Every transaction takes exactly [txFee] off the balance it spends,
    which is what the one before it left. *)
Fixpoint feeSteps (balance txFee : Z) (chain : list BuiltTx) : Prop :=
  match chain with
  | [] => True
  | tx :: rest =>
    inputAmount (content tx) = balance /\
    outputAmount (content tx) = balance - txFee /\
    feeSteps (balance - txFee) txFee rest
  end.

(** The balance left when the chain is spent. *)
Definition leftover (balance : Z) (chain : list BuiltTx) : Z :=
  match rev chain with
  | [] => balance
  | tx :: _ => outputAmount (content tx)
  end.

(** ** Test doubles *)

Definition byteOfZ (z : Z) : byte :=
  match Byte.of_N (Z.to_N (z mod 256)) with
  | Some b => b
  | None => x00
  end.

(** A signature that never fails and an identifier read off the bytes. *)
Definition toySign (key : PrivateKey) (u : UnsignedTx) : option (list byte) :=
  Some [byteOfZ (Z.of_N (inputTxID u) / 65536); byteOfZ (Z.of_N (inputTxID u) / 256);
        byteOfZ (Z.of_N (inputTxID u)); byteOfZ (inputIndex u);
        byteOfZ (outputAmount u)].

Definition toyTxID (bs : list byte) : ID :=
  fold_left (fun acc b => (acc * 256 + Byte.to_N b)%N) bs 0%N.

(** A signature that fails on the transaction that would leave [bad]. *)
Definition failingSign (bad : Z) (key : PrivateKey) (u : UnsignedTx)
  : option (list byte) :=
  if outputAmount u =? bad then None else toySign key u.

Definition toyBuilder (utxo : option UTXO) (numTxs amount txFee : Z)
    (key : PrivateKey) : list (list byte) * list ID * option error :=
  match utxo with
  | Some u => CreateConsecutiveTransactions toySign toyTxID u numTxs amount txFee key
  | None => ([], [], Some (ExtError "nil utxo"))
  end.

(** An identifier not handed out before: one more than the number of calls
    made so far, so never the zero identifier. *)
Definition freshID (w : World) : ID := N.of_nat (Datatypes.S (List.length (trace w))).

(** A node double: addresses are named after the client, the transactions
    the node creates get fresh identifiers, and every address has one
    UTXO, whose bytes are those of its name.  Latency, transaction
    statuses, the X chain import, balances and UTXO lists are left to the
    test. *)
Definition double
    (lat : World -> Call -> N)
    (xStatus : World -> Client -> ID -> XStatus * option error)
    (pStatus : World -> Client -> ID -> PStatus * option error)
    (xImport : World -> Client -> UserPass -> string -> string -> ID * option error)
    (balance : World -> Client -> string -> string -> Z * option error)
    (utxos : World -> Client -> list string -> Z -> string -> string ->
             list (list byte) * option error)
  : Env :=
  {| latency := lat;
     randInt := fun w => Z.of_nat (List.length (trace w));
     keystoreCreateUser := fun _ _ _ => (true, None);
     xImportKey := fun _ _ _ _ => ("X-genesis", None);
     xCreateAddress := fun _ c _ =>
       (("X-" ++ NilZero.string_of_uint (Nat.to_uint c))%string, None);
     pCreateAddress := fun _ c _ =>
       (("P-" ++ NilZero.string_of_uint (Nat.to_uint c))%string, None);
     xListAddresses := fun _ _ _ => (["X-genesis"], None);
     xSend := fun w _ _ _ _ _ => (freshID w, None);
     xExportAVAX := fun w _ _ _ _ => (freshID w, None);
     xImportAVAX := xImport;
     pExportAVAX := fun w _ _ _ _ => (freshID w, None);
     pImportAVAX := fun w _ _ _ _ => (freshID w, None);
     xIssueTx := fun _ _ bs => (toyTxID bs, None);
     xGetTxStatus := xStatus;
     pGetTxStatus := pStatus;
     xGetBalance := balance;
     xGetUTXOs := utxos;
     xExportKey := fun _ _ _ _ => ("PrivateKey-ewoq", None);
     createXChainCodec := None;
     codecUnmarshal := fun bs =>
       ({| utxoTxID := toyTxID bs; utxoOutputIndex := 0; utxoAssetID := emptyID;
           utxoAmount := 0 |}, None);
     formattingDecode := fun s => (list_byte_of_string s, None);
     toPrivateKey := fun bs => (Some bs, None);
     createConsecutiveTransactions := toyBuilder;
     genesisPrivateKey := "PrivateKey-genesis";
     xChainIDString := "X";
     platformChainIDString := "P" |}.

Definition noLatency : World -> Call -> N := fun _ _ => 0%N.
Definition xAlways (s : XStatus) : World -> Client -> ID -> XStatus * option error :=
  fun _ _ _ => (s, None).
Definition pAlways (s : PStatus) : World -> Client -> ID -> PStatus * option error :=
  fun _ _ _ => (s, None).
Definition xImportOk : World -> Client -> UserPass -> string -> string -> ID * option error :=
  fun w _ _ _ _ => (freshID w, None).
Definition balanceAlways (b : Z) : World -> Client -> string -> string -> Z * option error :=
  fun _ _ _ _ => (b, None).
Definition oneUTXOEach : World -> Client -> list string -> Z -> string -> string ->
    list (list byte) * option error :=
  fun _ _ addrs _ _ _ => (map list_byte_of_string addrs, None).

Definition world0 : World := {| now := 0; trace := [] |}.

(** A status source that cannot be reached. *)
Definition xUnreachable : World -> Client -> ID -> XStatus * option error :=
  fun _ _ _ => (XUnknown, Some (ExtError "connection refused")).

Definition envStatusFails : Env :=
  double noLatency xUnreachable (pAlways PCommitted) xImportOk
    (balanceAlways 0) oneUTXOEach.

Definition testUser : UserPass := {| Username := "user"; Password := "pass" |}.

Definition testRunner : RPCWorkFlowRunner :=
  NewRPCWorkFlowRunner 0%nat testUser (5 * Second).

(** ** Observations

    What the status calls among the events [evs], made after the history
    [h], were answered: the time of the call, the status and the error. *)
Fixpoint xStatusReplies (env : Env) (h evs : History)
  : list (Z * XStatus * option error) :=
  match evs with
  | [] => []
  | (t, c) :: rest =>
    match c with
    | CXGetTxStatus cl id =>
      [(t, fst (xGetTxStatus env {| now := t; trace := h |} cl id),
           snd (xGetTxStatus env {| now := t; trace := h |} cl id))]
    | _ => []
    end ++ xStatusReplies env (h ++ [(t, c)]) rest
  end.

Fixpoint pStatusReplies (env : Env) (h evs : History)
  : list (Z * PStatus * option error) :=
  match evs with
  | [] => []
  | (t, c) :: rest =>
    match c with
    | CPGetTxStatus cl id =>
      [(t, fst (pGetTxStatus env {| now := t; trace := h |} cl id),
           snd (pGetTxStatus env {| now := t; trace := h |} cl id))]
    | _ => []
    end ++ pStatusReplies env (h ++ [(t, c)]) rest
  end.

(** A reply that keeps the poller polling. *)
Definition xPending (o : Z * XStatus * option error) : bool :=
  match o with
  | (_, XAccepted, _) | (_, XRejected, _) | (_, _, Some _) => false
  | _ => true
  end.

Definition pPending (o : Z * PStatus * option error) : bool :=
  match o with
  | (_, PCommitted, _) | (_, PDropped, _) | (_, PAborted, _)
  | (_, _, Some _) => false
  | _ => true
  end.

(** A reply that carries a terminal status, whatever its error. *)
Definition xTerminal (o : Z * XStatus * option error) : bool :=
  match o with
  | (_, XAccepted, _) | (_, XRejected, _) => true
  | _ => false
  end.

Definition xTimeoutError (txID : ID) : error :=
  NewError "Timed out waiting for transaction %s to be accepted on the XChain."
    [ArgID txID].

Definition pTimeoutError (txID : ID) : error :=
  NewError "Timed out waiting for transaction %s to be accepted on the PChain."
    [ArgID txID].

Definition xRejectedError (txID : ID) : error :=
  NewError "Transaciton %s was rejected" [ArgID txID].

Definition pAbandonedError (txID : ID) (s : PStatus) : error :=
  NewError "Abandoned Tx: %s because it had status: %s" [ArgID txID; ArgPStatus s].

(** ** A generic polling loop

    Both pollers are instances of one loop; its runs are described by a
    relation that needs no fuel. *)
Section Poll.

Variable env : Env.
Variable S : Type.
Variable c : Call.
Variable query : World -> S * option error.
Variable verdict : S -> option (option error).
Variable wrap : error -> option error.
Variable timeoutErr : error.
Variable timeout : Duration.
Variable start : Z.

Fixpoint pollLoop (fuel : nat) : M (option error) :=
  match fuel with
  | O => fun w => (OutOfFuel, w)
  | Datatypes.S fuel' =>
    fun w =>
      if now w - start <? timeout then
        match snd (query w) with
        | Some e => (Ret (wrap e), advance env w c 0)
        | None =>
          match verdict (fst (query w)) with
          | Some r => (Ret r, advance env w c 0)
          | None =>
            pollLoop fuel'
              (advance env (advance env w c 0) (CSleep Second) (Z.max Second 0))
          end
        end
      else (Ret (Some timeoutErr), w)
  end.

Inductive PollRun : World -> option error -> World -> Prop :=
| PollTimeout w :
    timeout <= now w - start ->
    PollRun w (Some timeoutErr) w
| PollError w e :
    now w - start < timeout ->
    snd (query w) = Some e ->
    PollRun w (wrap e) (advance env w c 0)
| PollVerdict w r :
    now w - start < timeout ->
    snd (query w) = None ->
    verdict (fst (query w)) = Some r ->
    PollRun w r (advance env w c 0)
| PollAgain w r w' :
    now w - start < timeout ->
    snd (query w) = None ->
    verdict (fst (query w)) = None ->
    PollRun (advance env (advance env w c 0) (CSleep Second) (Z.max Second 0))
      r w' ->
    PollRun w r w'.

End Poll.

(** What a status means to each poller: [Some r] ends the wait with the
    result [r], [None] keeps polling. *)
Definition xVerdict (txID : ID) (s : XStatus) : option (option error) :=
  if XStatus_eqb s XAccepted then Some None
  else if XStatus_eqb s XRejected then Some (Some (xRejectedError txID))
  else None.

Definition pVerdict (txID : ID) (s : PStatus) : option (option error) :=
  if PStatus_eqb s PCommitted then Some None
  else if PStatus_eqb s PDropped || PStatus_eqb s PAborted then
    Some (Some (pAbandonedError txID s))
  else None.

Definition xStatusError (e : error) : option error :=
  Propagate (Some e) "Failed to get status." [].

Definition pStatusError (e : error) : option error :=
  Propagate (Some e) "Failed to get status" [].

Definition isXPollEvent (cl : Client) (txID : ID) (ev : Z * Call) : Prop :=
  snd ev = CXGetTxStatus cl txID \/ snd ev = CSleep Second.

Definition isPPollEvent (cl : Client) (txID : ID) (ev : Z * Call) : Prop :=
  snd ev = CPGetTxStatus cl txID \/ snd ev = CSleep Second.

(** The time of a reply within the window of a wait begun at [t0]. *)
Definition inWindow {A B} (t0 : Z) (timeout : Duration) (o : Z * A * B) : Prop :=
  t0 <= fst (fst o) /\ fst (fst o) - t0 < timeout.

(** The reading of the timeout clause that counts only statuses: a wait
    that saw no terminal status returns the timeout error. *)
Definition timeoutWheneverNoTerminalStatus (env : Env)
    (runner : RPCWorkFlowRunner) (txID : ID) (w : World) : Prop :=
  forall res w',
    waitForXchainTransactionAcceptance env runner txID w = (Ret res, w') ->
    forallb (fun o => negb (xTerminal o))
      (xStatusReplies env (trace w) (newEvents w w')) = true ->
    res = Some (xTimeoutError txID).

(** A node whose X chain import fails. *)
Definition xImportFails
  : World -> Client -> UserPass -> string -> string -> ID * option error :=
  fun _ _ _ _ _ => (emptyID, Some (ExtError "import failed")).

Definition envImportFails : Env :=
  double noLatency (xAlways XAccepted) (pAlways PCommitted) xImportFails
    (balanceAlways 0) oneUTXOEach.

(** A ledger that accepts the funding transfers (their identifiers are
    small in this double) and rejects every transaction of the chains. *)
Definition xRejectsChains : World -> Client -> ID -> XStatus * option error :=
  fun _ _ id => if (id <? 1000)%N then (XAccepted, None) else (XRejected, None).

Definition envRejectsChains : Env :=
  double noLatency xRejectsChains (pAlways PCommitted) xImportOk
    (balanceAlways 30) oneUTXOEach.

(** A network in which client 1 takes five seconds to answer [IssueTx]. *)
Definition slowFirstAccount : World -> Call -> N :=
  fun _ c =>
    match c with
    | CXIssueTx 1%nat _ => 5000000000%N
    | _ => 0%N
    end.

Definition envSlowFirstAccount : Env :=
  double slowFirstAccount (xAlways XAccepted) (pAlways PCommitted) xImportOk
    (balanceAlways 30) oneUTXOEach.

(** A node that reports no UTXO for any address. *)
Definition envNoUTXOs : Env :=
  double noLatency (xAlways XAccepted) (pAlways PCommitted) xImportOk
    (balanceAlways 30) (fun _ _ _ _ _ _ => ([], None)).

Definition envAllGood : Env :=
  double noLatency (xAlways XAccepted) (pAlways PCommitted) xImportOk
    (balanceAlways 30) oneUTXOEach.

(** Three clients, chains of two transactions, a fee of 10. *)
Definition testExecutor : bombardExecutor :=
  NewBombardExecutor [0%nat; 1%nat; 2%nat] 2 10 (5 * Second).

Definition isIssue (ev : Z * Call) : bool :=
  match snd ev with
  | CXIssueTx _ _ => true
  | _ => false
  end.

(** ** Traces of the workflows *)

(** The errors a wait on the X chain can return for [txID]. *)
Definition xWaitError (txID : ID) (e : error) : Prop :=
  e = xRejectedError txID \/ e = xTimeoutError txID \/
  exists cause, e = Propagated cause "Failed to get status." [].

(** The runs of the two pollers, without fuel.  [XWait env runner txID start
    w polls res w'] is the run, from the world [w], of the loop of
    [waitForXchainTransactionAcceptance] that was entered at the time
    [start]: [polls] are its calls, [res] is its result and [w'] the world
    it leaves.  The loop ends with the timeout error, without a call, once
    the timeout has elapsed; within the timeout it asks the status of the
    transaction: an error of the query, the status Accepted and the status
    Rejected end it at once; after every other status it sleeps one second
    and goes round again. *)
Section Waits.

Variable env : Env.
Variable runner : RPCWorkFlowRunner.
Variable txID : ID.
Variable start : Z.

Inductive XWait : World -> History -> option error -> World -> Prop :=
| XWaitTimeout w :
    networkAcceptanceTimeout runner <= now w - start ->
    XWait w [] (Some (xTimeoutError txID)) w
| XWaitStatusError w s e :
    now w - start < networkAcceptanceTimeout runner ->
    xGetTxStatus env w (client runner) txID = (s, Some e) ->
    XWait w [(now w, CXGetTxStatus (client runner) txID)]
      (Some (Propagated e "Failed to get status." []))
      (advance env w (CXGetTxStatus (client runner) txID) 0)
| XWaitAccepted w :
    now w - start < networkAcceptanceTimeout runner ->
    xGetTxStatus env w (client runner) txID = (XAccepted, None) ->
    XWait w [(now w, CXGetTxStatus (client runner) txID)] None
      (advance env w (CXGetTxStatus (client runner) txID) 0)
| XWaitRejected w :
    now w - start < networkAcceptanceTimeout runner ->
    xGetTxStatus env w (client runner) txID = (XRejected, None) ->
    XWait w [(now w, CXGetTxStatus (client runner) txID)]
      (Some (xRejectedError txID))
      (advance env w (CXGetTxStatus (client runner) txID) 0)
| XWaitAgain w s polls res w' :
    now w - start < networkAcceptanceTimeout runner ->
    xGetTxStatus env w (client runner) txID = (s, None) ->
    s <> XAccepted -> s <> XRejected ->
    XWait
      (advance env (advance env w (CXGetTxStatus (client runner) txID) 0)
         (CSleep Second) Second)
      polls res w' ->
    XWait w
      ((now w, CXGetTxStatus (client runner) txID)
       :: (now (advance env w (CXGetTxStatus (client runner) txID) 0),
           CSleep Second)
       :: polls)
      res w'.

(** The same for [waitForPChainTransactionAcceptance]: Committed is the
    accepting status, Dropped and Aborted are the abandoning ones. *)
Inductive PWait : World -> History -> option error -> World -> Prop :=
| PWaitTimeout w :
    networkAcceptanceTimeout runner <= now w - start ->
    PWait w [] (Some (pTimeoutError txID)) w
| PWaitStatusError w s e :
    now w - start < networkAcceptanceTimeout runner ->
    pGetTxStatus env w (client runner) txID = (s, Some e) ->
    PWait w [(now w, CPGetTxStatus (client runner) txID)]
      (Some (Propagated e "Failed to get status" []))
      (advance env w (CPGetTxStatus (client runner) txID) 0)
| PWaitCommitted w :
    now w - start < networkAcceptanceTimeout runner ->
    pGetTxStatus env w (client runner) txID = (PCommitted, None) ->
    PWait w [(now w, CPGetTxStatus (client runner) txID)] None
      (advance env w (CPGetTxStatus (client runner) txID) 0)
| PWaitAbandoned w s :
    now w - start < networkAcceptanceTimeout runner ->
    pGetTxStatus env w (client runner) txID = (s, None) ->
    s = PDropped \/ s = PAborted ->
    PWait w [(now w, CPGetTxStatus (client runner) txID)]
      (Some (pAbandonedError txID s))
      (advance env w (CPGetTxStatus (client runner) txID) 0)
| PWaitAgain w s polls res w' :
    now w - start < networkAcceptanceTimeout runner ->
    pGetTxStatus env w (client runner) txID = (s, None) ->
    s <> PCommitted -> s <> PDropped -> s <> PAborted ->
    PWait
      (advance env (advance env w (CPGetTxStatus (client runner) txID) 0)
         (CSleep Second) Second)
      polls res w' ->
    PWait w
      ((now w, CPGetTxStatus (client runner) txID)
       :: (now (advance env w (CPGetTxStatus (client runner) txID) 0),
           CSleep Second)
       :: polls)
      res w'.

End Waits.

Section Traces.

Variable env : Env.
Variable runner : RPCWorkFlowRunner.

(** The runs of [FundXChainAddresses] for an amount, from the world [w]:
    the calls made, the result and the world left.  For the addresses in
    order: one transfer of the amount, then the wait for the transaction
    that the transfer returned, entered when the transfer has returned.
    The transfer for the next address is made only when that wait has
    ended with success, which it does with a status query answered
    Accepted.  The error of the first transfer or wait that fails is the
    result, as it is, and nothing is called after it. *)
Inductive FundTrace (amount : Z)
  : World -> list string -> History -> option error -> World -> Prop :=
| FundDone w :
    FundTrace amount w [] [] None w
| FundSendError w address rest txID e :
    xSend env w (client runner) (userPass runner) amount AvaxAssetID address
    = (txID, Some e) ->
    FundTrace amount w (address :: rest)
      [(now w, CXSend (client runner) (userPass runner) amount AvaxAssetID
                 address)]
      (Some e)
      (advance env w
         (CXSend (client runner) (userPass runner) amount AvaxAssetID address) 0)
| FundWaitError w address rest txID polls e w1 :
    xSend env w (client runner) (userPass runner) amount AvaxAssetID address
    = (txID, None) ->
    XWait env runner txID
      (now (advance env w
              (CXSend (client runner) (userPass runner) amount AvaxAssetID
                 address) 0))
      (advance env w
         (CXSend (client runner) (userPass runner) amount AvaxAssetID address) 0)
      polls (Some e) w1 ->
    FundTrace amount w (address :: rest)
      ((now w, CXSend (client runner) (userPass runner) amount AvaxAssetID
                 address) :: polls)
      (Some e) w1
| FundAccepted w address rest txID polls w1 evs res w2 :
    xSend env w (client runner) (userPass runner) amount AvaxAssetID address
    = (txID, None) ->
    XWait env runner txID
      (now (advance env w
              (CXSend (client runner) (userPass runner) amount AvaxAssetID
                 address) 0))
      (advance env w
         (CXSend (client runner) (userPass runner) amount AvaxAssetID address) 0)
      polls None w1 ->
    FundTrace amount w1 rest evs res w2 ->
    FundTrace amount w (address :: rest)
      ((now w, CXSend (client runner) (userPass runner) amount AvaxAssetID
                 address) :: polls ++ evs)
      res w2.

(** The runs of [IssueTxList]: the transactions are submitted one after
    the other, with no other call between, up to the first submission that
    fails. *)
Inductive IssueTrace
  : History -> list (list byte) -> History -> option error -> Prop :=
| IssueDone h :
    IssueTrace h [] [] None
| IssueError h t txBytes rest txID e :
    xIssueTx env {| now := t; trace := h |} (client runner) txBytes
    = (txID, Some e) ->
    IssueTrace h (txBytes :: rest) [(t, CXIssueTx (client runner) txBytes)]
      (Some (Propagated e "Failed to issue transaction." []))
| IssueNext h t txBytes rest txID evs res :
    xIssueTx env {| now := t; trace := h |} (client runner) txBytes
    = (txID, None) ->
    IssueTrace (h ++ [(t, CXIssueTx (client runner) txBytes)]) rest evs res ->
    IssueTrace h (txBytes :: rest)
      ((t, CXIssueTx (client runner) txBytes) :: evs) res.

(** The runs of [AwaitXChainTxs] from the world [w]: the identifiers are
    awaited in order, each by a wait entered when the wait before it has
    ended with success; the error of the first wait that fails is the
    result, and no later identifier is asked for. *)
Inductive AwaitTrace
  : World -> list ID -> History -> option error -> World -> Prop :=
| AwaitDone w :
    AwaitTrace w [] [] None w
| AwaitError w txID rest polls e w1 :
    XWait env runner txID (now w) w polls (Some e) w1 ->
    AwaitTrace w (txID :: rest) polls (Some e) w1
| AwaitNext w txID rest polls w1 evs res w2 :
    XWait env runner txID (now w) w polls None w1 ->
    AwaitTrace w1 rest evs res w2 ->
    AwaitTrace w (txID :: rest) (polls ++ evs) res w2.

(** The runs of [AwaitPChainTxs], likewise on the P chain. *)
Inductive AwaitPTrace
  : World -> list ID -> History -> option error -> World -> Prop :=
| AwaitPDone w :
    AwaitPTrace w [] [] None w
| AwaitPError w txID rest polls e w1 :
    PWait env runner txID (now w) w polls (Some e) w1 ->
    AwaitPTrace w (txID :: rest) polls (Some e) w1
| AwaitPNext w txID rest polls w1 evs res w2 :
    PWait env runner txID (now w) w polls None w1 ->
    AwaitPTrace w1 rest evs res w2 ->
    AwaitPTrace w (txID :: rest) (polls ++ evs) res w2.

End Traces.

(** The transfers among the events: amount, asset and target of each. *)
Definition sendsOf (evs : History) : list (Z * string * string) :=
  flat_map (fun ev => match snd ev with
                      | CXSend _ _ amount asset to => [(amount, asset, to)]
                      | _ => []
                      end) evs.

(** ** Reasoning about runs *)

(** [wp m w Post]: the run of [m] from [w] ends in an outcome and a world
    that, with the events the run added, satisfy [Post]. *)
Definition wp {A} (m : M A) (w : World)
    (Post : outcome A -> World -> History -> Prop) : Prop :=
  exists out w' evs, m w = (out, w') /\ trace w' = trace w ++ evs /\ Post out w' evs.

(** [quiet Q m]: whatever [m] calls is in the class [Q], from any world. *)
Definition quiet {A} (Q : Call -> bool) (m : M A) : Prop :=
  forall w, wp m w (fun _ _ evs => Forall (fun ev => Q (snd ev) = true) evs).

(** The funding calls: transfers of the seed amount of AVAX, and polling. *)
Definition fundCall (seed : Z) (c : Call) : bool :=
  match c with
  | CXSend _ _ amount asset _ => (amount =? seed) && String.eqb asset AvaxAssetID
  | CXGetTxStatus _ _ | CSleep _ => true
  | _ => false
  end.

(** The verification calls: balance queries and UTXO fetches. *)
Definition verifyCall (c : Call) : bool :=
  match c with
  | CXGetBalance _ _ _ | CXGetUTXOs _ _ _ _ _ => true
  | _ => false
  end.

(** The calls of the later phases: no transfer and no balance query. *)
Definition laterCall (c : Call) : bool :=
  match c with
  | CXSend _ _ _ _ _ | CXGetBalance _ _ _ => false
  | _ => true
  end.

(** What the balance queries among the events were answered: address,
    balance and error. *)
Fixpoint balanceReplies (env : Env) (h evs : History)
  : list (string * Z * option error) :=
  match evs with
  | [] => []
  | (t, c) :: rest =>
    match c with
    | CXGetBalance cl addr asset =>
      [(addr, fst (xGetBalance env {| now := t; trace := h |} cl addr asset),
              snd (xGetBalance env {| now := t; trace := h |} cl addr asset))]
    | _ => []
    end ++ balanceReplies env (h ++ [(t, c)]) rest
  end.

Definition balanceMismatch (address : string) (expected actual : Z) : error :=
  NewError
    "Found unexpected X Chain Balance for address: %s. Expected: %v, found: %v"
    [ArgStr address; ArgInt expected; ArgInt actual].



(** ** Further definitions *)

(** The errors a wait on the P chain can return for [txID]. *)
Definition pWaitError (txID : ID) (e : error) : Prop :=
  (exists s, (s = PDropped \/ s = PAborted) /\ e = pAbandonedError txID s) \/
  e = pTimeoutError txID \/
  exists cause, e = Propagated cause "Failed to get status" [].

(** [endsAt m w R P]: the run of [m] from [w] does not run out of fuel;
    its result satisfies [R] and its panic [P], with the world they leave. *)
Definition endsAt {A} (m : M A) (w : World) (R : A -> World -> Prop)
    (P : panicValue -> World -> Prop) : Prop :=
  match m w with
  | (Ret a, w') => R a w'
  | (Panic p, w') => P p w'
  | (OutOfFuel, _) => False
  end.

(** The panic of [issueTxsAsync]: the last call of the run is an [IssueTx]
    that was answered with an error, and the panic carries that error,
    wrapped by [IssueTxList]. *)
Definition issueFailed (env : Env) (p : panicValue) (w : World) : Prop :=
  exists h t cl tx cause,
    trace w = h ++ [(t, CXIssueTx cl tx)] /\
    snd (xIssueTx env {| now := t; trace := h |} cl tx) = Some cause /\
    p = PanicError (Propagated cause "Failed to issue transaction." []).

(** The part each client plays in [ExecuteTest], [genesis] being the first
    client and [others] the rest: the genesis client imports the genesis
    key, lists its addresses, sends the seed amounts, fetches the UTXOs and
    is asked every transaction status; the other clients create addresses,
    are asked their balance, export their key and issue transactions.
    Nothing is moved between the chains and the P chain is asked no
    status. *)
Definition clientRole (genesis : Client) (others : list Client) (c : Call)
  : bool :=
  match c with
  | CRandInt | CSleep _ | CCreateConsecutiveTransactions _ _ _ _ _ => true
  | CKeystoreCreateUser cl _ =>
    Nat.eqb cl genesis || existsb (Nat.eqb cl) others
  | CXImportKey cl _ _ | CXListAddresses cl _ | CXSend cl _ _ _ _
  | CXGetTxStatus cl _ | CXGetUTXOs cl _ _ _ _ => Nat.eqb cl genesis
  | CXCreateAddress cl _ | CPCreateAddress cl _ | CXGetBalance cl _ _
  | CXExportKey cl _ _ | CXIssueTx cl _ => existsb (Nat.eqb cl) others
  | CXExportAVAX _ _ _ _ | CXImportAVAX _ _ _ _ | CPExportAVAX _ _ _ _
  | CPImportAVAX _ _ _ _ | CPGetTxStatus _ _ => false
  end.

(** What a loop of [ExecuteTest] leaves of the run: nothing when the loop
    is done, else the value returned from inside it or its panic. *)
Definition stopOf {A} (out : outcome (option error + A))
  : option (outcome (option error)) :=
  match out with
  | Ret (inl res) => Some (Ret res)
  | Ret (inr _) => None
  | Panic p => Some (Panic p)
  | OutOfFuel => Some OutOfFuel
  end.

Section BuildTraces.

Variable env : Env.
Variable e : bombardExecutor.
Variable secondaryClients : list (option RPCWorkFlowRunner).
Variable xChainAddrs : list string.
Variable utxoLists : list (list (option UTXO)).

(** The runs of the loop that builds the chains, from client [i] on and
    after the history [h]: the calls made and how the loop stops.  For
    every client the key of its address is exported through that client;
    the text after the prefix is decoded and made a key; the chain is built
    from the first UTXO of the address with that key and the executor's
    [numTxs], seed amount and [txFee].  The first failure ends the loop. *)
Inductive BuildTrace
  : History -> nat -> list Client -> History ->
    option (outcome (option error)) -> Prop :=
| BuildDone h i :
    BuildTrace h i [] [] None
| BuildNoUTXO h i cl rest :
    nth_error utxoLists i = Some [] ->
    BuildTrace h i (cl :: rest) [] (Some (Panic (IndexOutOfRange 0 0)))
| BuildExportFails h i cl rest runner addr t pkStr er :
    nth_error secondaryClients i = Some (Some runner) ->
    nth_error xChainAddrs i = Some addr ->
    xExportKey env {| now := t; trace := h |} cl (User runner) addr
    = (pkStr, Some er) ->
    BuildTrace h i (cl :: rest) [(t, CXExportKey cl (User runner) addr)]
      (Some (Ret (Some (Propagated er "Failed to export key." []))))
| BuildNoPrefix h i cl rest runner addr t pkStr :
    nth_error secondaryClients i = Some (Some runner) ->
    nth_error xChainAddrs i = Some addr ->
    xExportKey env {| now := t; trace := h |} cl (User runner) addr
    = (pkStr, None) ->
    prefix "PrivateKey-" pkStr = false ->
    BuildTrace h i (cl :: rest) [(t, CXExportKey cl (User runner) addr)]
      (Some (Ret (Some (Errorf "private key missing %s prefix"
                          [ArgStr "PrivateKey-"]))))
| BuildBadKey h i cl rest runner addr t body pkBytes er :
    nth_error secondaryClients i = Some (Some runner) ->
    nth_error xChainAddrs i = Some addr ->
    xExportKey env {| now := t; trace := h |} cl (User runner) addr
    = (("PrivateKey-" ++ body)%string, None) ->
    formattingDecode env body = (pkBytes, Some er) ->
    BuildTrace h i (cl :: rest) [(t, CXExportKey cl (User runner) addr)]
      (Some (Ret (Some (ErrorfWrap "problem parsing private key: %w" [] er))))
| BuildNilKey h i cl rest runner addr t body pkBytes er :
    nth_error secondaryClients i = Some (Some runner) ->
    nth_error xChainAddrs i = Some addr ->
    xExportKey env {| now := t; trace := h |} cl (User runner) addr
    = (("PrivateKey-" ++ body)%string, None) ->
    formattingDecode env body = (pkBytes, None) ->
    toPrivateKey env pkBytes = (None, er) ->
    BuildTrace h i (cl :: rest) [(t, CXExportKey cl (User runner) addr)]
      (Some (Panic NilInterfaceConversion))
| BuildChainFails h i cl rest runner addr t body pkBytes sk er utxo utxos t'
    txs txIDs er' :
    nth_error secondaryClients i = Some (Some runner) ->
    nth_error xChainAddrs i = Some addr ->
    nth_error utxoLists i = Some (utxo :: utxos) ->
    xExportKey env {| now := t; trace := h |} cl (User runner) addr
    = (("PrivateKey-" ++ body)%string, None) ->
    formattingDecode env body = (pkBytes, None) ->
    toPrivateKey env pkBytes = (Some sk, er) ->
    createConsecutiveTransactions env utxo (numTxs e) (seedAmount e) (txFee e) sk
    = (txs, txIDs, Some er') ->
    BuildTrace h i (cl :: rest)
      [(t, CXExportKey cl (User runner) addr);
       (t', CCreateConsecutiveTransactions utxo (numTxs e) (seedAmount e)
              (txFee e) sk)]
      (Some (Ret (Some (Propagated er' "Failed to create transaction list." []))))
| BuildNext h i cl rest runner addr t body pkBytes sk er utxo utxos t'
    txs txIDs evs stop :
    nth_error secondaryClients i = Some (Some runner) ->
    nth_error xChainAddrs i = Some addr ->
    nth_error utxoLists i = Some (utxo :: utxos) ->
    xExportKey env {| now := t; trace := h |} cl (User runner) addr
    = (("PrivateKey-" ++ body)%string, None) ->
    formattingDecode env body = (pkBytes, None) ->
    toPrivateKey env pkBytes = (Some sk, er) ->
    createConsecutiveTransactions env utxo (numTxs e) (seedAmount e) (txFee e) sk
    = (txs, txIDs, None) ->
    BuildTrace
      (h ++ [(t, CXExportKey cl (User runner) addr);
             (t', CCreateConsecutiveTransactions utxo (numTxs e) (seedAmount e)
                    (txFee e) sk)])
      (Datatypes.S i) rest evs stop ->
    BuildTrace h i (cl :: rest)
      ((t, CXExportKey cl (User runner) addr)
       :: (t', CCreateConsecutiveTransactions utxo (numTxs e) (seedAmount e)
                 (txFee e) sk)
       :: evs)
      stop.

End BuildTraces.

(** ** The staking workflows

    [AddValidatorToPrimaryNetwork], [AddDelegatorToPrimaryNetwork],
    [ImportGenesisFundsAndStartValidating] and [SendAVAXBackAndForth] make
    calls that the workflows above do not make.  Their history holds the
    calls of both kinds, in the order made.  The clock reads nanoseconds
    since the epoch. *)

Definition Hour : Duration := 3600 * Second.
Definition DefaultStakingDelay : Duration := 20 * Second.
Definition DefaultStakingPeriod : Duration := 72 * Hour.
Definition DefaultDelegationDelay : Duration := 20 * Second.
Definition stakingPeriodSynchronyDelay : Duration := 3 * Second.
Definition DefaultDelegationPeriod : Duration := 36 * Hour.

(** [DefaultDelegationFeeRate float32 = 2], a whole number. *)
Definition DefaultDelegationFeeRate : Z := 2.

(** [time.Time.Unix]: the seconds of a clock reading. *)
Definition Unix (t : Z) : Z := t / Second.

(** The further calls.  The addresses [from] and [changeAddr] of
    [AddDelegator] are always [nil] and the empty string.  A send on the
    channel [errs] is a call as well: it returns when the message is
    taken. *)
Inductive StakingCall :=
| CInfoGetNodeID (c : Client)
| CPAddValidator (c : Client) (u : UserPass) (rewardAddress nodeID : string)
    (stakeAmount startTime endTime : Z) (delegationFeeRate : Z)
| CPAddDelegator (c : Client) (u : UserPass) (rewardAddress nodeID : string)
    (stakeAmount startTime endTime : Z)
| CErrsSend (err : option error).

Definition SHistory := list (Z * (Call + StakingCall)).

Record SWorld := { snow : Z; strace : SHistory }.

(** The test double of the staking workflows.  The answers to the calls
    of the workflows above may depend on the whole history: [nodeEnv] is
    given the history at the moment such a workflow is entered. *)
Record StakingEnv := {
  nodeEnv : SHistory -> Env;
  stakingLatency : SWorld -> StakingCall -> N;
  infoGetNodeID : SWorld -> Client -> string * option error;
  pAddValidator : SWorld -> Client -> UserPass -> string -> string ->
                  Z -> Z -> Z -> Z -> ID * option error;
  pAddDelegator : SWorld -> Client -> UserPass -> string -> string ->
                  Z -> Z -> Z -> ID * option error
}.

Definition SM (A : Type) := SWorld -> outcome A * SWorld.

Definition sret {A} (a : A) : SM A := fun w => (Ret a, w).

Definition sbind {A B} (m : SM A) (k : A -> SM B) : SM B :=
  fun w =>
    match m w with
    | (Ret a, w') => k a w'
    | (Panic p, w') => (Panic p, w')
    | (OutOfFuel, w') => (OutOfFuel, w')
    end.

Declare Scope staking_scope.
Delimit Scope staking_scope with staking.
Notation "x <- m ;; k" := (sbind m (fun x => k))
  (at level 61, m at next level, right associativity) : staking_scope.
Notation "' pat <- m ;; k" := (sbind m (fun x => match x with pat => k end))
  (at level 61, pat pattern, m at next level, right associativity)
  : staking_scope.
Notation "m ;; k" := (sbind m (fun _ => k))
  (at level 61, right associativity) : staking_scope.

(** The calls of the workflows above among the events, and back. *)
Definition baseEvents (h : SHistory) : History :=
  flat_map (fun ev => match snd ev with
                      | inl c => [(fst ev, c)]
                      | inr _ => []
                      end) h.

Definition inBase (evs : History) : SHistory :=
  map (fun ev => (fst ev, inl (snd ev))) evs.

Definition baseWorld (w : SWorld) : World :=
  {| now := snow w; trace := baseEvents (strace w) |}.

Section StakingRunner.

Variable senv : StakingEnv.

Local Open Scope staking_scope.

(** One of the workflows above, run within a staking workflow: it sees
    the clock and the calls of its own kind, and what it calls is added to
    the history. *)
Definition lift {A} (m : Env -> M A) : SM A :=
  fun w =>
    let '(out, w') := m (nodeEnv senv (strace w)) (baseWorld w) in
    (out, {| snow := now w';
             strace := strace w ++ inBase (newEvents (baseWorld w) w') |}).

Definition scall {A} (c : StakingCall) (h : SWorld -> A) : SM A :=
  fun w =>
    (Ret (h w),
     {| snow := snow w + Z.of_N (stakingLatency senv w c);
        strace := strace w ++ [(snow w, inr c)] |}).

Definition stimeNow : SM Z := fun w => (Ret (snow w), w).

(** [time.Sleep(time.Until(t) + d)] *)
Definition sleepUntil (t : Z) (d : Duration) : SM unit :=
  current <- stimeNow ;;
  lift (fun env => timeSleep env (t - current + d)).

(** [AddDelegatorToPrimaryNetwork] *)
Definition AddDelegatorToPrimaryNetwork (runner : RPCWorkFlowRunner)
    (delegateeNodeID pChainAddress : string) (stakeAmount : Z)
  : SM (option error) :=
  current <- stimeNow ;;
  let delegatorStartTime := current + DefaultDelegationDelay in
  let startTime := wrap64 (Unix delegatorStartTime) in
  let endTime := wrap64 (Unix (delegatorStartTime + DefaultDelegationPeriod)) in
  '(addDelegatorTxID, err) <-
     scall (CPAddDelegator (client runner) (userPass runner) pChainAddress
              delegateeNodeID stakeAmount startTime endTime)
       (fun w => pAddDelegator senv w (client runner) (userPass runner)
                   pChainAddress delegateeNodeID stakeAmount startTime endTime) ;;
  match err with
  | Some e =>
    sret (Propagate (Some e) "Failed to add delegator %s" [ArgStr pChainAddress])
  | None =>
    err <- lift (fun env =>
                   waitForPChainTransactionAcceptance env runner addDelegatorTxID) ;;
    match err with
    | Some e =>
      sret (Propagate (Some e) "Failed to accept AddDelegator tx: %s"
              [ArgID addDelegatorTxID])
    | None =>
      sleepUntil delegatorStartTime stakingPeriodSynchronyDelay ;;
      sret None
    end
  end.

(** [AddValidatorToPrimaryNetwork] *)
Definition AddValidatorToPrimaryNetwork (runner : RPCWorkFlowRunner)
    (nodeID pchainAddress : string) (stakeAmount : Z) : SM (option error) :=
  current <- stimeNow ;;
  let stakingStartTime := current + DefaultStakingDelay in
  let startTime := wrap64 (Unix stakingStartTime) in
  let endTime := wrap64 (Unix (stakingStartTime + DefaultStakingPeriod)) in
  '(addStakerTxID, err) <-
     scall (CPAddValidator (client runner) (userPass runner) pchainAddress
              nodeID stakeAmount startTime endTime DefaultDelegationFeeRate)
       (fun w => pAddValidator senv w (client runner) (userPass runner)
                   pchainAddress nodeID stakeAmount startTime endTime
                   DefaultDelegationFeeRate) ;;
  match err with
  | Some e =>
    sret (Propagate (Some e) "Failed to add validator to primrary network %s"
            [ArgStr nodeID])
  | None =>
    err <- lift (fun env =>
                   waitForPChainTransactionAcceptance env runner addStakerTxID) ;;
    match err with
    | Some e =>
      sret (Propagate (Some e) "Failed to confirm AddValidator Tx: %s"
              [ArgID addStakerTxID])
    | None =>
      sleepUntil stakingStartTime stakingPeriodSynchronyDelay ;;
      sret None
    end
  end.

(** [ImportGenesisFundsAndStartValidating] *)
Definition ImportGenesisFundsAndStartValidating (runner : RPCWorkFlowRunner)
    (seedAmount stakeAmount : Z) : SM (string * option error) :=
  '(stakerNodeID, err) <-
     scall (CInfoGetNodeID (client runner))
       (fun w => infoGetNodeID senv w (client runner)) ;;
  match err with
  | Some e => sret (""%string, Propagate (Some e) "Could not get staker node ID." [])
  | None =>
    '(_, err) <- lift (fun env => ImportGenesisFunds env runner) ;;
    match err with
    | Some e =>
      sret (""%string,
            Propagate (Some e) "Could not seed XChain account from Genesis." [])
    | None =>
      '(pChainAddress, err) <-
         lift (fun env =>
                 call env (CPCreateAddress (client runner) (userPass runner))
                   (fun h => pCreateAddress env h (client runner)
                               (userPass runner))) ;;
      match err with
      | Some e =>
        sret (""%string,
              Propagate (Some e) "Failed to create new address on PChain" [])
      | None =>
        err <- lift (fun env =>
                       TransferAvaXChainToPChain env runner pChainAddress
                         seedAmount) ;;
        match err with
        | Some e =>
          sret (""%string,
                Propagate (Some e)
                  "Could not transfer AVAX from XChain to PChain account information"
                  [])
        | None =>
          err <- AddValidatorToPrimaryNetwork runner stakerNodeID pChainAddress
                   stakeAmount ;;
          match err with
          | Some e =>
            sret (""%string,
                  Propagate (Some e) "Could not add staker %s to primary network."
                    [ArgStr stakerNodeID])
          | None => sret (pChainAddress, None)
          end
        end
      end
    end
  end.



End StakingRunner.


(** The world after a call of the staking layer made in [w]. *)
Definition sadvance (senv : StakingEnv) (w : SWorld) (c : StakingCall) : SWorld :=
  {| snow := snow w + Z.of_N (stakingLatency senv w c);
     strace := strace w ++ [(snow w, inr c)] |}.

(** What follows a staking request that was taken and left the world [w1],
    [evs] being the calls that follow, [res] the result of the workflow
    and [w'] the world at its end: the wait for the request's transaction
    on the P chain, which is the run [PWait] of the poller entered in
    [w1].  When the wait fails, nothing more is called and the result is
    its error wrapped in the message [failure] with the transaction's
    identifier.  When it ends with the answer Committed, the workflow
    sleeps once, until the moment [wake], and returns nil at that moment
    or later. *)
Definition afterRequest (senv : StakingEnv) (runner : RPCWorkFlowRunner)
    (txID : ID) (failure : string) (wake : Z) (w1 : SWorld)
    (res : option error) (w' : SWorld) (evs : History) : Prop :=
  exists polls wres w2,
    PWait (nodeEnv senv (strace w1)) runner txID (snow w1) (baseWorld w1)
      polls wres w2 /\
    match wres with
    | Some e =>
      evs = polls /\ res = Some (Propagated e failure [ArgID txID])
    | None =>
      evs = polls ++ [(now w2, CSleep (wake - now w2))] /\ res = None /\
      wake <= snow w'
    end.



(** The runs of the loop of [SendAVAXBackAndForth] from the counter [i]
    and the world [w]: the calls made and the world left.  The loop ends
    when the counter has reached [numTxs].  Else the transfer number [i]
    is made; an error of the transfer is reported on the channel; the
    transaction that the transfer returned is awaited all the same, by the
    run [XWait] of the poller; an error of the wait is reported on the
    channel; and the loop goes on with the next counter. *)
Section SendTraces.

Variable senv : StakingEnv.
Variable runner : RPCWorkFlowRunner.
Variable to : string.
Variable amount txFee numTxs : Z.


End SendTraces.

(** ** The phases of [ExecuteTest] *)

(** [phased phases evs]: the events fall into consecutive stretches, one
    for each phase and in the order of the phases, the calls of a stretch
    being of the class of its phase; a stretch may be empty. *)
Fixpoint phased (phases : list (Call -> bool)) (evs : History) : Prop :=
  match phases with
  | [] => evs = []
  | Q :: rest =>
    exists a b,
      evs = a ++ b /\ Forall (fun ev => Q (snd ev) = true) a /\ phased rest b
  end.

(** Users and addresses are created, the genesis key is imported and the
    genesis addresses are listed. *)
Definition setupPhase (c : Call) : bool :=
  match c with
  | CRandInt | CKeystoreCreateUser _ _ | CXCreateAddress _ _
  | CPCreateAddress _ _ | CXImportKey _ _ _ | CXListAddresses _ _ => true
  | _ => false
  end.

(** Keys are exported and chains are built, with the executor's [numTxs],
    seed amount and [txFee]. *)
Definition buildPhase (e : bombardExecutor) (c : Call) : bool :=
  match c with
  | CXExportKey _ _ _ => true
  | CCreateConsecutiveTransactions _ n amount fee _ =>
    (n =? numTxs e) && (amount =? seedAmount e) && (fee =? txFee e)
  | _ => false
  end.

Definition issuePhase (c : Call) : bool :=
  match c with
  | CXIssueTx _ _ => true
  | _ => false
  end.

Definition confirmPhase (c : Call) : bool :=
  match c with
  | CXGetTxStatus _ _ | CSleep _ => true
  | _ => false
  end.

(** The six phases of a run of [ExecuteTest]. *)
Definition bombardPhases (e : bombardExecutor) : list (Call -> bool) :=
  [setupPhase; fundCall (seedAmount e); verifyCall; buildPhase e; issuePhase;
   confirmPhase].

(** ** The addresses created and funded *)

(** What the creations of an X chain address among the events [evs], made
    after the history [h], were answered: address and error. *)
Fixpoint xCreateReplies (env : Env) (h evs : History)
  : list (string * option error) :=
  match evs with
  | [] => []
  | (t, c) :: rest =>
    match c with
    | CXCreateAddress cl u =>
      [xCreateAddress env {| now := t; trace := h |} cl u]
    | _ => []
    end ++ xCreateReplies env (h ++ [(t, c)]) rest
  end.

Definition isXCreate (c : Call) : bool :=
  match c with
  | CXCreateAddress _ _ => true
  | _ => false
  end.

(** The calls that neither transfer nor create an X chain address. *)
Definition bystander (c : Call) : bool :=
  match c with
  | CXSend _ _ _ _ _ | CXCreateAddress _ _ => false
  | _ => true
  end.

(** ** The chains built and issued *)

(** The chains that the builder returned to the building calls among the
    events, and the transactions that the issuing calls submitted. *)
Definition builtOf (env : Env) (evs : History) : list (list (list byte)) :=
  flat_map (fun ev =>
              match snd ev with
              | CCreateConsecutiveTransactions utxo n amount fee key =>
                [fst (fst (createConsecutiveTransactions env utxo n amount
                             fee key))]
              | _ => []
              end) evs.

Definition issuedOf (evs : History) : list (list byte) :=
  flat_map (fun ev => match snd ev with
                      | CXIssueTx _ tx => [tx]
                      | _ => []
                      end) evs.

(** The calls that neither build a chain nor issue a transaction. *)
Definition noChain (c : Call) : bool :=
  match c with
  | CCreateConsecutiveTransactions _ _ _ _ _ | CXIssueTx _ _ => false
  | _ => true
  end.

(** ** The UTXOs fetched *)

(** What the UTXO fetches among the events [evs], made after the history
    [h], were answered, and what they asked for. *)
Fixpoint utxoReplies (env : Env) (h evs : History)
  : list (list (list byte) * option error) :=
  match evs with
  | [] => []
  | (t, c) :: rest =>
    match c with
    | CXGetUTXOs cl addrs limit startAddress startUTXOID =>
      [xGetUTXOs env {| now := t; trace := h |} cl addrs limit startAddress
         startUTXOID]
    | _ => []
    end ++ utxoReplies env (h ++ [(t, c)]) rest
  end.

Definition utxoFetches (evs : History)
  : list (Client * list string * Z * string * string) :=
  flat_map (fun ev =>
              match snd ev with
              | CXGetUTXOs cl addrs limit startAddress startUTXOID =>
                [(cl, addrs, limit, startAddress, startUTXOID)]
              | _ => []
              end) evs.

(** The UTXOs that the codec makes of byte strings. *)
Definition decoded (env : Env) (utxosBytes : list (list byte))
  : list (option UTXO) :=
  map (fun b => Some (fst (codecUnmarshal env b))) utxosBytes.

(** ** The seed amount through the stages of [ExecuteTest] *)

Definition noError (err : option error) : bool :=
  match err with
  | None => true
  | Some _ => false
  end.

(** Whether a call of the set-up, made in the world [w], was answered
    well: without error and, for the listing of the genesis addresses,
    with exactly one address. *)
Definition answeredWell (env : Env) (w : World) (c : Call) : bool :=
  match c with
  | CKeystoreCreateUser cl u => noError (snd (keystoreCreateUser env w cl u))
  | CXImportKey cl u key => noError (snd (xImportKey env w cl u key))
  | CXCreateAddress cl u => noError (snd (xCreateAddress env w cl u))
  | CPCreateAddress cl u => noError (snd (pCreateAddress env w cl u))
  | CXListAddresses cl u =>
    noError (snd (xListAddresses env w cl u))
    && (len (fst (xListAddresses env w cl u)) =? 1)
  | _ => true
  end.

(** Every call among the events [evs], made after the history [h], was
    answered well. *)
Fixpoint setupOk (env : Env) (h evs : History) : bool :=
  match evs with
  | [] => true
  | (t, c) :: rest =>
    answeredWell env {| now := t; trace := h |} c
    && setupOk env (h ++ [(t, c)]) rest
  end.

(** The events end with the first call that was not answered well. *)
Definition endedAtBadReply (env : Env) (h evs : History) : Prop :=
  exists before t c,
    evs = before ++ [(t, c)] /\
    setupOk env h before = true /\
    answeredWell env {| now := t; trace := h ++ before |} c = false.

Section VerifyTraces.

Variable env : Env.
Variable e : bombardExecutor.
Variable genesisClient : Client.

(** The runs of the loop of [ExecuteTest] that verifies the funded
    addresses, from the world [w] and the index [i], for the clients with
    their addresses that are left: the calls made, how the loop stops
    ([None] when it is done, else the value that [ExecuteTest] returns)
    and the world left.  For each address in turn the balance of AVAX is
    asked through the client of the address.  An error of the query ends
    the run, and so does a balance that is not the seed amount: the error
    returned then names the address, the seed amount expected and the
    balance found.  Only after a balance equal to the seed amount are the
    UTXOs of the address fetched, through the genesis client, and decoded;
    an error of the fetch or of the decoding ends the run; else the loop
    passes to the next address. *)
Inductive VerifyTrace
  : World -> nat -> list (Client * string) -> History ->
    option (option error) -> World -> Prop :=
| VerifyDone w i :
    VerifyTrace w i [] [] None w
| VerifyBalanceError w i cl addr rest balance er :
    xGetBalance env w cl addr AvaxAssetID = (balance, Some er) ->
    VerifyTrace w i ((cl, addr) :: rest)
      [(now w, CXGetBalance cl addr AvaxAssetID)]
      (Some (Some (Propagated
                     (Propagated er "Failed to retrieve X Chain balance." [])
                     "Failed to verify X Chain Balance for Client: %d"
                     [ArgInt (Z.of_nat i)])))
      (advance env w (CXGetBalance cl addr AvaxAssetID) 0)
| VerifyMismatch w i cl addr rest balance :
    xGetBalance env w cl addr AvaxAssetID = (balance, None) ->
    balance <> seedAmount e ->
    VerifyTrace w i ((cl, addr) :: rest)
      [(now w, CXGetBalance cl addr AvaxAssetID)]
      (Some (Some (Propagated
                     (balanceMismatch addr (seedAmount e) balance)
                     "Failed to verify X Chain Balance for Client: %d"
                     [ArgInt (Z.of_nat i)])))
      (advance env w (CXGetBalance cl addr AvaxAssetID) 0)
| VerifyFetchError w i cl addr rest utxosBytes er :
    xGetBalance env w cl addr AvaxAssetID = (seedAmount e, None) ->
    xGetUTXOs env (advance env w (CXGetBalance cl addr AvaxAssetID) 0)
      genesisClient [addr] 10 "" ""
    = (utxosBytes, Some er) ->
    VerifyTrace w i ((cl, addr) :: rest)
      [(now w, CXGetBalance cl addr AvaxAssetID);
       (now (advance env w (CXGetBalance cl addr AvaxAssetID) 0),
        CXGetUTXOs genesisClient [addr] 10 "" "")]
      (Some (Some er))
      (advance env (advance env w (CXGetBalance cl addr AvaxAssetID) 0)
         (CXGetUTXOs genesisClient [addr] 10 "" "") 0)
| VerifyDecodeError w i cl addr rest utxosBytes decodable bytes others er :
    xGetBalance env w cl addr AvaxAssetID = (seedAmount e, None) ->
    xGetUTXOs env (advance env w (CXGetBalance cl addr AvaxAssetID) 0)
      genesisClient [addr] 10 "" ""
    = (utxosBytes, None) ->
    utxosBytes = decodable ++ bytes :: others ->
    Forall (fun b => snd (codecUnmarshal env b) = None) decodable ->
    snd (codecUnmarshal env bytes) = Some er ->
    VerifyTrace w i ((cl, addr) :: rest)
      [(now w, CXGetBalance cl addr AvaxAssetID);
       (now (advance env w (CXGetBalance cl addr AvaxAssetID) 0),
        CXGetUTXOs genesisClient [addr] 10 "" "")]
      (Some (Some (Propagated er "Failed to unmarshal utxo bytes." [])))
      (advance env (advance env w (CXGetBalance cl addr AvaxAssetID) 0)
         (CXGetUTXOs genesisClient [addr] 10 "" "") 0)
| VerifyNext w i cl addr rest utxosBytes evs stop w' :
    xGetBalance env w cl addr AvaxAssetID = (seedAmount e, None) ->
    xGetUTXOs env (advance env w (CXGetBalance cl addr AvaxAssetID) 0)
      genesisClient [addr] 10 "" ""
    = (utxosBytes, None) ->
    Forall (fun b => snd (codecUnmarshal env b) = None) utxosBytes ->
    VerifyTrace
      (advance env (advance env w (CXGetBalance cl addr AvaxAssetID) 0)
         (CXGetUTXOs genesisClient [addr] 10 "" "") 0)
      (Datatypes.S i) rest evs stop w' ->
    VerifyTrace w i ((cl, addr) :: rest)
      ((now w, CXGetBalance cl addr AvaxAssetID)
       :: (now (advance env w (CXGetBalance cl addr AvaxAssetID) 0),
           CXGetUTXOs genesisClient [addr] 10 "" "")
       :: evs)
      stop w'.

(** A run of [ExecuteTest] from its funding on, [others] being the
    clients after the genesis client, [xa] their addresses, [runner] the
    runner of the genesis client and [wF] the world in which the funding
    begins; [rest] are the calls and [out] is the outcome of
    [ExecuteTest].  The funding is the run [FundTrace] of
    [FundXChainAddresses] for the addresses [xa] and the seed amount.  When
    it fails, [ExecuteTest] returns its error, wrapped, and nothing more is
    called.  When it succeeds every address was sent the seed amount, and
    the verification follows, which is the run [VerifyTrace] for the
    clients with their addresses.  When the verification stops,
    [ExecuteTest] returns what it stopped with and nothing more is called:
    no chain is built.  Only when it is done, every address having been
    answered a balance equal to the seed amount, do the later calls
    [post] follow, among which there is no transfer and no balance
    query. *)
Definition seedFunded (others : list Client) (xa : list string)
    (runner : RPCWorkFlowRunner) (wF : World)
    (out : outcome (option error)) (rest : History) : Prop :=
  exists fund fres wV,
    FundTrace env runner (seedAmount e) wF xa fund fres wV /\
    match fres with
    | Some er =>
      rest = fund /\
      out = Ret (Some (Propagated er
                         "Failed to fund X Chain Addresses for Clients" []))
    | None =>
      sendsOf fund = map (fun a => (seedAmount e, AvaxAssetID, a)) xa /\
      match createXChainCodec env with
      | Some er =>
        rest = fund /\
        out = Ret (Some (Propagated er "Failed to initialize codec." []))
      | None =>
        exists verify vres wB post,
          rest = fund ++ verify ++ post /\
          VerifyTrace wV 0 (combine others xa) verify vres wB /\
          match vres with
          | Some r => post = [] /\ out = Ret r
          | None =>
            balanceReplies env (trace wV) verify
            = map (fun a => (a, seedAmount e, None)) xa /\
            Forall (fun ev => laterCall (snd ev) = true) post
          end
      end
    end.

End VerifyTraces.

(** A run of [ExecuteTest] from the world [w], [evs] being its calls and
    [out] its outcome.  Without a client the run panics at once.  Else the
    run begins with the set-up [setup], which makes no transfer, asks no
    balance and builds no chain.  Either the set-up ends the run, at its
    first call that is not answered well, with an error.  Or every call of
    the set-up was answered well: then an X chain address was created for
    each client after the first (these are the addresses [xa]), the last
    call of the set-up is the listing of the genesis addresses, and the
    run goes on as [seedFunded] from the world that this call has left,
    with the runner of the first client. *)
Definition seedStages (env : Env) (e : bombardExecutor) (w : World)
    (out : outcome (option error)) (evs : History) : Prop :=
  match normalClients e with
  | [] => evs = [] /\ out = Panic (IndexOutOfRange 0 0)
  | genesisClient :: others =>
    exists setup rest,
      evs = setup ++ rest /\
      Forall (fun ev => setupPhase (snd ev) = true) setup /\
      ((rest = [] /\ endedAtBadReply env (trace w) setup /\
        exists er, out = Ret (Some er)) \/
       (setupOk env (trace w) setup = true /\
        List.length (xCreateReplies env (trace w) setup) = List.length others /\
        exists created tL genesisUser,
          setup = created ++ [(tL, CXListAddresses genesisClient genesisUser)] /\
          seedFunded env e genesisClient others
            (map fst (xCreateReplies env (trace w) setup))
            (NewRPCWorkFlowRunner genesisClient genesisUser (acceptanceTimeout e))
            (advance env {| now := tL; trace := trace w ++ created |}
               (CXListAddresses genesisClient genesisUser) 0)
            out rest))
  end.

(** * Properties *)

Section PollFacts.

Variable env : Env.
Variable S : Type.
Variable c : Call.
Variable query : World -> S * option error.
Variable verdict : S -> option (option error).
Variable wrap : error -> option error.
Variable timeoutErr : error.
Variable timeout : Duration.
Variable start : Z.

Let loop := pollLoop env S c query verdict wrap timeoutErr timeout start.
Let Run := PollRun env S c query verdict wrap timeoutErr timeout start.

(** With the fuel of [pollFuel] the loop reaches a result: each round
    sleeps a second at least. *)
Lemma pollLoop_run (fuel : nat) :
  forall w,
    timeout - (now w - start) <= (Z.of_nat fuel - 1) * Second ->
    (0 < fuel)%nat ->
    exists r w', loop fuel w = (Ret r, w') /\ Run w r w'.
Proof.
  subst loop Run.
  induction fuel as [|fuel IH]; intros w Hrem Hpos; [lia|].
  cbn [pollLoop].
  destruct (Z.ltb_spec (now w - start) timeout) as [Hlt|Hge].
  - destruct (snd (query w)) as [e|] eqn:He.
    + eexists _, _; split; [reflexivity|]. now apply PollError.
    + destruct (verdict (fst (query w))) as [r|] eqn:Hv.
      * eexists _, _; split; [reflexivity|]. now apply PollVerdict.
      * destruct (IH (advance env (advance env w c 0) (CSleep Second)
                        (Z.max Second 0))) as (r & w' & Hrun & Hrel).
        -- cbn [advance now]. unfold Second in *. lia.
        -- destruct fuel; [|lia].
           cbn [advance now] in *. unfold Second in *. lia.
        -- exists r, w'; split; [exact Hrun|].
           now apply PollAgain.
  - eexists _, _; split; [reflexivity|]. now apply PollTimeout.
Qed.

(** The observations of a run, for any reading [obs] of the trace that
    sees the query [c] and skips the sleeps. *)
Variable obs : History -> History -> list (Z * S * option error).
Hypothesis obs_nil : forall h, obs h [] = [].
Hypothesis obs_query : forall h t rest,
  obs h ((t, c) :: rest) =
  (t, fst (query {| now := t; trace := h |}),
      snd (query {| now := t; trace := h |})) :: obs (h ++ [(t, c)]) rest.
Hypothesis obs_sleep : forall h t d rest,
  obs h ((t, CSleep d) :: rest) = obs (h ++ [(t, CSleep d)]) rest.

(** The shape of the observations of a run: replies that keep the loop
    going, then at most one last reply, which decides the result. *)
Lemma PollRun_obs w r w' :
  Run w r w' ->
  start <= now w ->
  exists evs pend fin,
    trace w' = trace w ++ evs /\ now w <= now w' /\
    Forall (fun ev => snd ev = c \/ snd ev = CSleep Second) evs /\
    obs (trace w) evs = pend ++ fin /\
    Forall (fun o => snd o = None /\ verdict (snd (fst o)) = None) pend /\
    Forall (fun o => start <= fst (fst o) /\ fst (fst o) - start < timeout)
      (pend ++ fin) /\
    ((fin = [] /\ r = Some timeoutErr /\ timeout <= now w' - start) \/
     (exists t s e evs0,
        fin = [(t, s, Some e)] /\ r = wrap e /\ evs = evs0 ++ [(t, c)]) \/
     (exists t s evs0,
        fin = [(t, s, None)] /\ verdict s = Some r /\ evs = evs0 ++ [(t, c)])).
Proof.
  subst Run.
  induction 1 as [w Hge|w e Hlt He|w r Hlt He Hv|w r w' Hlt He Hv _ IH];
    intros Hstart.
  - exists [], [], []. rewrite app_nil_r, obs_nil.
    repeat split; auto; lia.
  - exists [(now w, c)], [], [(now w, fst (query w), Some e)].
    cbn [advance trace now]. rewrite obs_query, obs_nil.
    destruct w as [t h]; cbn [now trace] in *. rewrite He.
    repeat split; auto; try lia;
      try solve [repeat constructor; cbn [fst snd]; lia].
    right; left. exists t, (fst (query {| now := t; trace := h |})), e, [].
    auto.
  - exists [(now w, c)], [], [(now w, fst (query w), None)].
    cbn [advance trace now]. rewrite obs_query, obs_nil.
    destruct w as [t h]; cbn [now trace] in *. rewrite He.
    repeat split; auto; try lia;
      try solve [repeat constructor; cbn [fst snd]; lia].
    right; right. exists t, (fst (query {| now := t; trace := h |})), [].
    auto.
  - destruct IH as (evs & pend & fin & Htr & Hnow & Hevs & Hobs & Hpend & Hwin & Hfin).
    { cbn [advance now]. unfold Second. lia. }
    cbn [advance trace now] in *.
    set (t' := now w + 0 + Z.of_N (latency env w c)) in *.
    exists ((now w, c) :: (t', CSleep Second) :: evs),
           ((now w, fst (query w), None) :: pend), fin.
    rewrite Htr, <- !app_assoc. cbn [app].
    rewrite obs_query, obs_sleep, Hobs.
    destruct w as [t h]; cbn [now trace] in *. rewrite He.
    repeat split; auto; try (unfold Second in *; subst t'; lia);
      try solve [repeat (constructor; auto); cbn [fst snd]; lia].
    destruct Hfin as [H|[(tf & sf & ef & evs0 & H1 & H2 & H3)|(tf & sf & evs0 & H1 & H2 & H3)]].
    + left; exact H.
    + right; left. exists tf, sf, ef, ((t, c) :: (t', CSleep Second) :: evs0).
      subst evs. auto.
    + right; right. exists tf, sf, ((t, c) :: (t', CSleep Second) :: evs0).
      subst evs. auto.
Qed.

(** What the observations say about the result. *)
Lemma PollRun_summary w r w' :
  Run w r w' ->
  start <= now w ->
  exists evs,
    trace w' = trace w ++ evs /\ now w <= now w' /\
    Forall (fun ev => snd ev = c \/ snd ev = CSleep Second) evs /\
    Forall (fun o => start <= fst (fst o) /\ fst (fst o) - start < timeout)
      (obs (trace w) evs) /\
    (forall t s r0, In (t, s, None) (obs (trace w) evs) ->
       verdict s = Some r0 ->
       r = r0 /\ exists evs0, evs = evs0 ++ [(t, c)]) /\
    (forall t s e, In (t, s, Some e) (obs (trace w) evs) ->
       r = wrap e /\ exists evs0, evs = evs0 ++ [(t, c)]) /\
    ((forall o, In o (obs (trace w) evs) ->
        snd o = None /\ verdict (snd (fst o)) = None) ->
     r = Some timeoutErr /\ timeout <= now w' - start) /\
    (r = Some timeoutErr \/
     (exists t s e, In (t, s, Some e) (obs (trace w) evs) /\ r = wrap e) \/
     (exists t s, In (t, s, None) (obs (trace w) evs) /\ verdict s = Some r)).
Proof.
  intros HR Hstart.
  destruct (PollRun_obs w r w' HR Hstart)
    as (evs & pend & fin & Htr & Hnow & Hevs & Hobs & Hpend & Hwin & Hfin).
  exists evs. rewrite Hobs.
  assert (Hnp : forall t s x, In (t, s, x) pend -> x = None /\ verdict s = None).
  { intros t s x Hin. rewrite Forall_forall in Hpend.
    exact (Hpend _ Hin). }
  split; [exact Htr|]. split; [exact Hnow|]. split; [exact Hevs|].
  split; [exact Hwin|].
  split; [|split; [|split]].
  - intros t s r0 Hin Hv. apply in_app_or in Hin. destruct Hin as [Hin|Hin].
    + apply Hnp in Hin. destruct Hin; congruence.
    + destruct Hfin as [(H & _)|[(tf & sf & ef & evs0 & H1 & H2 & H3)|(tf & sf & evs0 & H1 & H2 & H3)]];
        subst fin; cbn [In] in Hin.
      * contradiction.
      * destruct Hin as [Hin|[]]; congruence.
      * destruct Hin as [Hin|[]]. inversion Hin; subst.
        split; [congruence|]. now exists evs0.
  - intros t s e Hin. apply in_app_or in Hin. destruct Hin as [Hin|Hin].
    + apply Hnp in Hin. destruct Hin; congruence.
    + destruct Hfin as [(H & _)|[(tf & sf & ef & evs0 & H1 & H2 & H3)|(tf & sf & evs0 & H1 & H2 & H3)]];
        subst fin; cbn [In] in Hin.
      * contradiction.
      * destruct Hin as [Hin|[]]. inversion Hin; subst.
        split; [reflexivity|]. now exists evs0.
      * destruct Hin as [Hin|[]]; congruence.
  - intros H.
    destruct Hfin as [(H1 & H2 & H3)|[(tf & sf & ef & evs0 & H1 & H2 & H3)|(tf & sf & evs0 & H1 & H2 & H3)]];
      auto; subst fin; exfalso.
    + destruct (H (tf, sf, Some ef)) as [Hx _];
        [apply in_or_app; right; left; reflexivity|discriminate].
    + destruct (H (tf, sf, None)) as [_ Hx];
        [apply in_or_app; right; left; reflexivity|].
      cbn [fst snd] in Hx. congruence.
  - destruct Hfin as [(H1 & H2 & H3)|[(tf & sf & ef & evs0 & H1 & H2 & H3)|(tf & sf & evs0 & H1 & H2 & H3)]].
    + left; assumption.
    + right; left. exists tf, sf, ef. split; [|assumption].
      apply in_or_app; right. subst fin; left; reflexivity.
    + right; right. exists tf, sf. split; [|assumption].
      apply in_or_app; right. subst fin; left; reflexivity.
Qed.

(** How a run ends: on the timeout, on a failed query, or on a reply,
    the last event of the run, that the verdict takes for final. *)
Lemma PollRun_last w r w' :
  Run w r w' ->
  exists evs,
    trace w' = trace w ++ evs /\
    Forall (fun ev => snd ev = c \/ snd ev = CSleep Second) evs /\
    (r = Some timeoutErr \/ (exists e, r = wrap e) \/
     (exists evs0 t s,
        evs = evs0 ++ [(t, c)] /\
        query {| now := t; trace := trace w ++ evs0 |} = (s, None) /\
        verdict s = Some r)).
Proof.
  subst Run.
  induction 1 as [w Hge|w e Hlt He|w r Hlt He Hv|w r w' Hlt He Hv _ IH].
  - exists []. rewrite app_nil_r. auto.
  - exists [(now w, c)]. cbn [advance trace]. split; [reflexivity|].
    split; [repeat constructor; auto|]. right; left. now exists e.
  - exists [(now w, c)]. cbn [advance trace]. split; [reflexivity|].
    split; [repeat constructor; auto|]. right; right.
    exists [], (now w), (fst (query w)). rewrite app_nil_r.
    destruct w as [t h]; cbn [now trace] in *.
    destruct (query {| now := t; trace := h |}) as [s e'].
    cbn [fst snd] in *; subst e'. auto.
  - destruct IH as (evs & Htr & Hevs & Hend).
    cbn [advance trace now] in *.
    set (t' := now w + 0 + Z.of_N (latency env w c)) in *.
    exists ((now w, c) :: (t', CSleep Second) :: evs).
    rewrite Htr, <- !app_assoc. cbn [app]. split; [reflexivity|].
    split; [repeat (constructor; auto)|].
    destruct Hend as [H|[H|(evs0 & t & s & H1 & H2 & H3)]]; auto.
    right; right. exists ((now w, c) :: (t', CSleep Second) :: evs0), t, s.
    subst evs. rewrite <- !app_assoc in H2. cbn [app] in *. auto.
Qed.

End PollFacts.

(** ** The two pollers *)
Section Pollers.

Variable env : Env.

Lemma pollXchain_pollLoop (runner : RPCWorkFlowRunner) (start : Z) (txID : ID) :
  forall fuel w,
    pollXchain env fuel runner start txID w =
    pollLoop env XStatus (CXGetTxStatus (client runner) txID)
      (fun w => xGetTxStatus env w (client runner) txID)
      (xVerdict txID) xStatusError (xTimeoutError txID)
      (networkAcceptanceTimeout runner) start fuel w.
Proof.
  induction fuel as [|fuel IH]; intros w; [reflexivity|].
  cbn [pollXchain pollLoop]. unfold bind, timeSince, call, timeSleep, ret.
  destruct (now w - start <? networkAcceptanceTimeout runner); [|reflexivity].
  destruct (xGetTxStatus env w (client runner) txID) as [s [e|]];
    cbn [fst snd]; [reflexivity|].
  destruct s; cbn; try reflexivity; apply IH.
Qed.

Lemma pollPChain_pollLoop (runner : RPCWorkFlowRunner) (start : Z) (txID : ID) :
  forall fuel w,
    pollPChain env fuel runner start txID w =
    pollLoop env PStatus (CPGetTxStatus (client runner) txID)
      (fun w => pGetTxStatus env w (client runner) txID)
      (pVerdict txID) pStatusError (pTimeoutError txID)
      (networkAcceptanceTimeout runner) start fuel w.
Proof.
  induction fuel as [|fuel IH]; intros w; [reflexivity|].
  cbn [pollPChain pollLoop]. unfold bind, timeSince, call, timeSleep, ret.
  destruct (now w - start <? networkAcceptanceTimeout runner); [|reflexivity].
  destruct (pGetTxStatus env w (client runner) txID) as [s [e|]];
    cbn [fst snd]; [reflexivity|].
  destruct s; cbn; try reflexivity; apply IH.
Qed.

Lemma pollFuel_enough (timeout : Duration) :
  timeout <= (Z.of_nat (pollFuel timeout) - 1) * Second.
Proof.
  unfold pollFuel. rewrite Nat2Z.inj_add. cbn [Z.of_nat].
  destruct (Z.le_gt_cases 0 timeout) as [Hpos|Hneg].
  - rewrite Z2Nat.id by (apply Z.div_pos; unfold Second; lia).
    pose proof (Z.mul_succ_div_gt timeout Second ltac:(unfold Second; lia)).
    lia.
  - assert (timeout / Second < 0)
      by (apply Z.div_lt_upper_bound; unfold Second; lia).
    destruct (timeout / Second) eqn:Hd; try lia.
    cbn [Z.to_nat Z.of_nat]. unfold Second in *. lia.
Qed.

(** The X chain poller: it always returns, and the replies it got decide
    what it returns. *)
Lemma waitForXchain_summary (runner : RPCWorkFlowRunner) (txID : ID) (w : World) :
  exists res w' evs,
    waitForXchainTransactionAcceptance env runner txID w = (Ret res, w') /\
    trace w' = trace w ++ evs /\ now w <= now w' /\
    Forall (isXPollEvent (client runner) txID) evs /\
    Forall (inWindow (now w) (networkAcceptanceTimeout runner))
      (xStatusReplies env (trace w) evs) /\
    (forall t s r0, In (t, s, None) (xStatusReplies env (trace w) evs) ->
       xVerdict txID s = Some r0 ->
       res = r0 /\ exists evs0, evs = evs0 ++ [(t, CXGetTxStatus (client runner) txID)]) /\
    (forall t s e, In (t, s, Some e) (xStatusReplies env (trace w) evs) ->
       res = xStatusError e /\
       exists evs0, evs = evs0 ++ [(t, CXGetTxStatus (client runner) txID)]) /\
    ((forall o, In o (xStatusReplies env (trace w) evs) ->
        snd o = None /\ xVerdict txID (snd (fst o)) = None) ->
     res = Some (xTimeoutError txID) /\
     networkAcceptanceTimeout runner <= now w' - now w) /\
    (res = Some (xTimeoutError txID) \/
     (exists t s e, In (t, s, Some e) (xStatusReplies env (trace w) evs) /\
                    res = xStatusError e) \/
     (exists t s, In (t, s, None) (xStatusReplies env (trace w) evs) /\
                  xVerdict txID s = Some res)).
Proof.
  unfold waitForXchainTransactionAcceptance, bind, timeNow.
  rewrite pollXchain_pollLoop.
  destruct (pollLoop_run env XStatus (CXGetTxStatus (client runner) txID)
              (fun w => xGetTxStatus env w (client runner) txID)
              (xVerdict txID) xStatusError (xTimeoutError txID)
              (networkAcceptanceTimeout runner) (now w)
              (pollFuel (networkAcceptanceTimeout runner)) w)
    as (r & w' & Hrun & HR).
  { pose proof (pollFuel_enough (networkAcceptanceTimeout runner)). lia. }
  { unfold pollFuel. lia. }
  destruct (PollRun_summary env XStatus (CXGetTxStatus (client runner) txID)
              (fun w => xGetTxStatus env w (client runner) txID)
              (xVerdict txID) xStatusError (xTimeoutError txID)
              (networkAcceptanceTimeout runner) (now w)
              (xStatusReplies env)
              ltac:(reflexivity) ltac:(reflexivity) ltac:(reflexivity)
              w r w' HR (Z.le_refl _))
    as (evs & H).
  exists r, w', evs. split; [exact Hrun|]. exact H.
Qed.

(** The P chain poller. *)
Lemma waitForPChain_summary (runner : RPCWorkFlowRunner) (txID : ID) (w : World) :
  exists res w' evs,
    waitForPChainTransactionAcceptance env runner txID w = (Ret res, w') /\
    trace w' = trace w ++ evs /\ now w <= now w' /\
    Forall (isPPollEvent (client runner) txID) evs /\
    Forall (inWindow (now w) (networkAcceptanceTimeout runner))
      (pStatusReplies env (trace w) evs) /\
    (forall t s r0, In (t, s, None) (pStatusReplies env (trace w) evs) ->
       pVerdict txID s = Some r0 ->
       res = r0 /\ exists evs0, evs = evs0 ++ [(t, CPGetTxStatus (client runner) txID)]) /\
    (forall t s e, In (t, s, Some e) (pStatusReplies env (trace w) evs) ->
       res = pStatusError e /\
       exists evs0, evs = evs0 ++ [(t, CPGetTxStatus (client runner) txID)]) /\
    ((forall o, In o (pStatusReplies env (trace w) evs) ->
        snd o = None /\ pVerdict txID (snd (fst o)) = None) ->
     res = Some (pTimeoutError txID) /\
     networkAcceptanceTimeout runner <= now w' - now w) /\
    (res = Some (pTimeoutError txID) \/
     (exists t s e, In (t, s, Some e) (pStatusReplies env (trace w) evs) /\
                    res = pStatusError e) \/
     (exists t s, In (t, s, None) (pStatusReplies env (trace w) evs) /\
                  pVerdict txID s = Some res)).
Proof.
  unfold waitForPChainTransactionAcceptance, bind, timeNow.
  rewrite pollPChain_pollLoop.
  destruct (pollLoop_run env PStatus (CPGetTxStatus (client runner) txID)
              (fun w => pGetTxStatus env w (client runner) txID)
              (pVerdict txID) pStatusError (pTimeoutError txID)
              (networkAcceptanceTimeout runner) (now w)
              (pollFuel (networkAcceptanceTimeout runner)) w)
    as (r & w' & Hrun & HR).
  { pose proof (pollFuel_enough (networkAcceptanceTimeout runner)). lia. }
  { unfold pollFuel. lia. }
  destruct (PollRun_summary env PStatus (CPGetTxStatus (client runner) txID)
              (fun w => pGetTxStatus env w (client runner) txID)
              (pVerdict txID) pStatusError (pTimeoutError txID)
              (networkAcceptanceTimeout runner) (now w)
              (pStatusReplies env)
              ltac:(reflexivity) ltac:(reflexivity) ltac:(reflexivity)
              w r w' HR (Z.le_refl _))
    as (evs & H).
  exists r, w', evs. split; [exact Hrun|]. exact H.
Qed.

(** A wait on the X chain that succeeds ends with the query that was
    answered Accepted. *)
Lemma waitForXchain_events (runner : RPCWorkFlowRunner) (txID : ID) (w : World) :
  exists res w' evs,
    waitForXchainTransactionAcceptance env runner txID w = (Ret res, w') /\
    trace w' = trace w ++ evs /\
    Forall (isXPollEvent (client runner) txID) evs /\
    (res = None ->
     exists evs0 t,
       evs = evs0 ++ [(t, CXGetTxStatus (client runner) txID)] /\
       xGetTxStatus env {| now := t; trace := trace w ++ evs0 |}
         (client runner) txID = (XAccepted, None)).
Proof.
  unfold waitForXchainTransactionAcceptance, bind, timeNow.
  rewrite pollXchain_pollLoop.
  destruct (pollLoop_run env XStatus (CXGetTxStatus (client runner) txID)
              (fun w => xGetTxStatus env w (client runner) txID)
              (xVerdict txID) xStatusError (xTimeoutError txID)
              (networkAcceptanceTimeout runner) (now w)
              (pollFuel (networkAcceptanceTimeout runner)) w)
    as (r & w' & Hrun & HR).
  { pose proof (pollFuel_enough (networkAcceptanceTimeout runner)). lia. }
  { unfold pollFuel. lia. }
  destruct (PollRun_last _ _ _ _ _ _ _ _ _ _ _ _ HR) as (evs & Htr & Hevs & Hend).
  exists r, w', evs. repeat split; auto.
  intros ->.
  destruct Hend as [H|[(e & H)|(evs0 & t & s & H1 & H2 & H3)]]; try discriminate.
  exists evs0, t. split; [exact H1|].
  destruct s; cbn in H3; try discriminate. exact H2.
Qed.

(** A wait on the P chain that succeeds ends with the query that was
    answered Committed. *)
Lemma waitForPChain_events (runner : RPCWorkFlowRunner) (txID : ID) (w : World) :
  exists res w' evs,
    waitForPChainTransactionAcceptance env runner txID w = (Ret res, w') /\
    trace w' = trace w ++ evs /\
    Forall (isPPollEvent (client runner) txID) evs /\
    (res = None ->
     exists evs0 t,
       evs = evs0 ++ [(t, CPGetTxStatus (client runner) txID)] /\
       pGetTxStatus env {| now := t; trace := trace w ++ evs0 |}
         (client runner) txID = (PCommitted, None)).
Proof.
  unfold waitForPChainTransactionAcceptance, bind, timeNow.
  rewrite pollPChain_pollLoop.
  destruct (pollLoop_run env PStatus (CPGetTxStatus (client runner) txID)
              (fun w => pGetTxStatus env w (client runner) txID)
              (pVerdict txID) pStatusError (pTimeoutError txID)
              (networkAcceptanceTimeout runner) (now w)
              (pollFuel (networkAcceptanceTimeout runner)) w)
    as (r & w' & Hrun & HR).
  { pose proof (pollFuel_enough (networkAcceptanceTimeout runner)). lia. }
  { unfold pollFuel. lia. }
  destruct (PollRun_last _ _ _ _ _ _ _ _ _ _ _ _ HR) as (evs & Htr & Hevs & Hend).
  exists r, w', evs. repeat split; auto.
  intros ->.
  destruct Hend as [H|[(e & H)|(evs0 & t & s & H1 & H2 & H3)]]; try discriminate.
  exists evs0, t. split; [exact H1|].
  destruct s; cbn in H3; try discriminate. exact H2.
Qed.

(** The error of a failed wait on the X chain. *)
Lemma waitForXchain_result (runner : RPCWorkFlowRunner) (txID : ID) (w : World) :
  exists res w' evs,
    waitForXchainTransactionAcceptance env runner txID w = (Ret res, w') /\
    trace w' = trace w ++ evs /\
    Forall (isXPollEvent (client runner) txID) evs /\
    match res with
    | None =>
      exists evs0 t,
        evs = evs0 ++ [(t, CXGetTxStatus (client runner) txID)] /\
        xGetTxStatus env {| now := t; trace := trace w ++ evs0 |}
          (client runner) txID = (XAccepted, None)
    | Some e => xWaitError txID e
    end.
Proof.
  destruct (waitForXchain_events runner txID w)
    as (res & w' & evs & Hrun & Htr & Hev & Hacc).
  destruct (waitForXchain_summary runner txID w)
    as (res2 & w2 & evs2 & Hrun2 & _ & _ & _ & _ & _ & _ & _ & Hcases).
  rewrite Hrun in Hrun2. inversion Hrun2; subst res2 w2. clear Hrun2.
  exists res, w', evs. repeat split; auto.
  destruct res as [e|]; [|now apply Hacc].
  destruct Hcases as [H|[(t & s & e0 & _ & H)|(t & s & _ & H)]].
  - inversion H. right; left; reflexivity.
  - inversion H. right; right. now exists e0.
  - destruct s; cbn in H; inversion H. left; reflexivity.
Qed.

End Pollers.

(** ** The runs of the waits *)

Section WaitRuns.

Variable env : Env.
Variable runner : RPCWorkFlowRunner.
Variable txID : ID.

Lemma PollRun_XWait (start : Z) (w : World) (r : option error) (w' : World) :
  PollRun env XStatus (CXGetTxStatus (client runner) txID)
    (fun w => xGetTxStatus env w (client runner) txID)
    (xVerdict txID) xStatusError (xTimeoutError txID)
    (networkAcceptanceTimeout runner) start w r w' ->
  exists polls, XWait env runner txID start w polls r w'.
Proof.
  induction 1 as [w Ht|w e Ht He|w r Ht He Hv|w r w' Ht He Hv _ IH].
  - exists []. now constructor.
  - destruct (xGetTxStatus env w (client runner) txID) as [s oe] eqn:Hq.
    cbn in He. subst oe. eexists. eapply XWaitStatusError; eauto.
  - destruct (xGetTxStatus env w (client runner) txID) as [s oe] eqn:Hq.
    cbn in He, Hv. subst oe.
    destruct s; cbn in Hv; inversion Hv; subst r; eexists;
      try (eapply XWaitAccepted; eauto; fail);
      eapply XWaitRejected; eauto.
  - destruct (xGetTxStatus env w (client runner) txID) as [s oe] eqn:Hq.
    cbn in He, Hv. subst oe. destruct IH as (polls & IH).
    eexists. eapply XWaitAgain; eauto;
      intros ->; cbn in Hv; discriminate.
Qed.

Lemma PollRun_PWait (start : Z) (w : World) (r : option error) (w' : World) :
  PollRun env PStatus (CPGetTxStatus (client runner) txID)
    (fun w => pGetTxStatus env w (client runner) txID)
    (pVerdict txID) pStatusError (pTimeoutError txID)
    (networkAcceptanceTimeout runner) start w r w' ->
  exists polls, PWait env runner txID start w polls r w'.
Proof.
  induction 1 as [w Ht|w e Ht He|w r Ht He Hv|w r w' Ht He Hv _ IH].
  - exists []. now constructor.
  - destruct (pGetTxStatus env w (client runner) txID) as [s oe] eqn:Hq.
    cbn in He. subst oe. eexists. eapply PWaitStatusError; eauto.
  - destruct (pGetTxStatus env w (client runner) txID) as [s oe] eqn:Hq.
    cbn in He, Hv. subst oe.
    destruct s; cbn in Hv; inversion Hv; subst r; eexists;
      try (eapply PWaitCommitted; eauto; fail);
      eapply PWaitAbandoned; eauto.
  - destruct (pGetTxStatus env w (client runner) txID) as [s oe] eqn:Hq.
    cbn in He, Hv. subst oe. destruct IH as (polls & IH).
    eexists. eapply PWaitAgain; eauto;
      intros ->; cbn in Hv; discriminate.
Qed.

(** Both pollers return, and their runs are those of [XWait] and of
    [PWait] entered at the time of the call. *)
Lemma waitForXchain_wait (w : World) :
  exists res w' polls,
    waitForXchainTransactionAcceptance env runner txID w = (Ret res, w') /\
    XWait env runner txID (now w) w polls res w'.
Proof.
  unfold waitForXchainTransactionAcceptance, bind, timeNow.
  rewrite pollXchain_pollLoop.
  destruct (pollLoop_run env XStatus (CXGetTxStatus (client runner) txID)
              (fun w => xGetTxStatus env w (client runner) txID)
              (xVerdict txID) xStatusError (xTimeoutError txID)
              (networkAcceptanceTimeout runner) (now w)
              (pollFuel (networkAcceptanceTimeout runner)) w)
    as (r & w' & Hrun & HR).
  { pose proof (pollFuel_enough (networkAcceptanceTimeout runner)). lia. }
  { unfold pollFuel. lia. }
  destruct (PollRun_XWait _ _ _ _ HR) as (polls & HW).
  exists r, w', polls. split; [exact Hrun|exact HW].
Qed.

Lemma waitForPChain_wait (w : World) :
  exists res w' polls,
    waitForPChainTransactionAcceptance env runner txID w = (Ret res, w') /\
    PWait env runner txID (now w) w polls res w'.
Proof.
  unfold waitForPChainTransactionAcceptance, bind, timeNow.
  rewrite pollPChain_pollLoop.
  destruct (pollLoop_run env PStatus (CPGetTxStatus (client runner) txID)
              (fun w => pGetTxStatus env w (client runner) txID)
              (pVerdict txID) pStatusError (pTimeoutError txID)
              (networkAcceptanceTimeout runner) (now w)
              (pollFuel (networkAcceptanceTimeout runner)) w)
    as (r & w' & Hrun & HR).
  { pose proof (pollFuel_enough (networkAcceptanceTimeout runner)). lia. }
  { unfold pollFuel. lia. }
  destruct (PollRun_PWait _ _ _ _ HR) as (polls & HW).
  exists r, w', polls. split; [exact Hrun|exact HW].
Qed.

(** The calls of a wait are added to the trace, and time does not go
    back. *)
Lemma XWait_trace (start : Z) w polls res w' :
  XWait env runner txID start w polls res w' ->
  trace w' = trace w ++ polls /\ now w <= now w'.
Proof.
  induction 1 as [w|w s e|w|w|w s polls res w' Ht Hq Ha Hr _ IH];
    try (cbn; rewrite ?app_nil_r; split; [reflexivity|lia]).
  destruct IH as [IH1 IH2]. split.
  - rewrite IH1. cbn. rewrite <- !app_assoc. reflexivity.
  - cbn in IH2. unfold Second in IH2. lia.
Qed.

Lemma PWait_trace (start : Z) w polls res w' :
  PWait env runner txID start w polls res w' ->
  trace w' = trace w ++ polls /\ now w <= now w'.
Proof.
  induction 1 as [w|w s e|w|w s|w s polls res w' Ht Hq Ha Hr Hd _ IH];
    try (cbn; rewrite ?app_nil_r; split; [reflexivity|lia]).
  destruct IH as [IH1 IH2]. split.
  - rewrite IH1. cbn. rewrite <- !app_assoc. reflexivity.
  - cbn in IH2. unfold Second in IH2. lia.
Qed.

(** They are status queries for the transaction and sleeps of a second. *)
Lemma XWait_polls (start : Z) w polls res w' :
  XWait env runner txID start w polls res w' ->
  Forall (isXPollEvent (client runner) txID) polls.
Proof.
  induction 1; repeat constructor; auto; try (now left); now right.
Qed.

Lemma PWait_polls (start : Z) w polls res w' :
  PWait env runner txID start w polls res w' ->
  Forall (isPPollEvent (client runner) txID) polls.
Proof.
  induction 1; repeat constructor; auto; try (now left); now right.
Qed.

(** A wait that succeeds ends with the query that was answered Accepted
    (Committed on the P chain). *)
Lemma XWait_accepted (start : Z) w polls res w' :
  XWait env runner txID start w polls res w' ->
  res = None ->
  exists evs0 t,
    polls = evs0 ++ [(t, CXGetTxStatus (client runner) txID)] /\
    xGetTxStatus env {| now := t; trace := trace w ++ evs0 |}
      (client runner) txID = (XAccepted, None).
Proof.
  induction 1 as [w|w s e|w Ht Hq|w|w s polls res w' Ht Hq Ha Hr _ IH];
    intros Hres; try discriminate.
  - exists [], (now w). split; [reflexivity|].
    rewrite app_nil_r. destruct w. exact Hq.
  - destruct (IH Hres) as (evs0 & t & Hp & Hrep). subst polls.
    eexists (_ :: _ :: evs0), t. split; [reflexivity|].
    cbn [advance trace] in Hrep. rewrite <- !app_assoc in Hrep. exact Hrep.
Qed.

Lemma PWait_committed (start : Z) w polls res w' :
  PWait env runner txID start w polls res w' ->
  res = None ->
  exists evs0 t,
    polls = evs0 ++ [(t, CPGetTxStatus (client runner) txID)] /\
    pGetTxStatus env {| now := t; trace := trace w ++ evs0 |}
      (client runner) txID = (PCommitted, None).
Proof.
  induction 1 as [w|w s e|w Ht Hq|w s|w s polls res w' Ht Hq Ha Hr Hd _ IH];
    intros Hres; try discriminate.
  - exists [], (now w). split; [reflexivity|].
    rewrite app_nil_r. destruct w. exact Hq.
  - destruct (IH Hres) as (evs0 & t & Hp & Hrep). subst polls.
    eexists (_ :: _ :: evs0), t. split; [reflexivity|].
    cbn [advance trace] in Hrep. rewrite <- !app_assoc in Hrep. exact Hrep.
Qed.

End WaitRuns.

Lemma xPending_verdict (txID : ID) (obs : list (Z * XStatus * option error)) :
  forallb xPending obs = true ->
  forall o, In o obs -> snd o = None /\ xVerdict txID (snd (fst o)) = None.
Proof.
  intros H o Hin. rewrite forallb_forall in H. specialize (H o Hin).
  destruct o as [[t s] [e|]]; destruct s; cbn in *; try discriminate; auto.
Qed.

Lemma pPending_verdict (txID : ID) (obs : list (Z * PStatus * option error)) :
  forallb pPending obs = true ->
  forall o, In o obs -> snd o = None /\ pVerdict txID (snd (fst o)) = None.
Proof.
  intros H o Hin. rewrite forallb_forall in H. specialize (H o Hin).
  destruct o as [[t s] [e|]]; destruct s; cbn in *; try discriminate; auto.
Qed.

(** C1, as amended.  Both acceptance pollers always return.  They return
    success exactly when a status query made within the acceptance timeout
    was answered Accepted (X chain) or Committed (P chain).  A query
    answered Rejected (X chain), Dropped or Aborted (P chain) ends the wait
    at once with the rejection error: it is the last call of the wait.  A
    status query that itself fails ends the wait at once with that error,
    propagated.  When every query was answered without error by a
    non-terminal status, the result is the timeout error naming the
    transaction, and the timeout has elapsed. *)
Theorem C1_pollers_amended (env : Env) (runner : RPCWorkFlowRunner)
    (txID : ID) (w : World) :
  (exists res w' evs,
     waitForXchainTransactionAcceptance env runner txID w = (Ret res, w') /\
     trace w' = trace w ++ evs /\
     (res = None <->
      exists t, In (t, XAccepted, None) (xStatusReplies env (trace w) evs) /\
                now w <= t < now w + networkAcceptanceTimeout runner) /\
     (forall t, In (t, XRejected, None) (xStatusReplies env (trace w) evs) ->
        res = Some (xRejectedError txID) /\
        exists evs0, evs = evs0 ++ [(t, CXGetTxStatus (client runner) txID)]) /\
     (forall t s e, In (t, s, Some e) (xStatusReplies env (trace w) evs) ->
        res = Some (Propagated e "Failed to get status." []) /\
        exists evs0, evs = evs0 ++ [(t, CXGetTxStatus (client runner) txID)]) /\
     (forallb xPending (xStatusReplies env (trace w) evs) = true ->
        res = Some (xTimeoutError txID) /\
        networkAcceptanceTimeout runner <= now w' - now w)) /\
  (exists res w' evs,
     waitForPChainTransactionAcceptance env runner txID w = (Ret res, w') /\
     trace w' = trace w ++ evs /\
     (res = None <->
      exists t, In (t, PCommitted, None) (pStatusReplies env (trace w) evs) /\
                now w <= t < now w + networkAcceptanceTimeout runner) /\
     (forall t s, In (t, s, None) (pStatusReplies env (trace w) evs) ->
        s = PDropped \/ s = PAborted ->
        res = Some (pAbandonedError txID s) /\
        exists evs0, evs = evs0 ++ [(t, CPGetTxStatus (client runner) txID)]) /\
     (forall t s e, In (t, s, Some e) (pStatusReplies env (trace w) evs) ->
        res = Some (Propagated e "Failed to get status" []) /\
        exists evs0, evs = evs0 ++ [(t, CPGetTxStatus (client runner) txID)]) /\
     (forallb pPending (pStatusReplies env (trace w) evs) = true ->
        res = Some (pTimeoutError txID) /\
        networkAcceptanceTimeout runner <= now w' - now w)).
Proof.
  split.
  - destruct (waitForXchain_summary env runner txID w)
      as (res & w' & evs & Hrun & Htr & _ & _ & Hwin & Hv & He & Hto & Hcases).
    exists res, w', evs. split; [exact Hrun|]. split; [exact Htr|].
    rewrite Forall_forall in Hwin.
    split; [split|split; [|split]].
    + intros ->.
      destruct Hcases as [H|[(t & s & e & _ & H)|(t & s & Hin & H)]];
        try discriminate.
      exists t. destruct s; cbn in H; try discriminate.
      split; [exact Hin|]. specialize (Hwin _ Hin).
      unfold inWindow in Hwin; cbn [fst] in Hwin. lia.
    + intros (t & Hin & _). now destruct (Hv t XAccepted None Hin eq_refl).
    + intros t Hin. exact (Hv t XRejected _ Hin eq_refl).
    + intros t s e Hin. exact (He t s e Hin).
    + intros Hp. apply Hto. now apply xPending_verdict.
  - destruct (waitForPChain_summary env runner txID w)
      as (res & w' & evs & Hrun & Htr & _ & _ & Hwin & Hv & He & Hto & Hcases).
    exists res, w', evs. split; [exact Hrun|]. split; [exact Htr|].
    rewrite Forall_forall in Hwin.
    split; [split|split; [|split]].
    + intros ->.
      destruct Hcases as [H|[(t & s & e & _ & H)|(t & s & Hin & H)]];
        try discriminate.
      exists t. destruct s; cbn in H; try discriminate.
      split; [exact Hin|]. specialize (Hwin _ Hin).
      unfold inWindow in Hwin; cbn [fst] in Hwin. lia.
    + intros (t & Hin & _). now destruct (Hv t PCommitted None Hin eq_refl).
    + intros t s Hin [-> | ->]; exact (Hv t _ _ Hin eq_refl).
    + intros t s e Hin. exact (He t s e Hin).
    + intros Hp. apply Hto. now apply pPending_verdict.
Qed.

(** C1 at a concrete input: a transaction accepted on the X chain and
    committed on the P chain at the first poll. *)
Lemma C1_pollers_witness :
  waitForXchainTransactionAcceptance
    (double noLatency (xAlways XAccepted) (pAlways PCommitted) xImportOk
       (balanceAlways 0) oneUTXOEach) testRunner 7%N world0
  = (Ret None, {| now := 0; trace := [(0, CXGetTxStatus 0%nat 7%N)] |}) /\
  exists res w' evs,
    waitForPChainTransactionAcceptance
      (double noLatency (xAlways XAccepted) (pAlways PCommitted) xImportOk
         (balanceAlways 0) oneUTXOEach) testRunner 7%N world0 = (Ret res, w') /\
    trace w' = trace world0 ++ evs.
Proof.
  split; [vm_compute; reflexivity|].
  destruct (C1_pollers_amended
              (double noLatency (xAlways XAccepted) (pAlways PCommitted)
                 xImportOk (balanceAlways 0) oneUTXOEach) testRunner 7%N world0)
    as [_ (res & w' & evs & Hrun & Htr & _)].
  exists res, w', evs. split; assumption.
Defined.

(** C1 as stated fails: when the status source cannot be reached, the wait
    saw no terminal status, and it returns the status error at once, not
    the timeout error. *)
Lemma C1_counterexample :
  ~ timeoutWheneverNoTerminalStatus envStatusFails testRunner 7%N world0.
Proof.
  intros H.
  specialize (H (Some (Propagated (ExtError "connection refused")
                         "Failed to get status." []))
                {| now := 0; trace := [(0, CXGetTxStatus 0%nat 7%N)] |}
                eq_refl eq_refl).
  discriminate H.
Qed.

(** ** The chain builder *)
Section BuilderFacts.

Variable sign : PrivateKey -> UnsignedTx -> option (list byte).
Variable txIDOf : list byte -> ID.

Lemma leftover_cons (balance : Z) (tx : BuiltTx) (rest : list BuiltTx) :
  leftover balance (tx :: rest) = leftover (outputAmount (content tx)) rest.
Proof.
  unfold leftover. cbn [rev].
  destruct (rev rest) as [|last l]; reflexivity.
Qed.

(** With funds for [n] fees and a key that signs, the loop builds [n]
    transactions, linked and each one fee lower. *)
Lemma buildChain_ok (key : PrivateKey) (txFee : Z) :
  0 <= txFee ->
  (forall u, sign key u <> None) ->
  forall n inID inIndex balance,
    Z.of_nat n * txFee <= balance ->
    exists chain,
      buildChain sign txIDOf n inID inIndex balance txFee key = inr chain /\
      List.length chain = n /\
      linked inID inIndex chain /\
      feeSteps balance txFee chain /\
      leftover balance chain = balance - Z.of_nat n * txFee.
Proof.
  intros HF Hsign.
  induction n as [|n IH]; intros inID inIndex balance Hbal.
  - exists []. cbn. repeat split; auto. unfold leftover; cbn. lia.
  - cbn [buildChain].
    destruct (Z.ltb_spec (balance - txFee) 0) as [Hneg|Hpos]; [lia|].
    set (utx := {| inputTxID := inID; inputIndex := inIndex;
                   inputAmount := balance; outputAmount := balance - txFee |}).
    destruct (sign key utx) as [bytes|] eqn:Hs; [|now apply Hsign in Hs].
    destruct (IH (txIDOf bytes) 0 (balance - txFee)) as (rest & Hb & Hl & Hlk & Hfs & Hlo);
      [lia|].
    rewrite Hb. eexists; split; [reflexivity|].
    cbn [List.length linked feeSteps content builtID]. subst utx.
    cbn [inputTxID inputIndex inputAmount outputAmount].
    repeat split; auto.
    rewrite leftover_cons. cbn [content outputAmount]. rewrite Hlo. lia.
Qed.

(** A chain that was built was signed throughout and never overdrawn. *)
Lemma buildChain_sound (key : PrivateKey) (txFee : Z) :
  forall n inID inIndex balance chain,
    buildChain sign txIDOf n inID inIndex balance txFee key = inr chain ->
    List.length chain = n /\
    Forall (fun tx => sign key (content tx) = Some (signedBytes tx) /\
                      builtID tx = txIDOf (signedBytes tx) /\
                      0 <= outputAmount (content tx)) chain.
Proof.
  induction n as [|n IH]; intros inID inIndex balance chain H; cbn [buildChain] in H.
  - inversion H; subst. split; [reflexivity|constructor].
  - destruct (Z.ltb_spec (balance - txFee) 0) as [Hneg|Hpos]; [discriminate|].
    match type of H with
    | context [sign key ?u] => destruct (sign key u) as [bytes|] eqn:Hs
    end; [|discriminate].
    destruct (buildChain sign txIDOf n (txIDOf bytes) 0 (balance - txFee) txFee key)
      as [e|rest] eqn:Hb; [discriminate|].
    inversion H; subst. destruct (IH _ _ _ _ Hb) as [Hl Hall].
    split; [cbn; congruence|].
    constructor; [|exact Hall].
    cbn [content signedBytes builtID outputAmount]. auto.
Qed.

(** Funds short of [n] fees are a construction error. *)
Lemma buildChain_insufficient (key : PrivateKey) (txFee : Z) :
  0 <= txFee ->
  forall n inID inIndex balance,
    0 <= balance < Z.of_nat n * txFee ->
    exists e, buildChain sign txIDOf n inID inIndex balance txFee key = inl e.
Proof.
  intros HF.
  induction n as [|n IH]; intros inID inIndex balance Hbal; [lia|].
  cbn [buildChain].
  destruct (Z.ltb_spec (balance - txFee) 0) as [Hneg|Hpos]; [eauto|].
  match goal with
  | |- context [sign key ?u] => destruct (sign key u) as [bytes|]
  end; [|eauto].
  destruct (IH (txIDOf bytes) 0 (balance - txFee)) as (e & He); [lia|].
  rewrite He. eauto.
Qed.

End BuilderFacts.

(** C2.  From a UTXO of value V = (N+1) x F and a key that signs, the
    chain builder returns exactly N signed transactions with their
    identifiers: the first spends the UTXO, each later one spends output 0
    of the one before it, each takes exactly F off the balance, and what
    the last one leaves is exactly F.  A result with an error carries no
    transaction at all; funds short of N fees give an error; a chain that
    is returned was signed throughout and never overdrawn; and a first
    signature that fails gives the signing error. *)
Theorem C2_chain_builder
    (sign : PrivateKey -> UnsignedTx -> option (list byte))
    (txIDOf : list byte -> ID) (utxo : UTXO) (n : nat) (txFee : Z)
    (key : PrivateKey) :
  (0 <= txFee ->
   (forall u, sign key u <> None) ->
   exists chain,
     CreateConsecutiveTransactions sign txIDOf utxo (Z.of_nat n)
       ((Z.of_nat n + 1) * txFee) txFee key
     = (map signedBytes chain, map builtID chain, None) /\
     buildChain sign txIDOf n (utxoTxID utxo) (utxoOutputIndex utxo)
       ((Z.of_nat n + 1) * txFee) txFee key = inr chain /\
     List.length chain = n /\
     linked (utxoTxID utxo) (utxoOutputIndex utxo) chain /\
     feeSteps ((Z.of_nat n + 1) * txFee) txFee chain /\
     leftover ((Z.of_nat n + 1) * txFee) chain = txFee) /\
  (forall amount txs txIDs e,
     CreateConsecutiveTransactions sign txIDOf utxo (Z.of_nat n) amount txFee key
     = (txs, txIDs, Some e) ->
     txs = [] /\ txIDs = []) /\
  (forall amount,
     0 <= txFee -> 0 <= amount < Z.of_nat n * txFee ->
     exists e,
       CreateConsecutiveTransactions sign txIDOf utxo (Z.of_nat n) amount txFee key
       = ([], [], Some e)) /\
  (forall amount chain,
     buildChain sign txIDOf n (utxoTxID utxo) (utxoOutputIndex utxo)
       amount txFee key = inr chain ->
     List.length chain = n /\
     Forall (fun tx => sign key (content tx) = Some (signedBytes tx) /\
                       builtID tx = txIDOf (signedBytes tx) /\
                       0 <= outputAmount (content tx)) chain) /\
  (forall amount,
     (0 < n)%nat -> 0 <= amount - txFee ->
     sign key {| inputTxID := utxoTxID utxo;
                 inputIndex := utxoOutputIndex utxo;
                 inputAmount := amount;
                 outputAmount := amount - txFee |} = None ->
     CreateConsecutiveTransactions sign txIDOf utxo (Z.of_nat n) amount txFee key
     = ([], [], Some signingFailed)).
Proof.
  unfold CreateConsecutiveTransactions. rewrite Nat2Z.id.
  split; [|split; [|split; [|split]]].
  - intros HF Hsign.
    destruct (buildChain_ok sign txIDOf key txFee HF Hsign n (utxoTxID utxo)
                (utxoOutputIndex utxo) ((Z.of_nat n + 1) * txFee))
      as (chain & Hb & Hl & Hlk & Hfs & Hlo); [lia|].
    exists chain. rewrite Hb. repeat split; auto. lia.
  - intros amount txs txIDs e H.
    destruct (buildChain sign txIDOf n (utxoTxID utxo) (utxoOutputIndex utxo)
                amount txFee key); inversion H; auto.
  - intros amount HF Hbal.
    destruct (buildChain_insufficient sign txIDOf key txFee HF n (utxoTxID utxo)
                (utxoOutputIndex utxo) amount Hbal) as (e & He).
    rewrite He. eauto.
  - intros amount chain H. eapply buildChain_sound; eauto.
  - intros amount Hn Hbal Hs. destruct n as [|n']; [lia|].
    cbn [buildChain].
    destruct (Z.ltb_spec (amount - txFee) 0) as [Hneg|Hpos]; [lia|].
    rewrite Hs. reflexivity.
Qed.

(** A signature that fails in the middle of the chain: no transaction is
    returned, not the one already signed either. *)
Example chain_builder_signing_fails :
  CreateConsecutiveTransactions (failingSign 20) toyTxID
    {| utxoTxID := 9%N; utxoOutputIndex := 1; utxoAssetID := emptyID;
       utxoAmount := 40 |} 3 40 10 []
  = ([], [], Some signingFailed).
Proof. reflexivity. Qed.

(** C2 at a concrete input: three transactions, a fee of 10, a UTXO of 40. *)
Lemma C2_chain_builder_witness :
  0 <= 10 /\
  (forall u, toySign [] u <> None) /\
  exists chain,
    CreateConsecutiveTransactions toySign toyTxID
      {| utxoTxID := 9%N; utxoOutputIndex := 1; utxoAssetID := emptyID;
         utxoAmount := 40 |} 3 40 10 []
    = (map signedBytes chain, map builtID chain, None) /\
    List.length chain = 3%nat /\
    leftover 40 chain = 10.
Proof.
  assert (H0 : 0 <= 10) by lia.
  assert (Hs : forall u, toySign [] u <> None) by (intros u; discriminate).
  split; [exact H0|]. split; [exact Hs|].
  destruct (C2_chain_builder toySign toyTxID
              {| utxoTxID := 9%N; utxoOutputIndex := 1; utxoAssetID := emptyID;
                 utxoAmount := 40 |} 3%nat 10 [])
    as [Hok _].
  destruct (Hok H0 Hs) as (chain & Hc & _ & Hl & _ & _ & Hlo).
  exists chain. repeat split; assumption.
Defined.

(** ** Transfers between the ledgers *)




(** C4, at the failing input: the X chain import returns an error, and
    [TransferAvaPChainToXChain] goes on to query the status of the
    transaction identifier that came with the error and returns success. *)
Theorem C4_import_error_overwritten :
  xImportAVAX envImportFails
    {| now := 0;
       trace := [(0, CPExportAVAX 0%nat testUser "X-1" 100);
                 (0, CPGetTxStatus 0%nat 1%N)] |}
    0%nat testUser "X-1" "P"
  = (emptyID, Some (ExtError "import failed")) /\
  TransferAvaPChainToXChain envImportFails testRunner "X-1" 100 world0
  = (Ret None,
     {| now := 0;
        trace := [(0, CPExportAVAX 0%nat testUser "X-1" 100);
                  (0, CPGetTxStatus 0%nat 1%N);
                  (0, CXImportAVAX 0%nat testUser "X-1" "P");
                  (0, CXGetTxStatus 0%nat emptyID)] |}).
Proof. split; vm_compute; reflexivity. Qed.

(** C6, at the failing input: client 1 answers each [IssueTx] after five
    seconds; the first transaction of client 2 is submitted at ten seconds,
    when both submissions of client 1 have returned, not alongside them. *)
Theorem C6_issue_is_sequential :
  exists w',
    ExecuteTest envSlowFirstAccount testExecutor world0 = (Ret None, w') /\
    map (fun ev => (fst ev, match snd ev with
                            | CXIssueTx c _ => Some c
                            | _ => None
                            end))
        (filter isIssue (trace w'))
    = [(0, Some 1%nat); (5 * Second, Some 1%nat);
       (10 * Second, Some 2%nat); (10 * Second, Some 2%nat)].
Proof.
  eexists. split; [vm_compute; reflexivity|]. vm_compute. reflexivity.
Qed.

(** ** Funding, issuing and awaiting *)
Section Workflows.

Variable env : Env.
Variable runner : RPCWorkFlowRunner.

Lemma FundXChainAddresses_trace (amount : Z) :
  forall addresses w,
  exists res w' evs,
    FundXChainAddresses env runner addresses amount w = (Ret res, w') /\
    trace w' = trace w ++ evs /\ now w <= now w' /\
    FundTrace env runner amount w addresses evs res w'.
Proof.
  induction addresses as [|address rest IH]; intros w.
  - exists None, w, []. rewrite app_nil_r. repeat split; [lia|constructor].
  - cbn [FundXChainAddresses]. unfold bind, call, ret.
    destruct (xSend env w (client runner) (userPass runner) amount AvaxAssetID
                address) as [txID [e|]] eqn:Hsend.
    { eexists _, _, [_]. split; [reflexivity|]. split; [reflexivity|].
      split; [cbn; lia|].
      eapply FundSendError; eauto. }
    set (w1 := advance env w _ 0).
    destruct (waitForXchain_wait env runner txID w1)
      as (res1 & w2 & polls & Hrun & HW).
    destruct (XWait_trace _ _ _ _ _ _ _ _ HW) as [Htr Hnow].
    rewrite Hrun.
    assert (Hw1 : trace w1 = trace w ++
              [(now w, CXSend (client runner) (userPass runner) amount
                         AvaxAssetID address)]) by reflexivity.
    assert (Hn1 : now w <= now w1) by (subst w1; cbn; lia).
    destruct res1 as [e|].
    { eexists _, _, (_ :: polls). split; [reflexivity|].
      split; [rewrite Htr, Hw1, <- app_assoc; reflexivity|].
      split; [lia|].
      eapply FundWaitError; eauto. }
    destruct (IH w2) as (res & w' & evs & Hrun2 & Htr2 & Hnow2 & Hft).
    rewrite Hrun2.
    eexists res, w', (_ :: polls ++ evs). split; [reflexivity|].
    split; [rewrite Htr2, Htr, Hw1, <- !app_assoc; reflexivity|].
    split; [lia|].
    eapply FundAccepted; eauto.
Qed.

Lemma IssueTxList_trace :
  forall txList w,
  exists res w' evs,
    IssueTxList env runner txList w = (Ret res, w') /\
    trace w' = trace w ++ evs /\
    IssueTrace env runner (trace w) txList evs res.
Proof.
  induction txList as [|txBytes rest IH]; intros w.
  - exists None, w, []. rewrite app_nil_r. repeat split. constructor.
  - cbn [IssueTxList]. unfold bind, call, ret.
    destruct (xIssueTx env w (client runner) txBytes) as [txID [e|]] eqn:Hi.
    { eexists _, _, [_]. split; [reflexivity|]. split; [reflexivity|].
      destruct w as [t h]. eapply IssueError; eauto. }
    set (w1 := advance env w _ 0).
    destruct (IH w1) as (res & w' & evs & Hrun & Htr & Hit).
    rewrite Hrun. eexists res, w', (_ :: evs). split; [reflexivity|].
    split; [rewrite Htr; subst w1; cbn [advance trace];
            rewrite <- app_assoc; reflexivity|].
    destruct w as [t h]. eapply IssueNext; eauto.
Qed.

Lemma AwaitXChainTxs_trace :
  forall txIDs w,
  exists res w' evs,
    AwaitXChainTxs env runner txIDs w = (Ret res, w') /\
    trace w' = trace w ++ evs /\
    AwaitTrace env runner w txIDs evs res w'.
Proof.
  induction txIDs as [|txID rest IH]; intros w.
  - exists None, w, []. rewrite app_nil_r. repeat split. constructor.
  - cbn [AwaitXChainTxs]. unfold bind, ret.
    destruct (waitForXchain_wait env runner txID w)
      as (res1 & w1 & polls & Hrun & HW).
    destruct (XWait_trace _ _ _ _ _ _ _ _ HW) as [Htr _].
    rewrite Hrun.
    destruct res1 as [e|].
    { eexists _, _, polls. split; [reflexivity|]. split; [exact Htr|].
      now apply AwaitError. }
    destruct (IH w1) as (res & w' & evs & Hrun2 & Htr2 & Hat).
    rewrite Hrun2.
    eexists res, w', (polls ++ evs). split; [reflexivity|].
    split; [rewrite Htr2, Htr, <- !app_assoc; reflexivity|].
    eapply AwaitNext; eauto.
Qed.

End Workflows.

Lemma sendsOf_app (a b : History) : sendsOf (a ++ b) = sendsOf a ++ sendsOf b.
Proof. unfold sendsOf. apply flat_map_app. Qed.

Lemma sendsOf_xpolls (cl : Client) (txID : ID) (polls : History) :
  Forall (isXPollEvent cl txID) polls -> sendsOf polls = [].
Proof.
  induction 1 as [|ev l H _ IH]; [reflexivity|].
  unfold sendsOf in *. cbn [flat_map]. rewrite IH.
  destruct ev as [t c]; destruct H as [H|H]; cbn in H; subst c; reflexivity.
Qed.

(** The transfers of a funding run: one for each address of a prefix of
    the list, in order, each of the given amount of AVAX. *)
Lemma FundTrace_sends (env : Env) (runner : RPCWorkFlowRunner) (amount : Z) :
  forall w addresses evs res w',
    FundTrace env runner amount w addresses evs res w' ->
    exists k, (k <= List.length addresses)%nat /\
      sendsOf evs = map (fun a => (amount, AvaxAssetID, a)) (firstn k addresses) /\
      (res = None -> k = List.length addresses).
Proof.
  induction 1 as [w|w a rest txID e Hs|w a rest txID polls e w1 Hs HW
                 |w a rest txID polls w1 evs res w2 Hs HW _ IH].
  - exists 0%nat. repeat split; auto.
  - exists 1%nat. cbn. repeat split; [lia|discriminate].
  - exists 1%nat. change (?x :: polls) with ([x] ++ polls).
    rewrite sendsOf_app, (sendsOf_xpolls _ _ _ (XWait_polls _ _ _ _ _ _ _ _ HW)).
    cbn. repeat split; [lia|discriminate].
  - destruct IH as (k & Hk & Hsends & Hall).
    exists (Datatypes.S k).
    change (?x :: polls ++ evs) with ([x] ++ polls ++ evs).
    rewrite !sendsOf_app, (sendsOf_xpolls _ _ _ (XWait_polls _ _ _ _ _ _ _ _ HW)),
      Hsends. cbn.
    repeat split; [lia|]. intros Hn. now rewrite (Hall Hn).
Qed.

(** C8.  [FundXChainAddresses] always returns, and its run is the one of
    [FundTrace] from the world of the call: for the addresses in order,
    one transfer of the amount, then the wait for the transaction that the
    transfer returned, which is the run [XWait] of the poller: status
    queries for that transaction, a second apart, until one is answered
    Accepted or Rejected or fails, or the timeout has elapsed.  The
    transfer for the next address is made only when that wait has ended
    with the answer Accepted; the error of the first transfer or wait that
    fails is returned as it is, and nothing is called after it.  [evs] are
    all the calls of the run.  So the transfers made are those for a
    prefix of the addresses, and for all of them when the result is
    success. *)
Theorem C8_fund_addresses_sequential (env : Env) (runner : RPCWorkFlowRunner)
    (addresses : list string) (amount : Z) (w : World) :
  exists res w' evs,
    FundXChainAddresses env runner addresses amount w = (Ret res, w') /\
    trace w' = trace w ++ evs /\
    FundTrace env runner amount w addresses evs res w' /\
    exists k, (k <= List.length addresses)%nat /\
      sendsOf evs = map (fun a => (amount, AvaxAssetID, a)) (firstn k addresses) /\
      (res = None -> k = List.length addresses).
Proof.
  destruct (FundXChainAddresses_trace env runner amount addresses w)
    as (res & w' & evs & Hrun & Htr & _ & Hft).
  exists res, w', evs. repeat split; auto.
  eapply FundTrace_sends; eauto.
Qed.

(** C8 at a concrete input: two addresses, both transfers accepted. *)
Lemma C8_fund_addresses_witness :
  exists res w' evs,
    FundXChainAddresses envAllGood testRunner ["X-1"; "X-2"] 30 world0
    = (Ret res, w') /\
    trace w' = trace world0 ++ evs /\
    FundTrace envAllGood testRunner 30 world0 ["X-1"; "X-2"] evs res w'.
Proof.
  destruct (C8_fund_addresses_sequential envAllGood testRunner
              ["X-1"; "X-2"] 30 world0)
    as (res & w' & evs & Hrun & Htr & Hft & _).
  exists res, w', evs. repeat split; assumption.
Defined.

(** The calls of an issuing run: the submissions of a prefix of the list,
    in order, and nothing else. *)
Lemma IssueTrace_calls (env : Env) (runner : RPCWorkFlowRunner) :
  forall h txList evs res,
    IssueTrace env runner h txList evs res ->
    exists k, (k <= List.length txList)%nat /\
      map snd evs = map (CXIssueTx (client runner)) (firstn k txList) /\
      (res = None -> k = List.length txList).
Proof.
  induction 1 as [h|h t tx rest txID e Hi|h t tx rest txID evs res Hi _ IH].
  - exists 0%nat. repeat split; auto.
  - exists 1%nat. cbn. repeat split; [lia|discriminate].
  - destruct IH as (k & Hk & Hcalls & Hall).
    exists (Datatypes.S k). cbn. rewrite Hcalls.
    repeat split; [lia|]. intros Hn. now rewrite (Hall Hn).
Qed.

(** C9.  [IssueTxList] submits the transactions in the order of the list
    with no status query and no sleep between them, stops at the first
    submission that fails and returns its error, propagated; the calls are
    the submissions of a prefix of the list, of all of it on success.
    [AwaitXChainTxs] always returns, and its run is the one of
    [AwaitTrace] from the world of the call: the identifiers are awaited
    in the order of the list, each by the run [XWait] of the poller
    (status queries for that identifier, a second apart, until one is
    answered Accepted or Rejected or fails, or the timeout has elapsed);
    it goes on to the next identifier only when that wait has ended with
    the answer Accepted, and returns the error of the first wait that
    fails, after which it asks nothing more. *)
Theorem C9_issue_then_await (env : Env) (runner : RPCWorkFlowRunner)
    (txList : list (list byte)) (txIDs : list ID) (w : World) :
  (exists res w' evs,
     IssueTxList env runner txList w = (Ret res, w') /\
     trace w' = trace w ++ evs /\
     IssueTrace env runner (trace w) txList evs res /\
     exists k, (k <= List.length txList)%nat /\
       map snd evs = map (CXIssueTx (client runner)) (firstn k txList) /\
       (res = None -> k = List.length txList)) /\
  (exists res w' evs,
     AwaitXChainTxs env runner txIDs w = (Ret res, w') /\
     trace w' = trace w ++ evs /\
     AwaitTrace env runner w txIDs evs res w').
Proof.
  split.
  - destruct (IssueTxList_trace env runner txList w)
      as (res & w' & evs & Hrun & Htr & Hit).
    exists res, w', evs. repeat split; auto.
    eapply IssueTrace_calls; eauto.
  - apply AwaitXChainTxs_trace.
Qed.

(** C9 at a concrete input: two transactions issued, then awaited. *)
Lemma C9_issue_then_await_witness :
  exists res w' evs,
    IssueTxList envAllGood testRunner [[x01]; [x02]] world0 = (Ret res, w') /\
    trace w' = trace world0 ++ evs /\
    IssueTrace envAllGood testRunner (trace world0) [[x01]; [x02]] evs res.
Proof.
  destruct (C9_issue_then_await envAllGood testRunner [[x01]; [x02]]
              [1%N; 2%N] world0)
    as [(res & w' & evs & Hrun & Htr & Hit & _) _].
  exists res, w', evs. repeat split; assumption.
Defined.


(** ** Rules for runs *)

Lemma wp_ret {A} (a : A) (w : World) Post :
  Post (Ret a) w [] -> wp (ret a) w Post.
Proof. intros H. exists (Ret a), w, []. rewrite app_nil_r. auto. Qed.

Lemma wp_panic {A} (p : panicValue) (w : World)
    (Post : outcome A -> World -> History -> Prop) :
  Post (Panic p) w [] -> wp (panic p) w Post.
Proof. intros H. exists (Panic p), w, []. rewrite app_nil_r. auto. Qed.

Lemma wp_bind {A B} (m : M A) (k : A -> M B) (w : World) Post :
  wp m w (fun out w1 evs1 =>
            match out with
            | Ret a => wp (k a) w1 (fun out2 w2 evs2 => Post out2 w2 (evs1 ++ evs2))
            | Panic p => Post (Panic p) w1 evs1
            | OutOfFuel => Post OutOfFuel w1 evs1
            end) ->
  wp (bind m k) w Post.
Proof.
  intros (out & w1 & evs1 & Hm & Htr & H). unfold wp, bind. rewrite Hm.
  destruct out as [a|p|].
  - destruct H as (out2 & w2 & evs2 & Hk & Htr2 & H).
    exists out2, w2, (evs1 ++ evs2). rewrite Hk, Htr2, Htr, app_assoc. auto.
  - exists (Panic p), w1, evs1. auto.
  - exists OutOfFuel, w1, evs1. auto.
Qed.

Lemma wp_call {A} (env : Env) (c : Call) (h : World -> A) (w : World) Post :
  Post (Ret (h w)) (advance env w c 0) [(now w, c)] ->
  wp (call env c h) w Post.
Proof. intros H. exists (Ret (h w)), (advance env w c 0), [(now w, c)]. auto. Qed.

Lemma wp_conseq {A} (m : M A) (w : World)
    (P Q : outcome A -> World -> History -> Prop) :
  wp m w P -> (forall out w' evs, P out w' evs -> Q out w' evs) -> wp m w Q.
Proof.
  intros (out & w' & evs & Hm & Htr & H) HPQ. exists out, w', evs. auto.
Qed.

Lemma quiet_ret {A} (Q : Call -> bool) (a : A) : quiet Q (ret a).
Proof. intros w. apply wp_ret. constructor. Qed.

Lemma quiet_panic {A} (Q : Call -> bool) (p : panicValue) : quiet Q (@panic A p).
Proof. intros w. apply wp_panic. constructor. Qed.

Lemma quiet_bind {A B} (Q : Call -> bool) (m : M A) (k : A -> M B) :
  quiet Q m -> (forall a, quiet Q (k a)) -> quiet Q (bind m k).
Proof.
  intros Hm Hk w. apply wp_bind. eapply wp_conseq; [apply Hm|].
  intros [a|p|] w1 evs1 H1; cbn; auto.
  eapply wp_conseq; [apply Hk|]. intros out2 w2 evs2 H2.
  apply Forall_app; auto.
Qed.

Lemma quiet_call {A} (Q : Call -> bool) (env : Env) (c : Call) (h : World -> A) :
  Q c = true -> quiet Q (call env c h).
Proof. intros H w. apply wp_call. repeat constructor. exact H. Qed.

Lemma quiet_index {A} (Q : Call -> bool) (l : list A) (i : nat) :
  quiet Q (index l i).
Proof. unfold index. destruct (nth_error l i); [apply quiet_ret|apply quiet_panic]. Qed.

Lemma quiet_store {A} (Q : Call -> bool) (l : list A) (i : nat) (v : A) :
  quiet Q (store l i v).
Proof. unfold store. destruct (i <? List.length l)%nat; [apply quiet_ret|apply quiet_panic]. Qed.

Lemma quiet_make {A} (Q : Call -> bool) (zero : A) (n : Z) :
  quiet Q (make zero n).
Proof. unfold make. destruct (n <? 0); [apply quiet_panic|apply quiet_ret]. Qed.

Lemma quiet_sliceFrom {A} (Q : Call -> bool) (l : list A) (lo : nat) :
  quiet Q (sliceFrom l lo).
Proof. unfold sliceFrom. destruct (lo <=? List.length l)%nat; [apply quiet_ret|apply quiet_panic]. Qed.

Lemma quiet_deref {A} (Q : Call -> bool) (p : option A) : quiet Q (deref p).
Proof. destruct p; [apply quiet_ret|apply quiet_panic]. Qed.

Lemma quiet_waitForXchain (Q : Call -> bool) (env : Env)
    (runner : RPCWorkFlowRunner) (txID : ID) :
  Q (CXGetTxStatus (client runner) txID) = true ->
  Q (CSleep Second) = true ->
  quiet Q (waitForXchainTransactionAcceptance env runner txID).
Proof.
  intros Hq Hs w.
  destruct (waitForXchain_events env runner txID w)
    as (res & w' & evs & Hrun & Htr & Hev & _).
  exists (Ret res), w', evs. repeat split; auto.
  eapply Forall_impl; [|exact Hev].
  intros [t c] [H|H]; cbn in H; subst c; assumption.
Qed.

(** Walks through straight-line code: binds, calls of the class, matches. *)
Ltac quiet_step :=
  first
    [ apply quiet_ret | apply quiet_panic | apply quiet_index
    | apply quiet_store | apply quiet_make | apply quiet_sliceFrom
    | apply quiet_deref
    | apply quiet_call; reflexivity
    | apply quiet_bind; [|intro]
    | match goal with
      | |- quiet _ (match ?x with _ => _ end) => destruct x
      | |- quiet _ (if ?b then _ else _) => destruct b
      end ].

Ltac quiet_walk := repeat quiet_step.

(** ** The phases of the bombard executor *)
Section Phases.

Variable env : Env.
Variable e : bombardExecutor.

Lemma quiet_createRandomString (Q : Call -> bool) :
  Q CRandInt = true -> quiet Q (createRandomString env).
Proof.
  intros H. unfold createRandomString.
  apply quiet_bind; [now apply quiet_call|intro]. apply quiet_ret.
Qed.

Lemma quiet_IssueTxList (runner : RPCWorkFlowRunner) (txList : list (list byte)) :
  quiet laterCall (IssueTxList env runner txList).
Proof.
  induction txList as [|tx rest IH]; cbn [IssueTxList]; [apply quiet_ret|].
  quiet_walk. exact IH.
Qed.

Lemma quiet_AwaitXChainTxs (runner : RPCWorkFlowRunner) (txIDs : list ID) :
  quiet laterCall (AwaitXChainTxs env runner txIDs).
Proof.
  induction txIDs as [|txID rest IH]; cbn [AwaitXChainTxs]; [apply quiet_ret|].
  apply quiet_bind; [now apply quiet_waitForXchain|intros [er|]];
    [apply quiet_ret|exact IH].
Qed.

Lemma quiet_confirmLoop (runner : RPCWorkFlowRunner) (txIDLists : list (list ID)) :
  quiet laterCall (confirmLoop env runner txIDLists).
Proof.
  induction txIDLists as [|txIDs rest IH]; cbn [confirmLoop]; [apply quiet_ret|].
  apply quiet_bind; [apply quiet_AwaitXChainTxs|intros [er|]]; exact IH.
Qed.

Lemma quiet_issueLoop (clients : list (option RPCWorkFlowRunner))
    (txLists : list (list (list byte))) :
  forall wg i, quiet laterCall (issueLoop env wg i clients txLists).
Proof.
  induction clients as [|cl rest IH]; intros wg i; cbn [issueLoop];
    [apply quiet_ret|].
  unfold issueTxsAsync.
  apply quiet_bind; [quiet_walk|intro].
  apply quiet_bind; [quiet_walk|intro].
  apply quiet_bind; [|intro; apply IH].
  apply quiet_bind; [quiet_walk|intro].
  apply quiet_bind; [apply quiet_IssueTxList|intro]. quiet_walk.
Qed.

Lemma quiet_buildLoop (secondaryClients : list (option RPCWorkFlowRunner))
    (xChainAddrs : list string) (utxoLists : list (list (option UTXO)))
    (clients : list Client) :
  forall i privateKeys txLists txIDLists,
    quiet laterCall
      (buildLoop env e secondaryClients xChainAddrs utxoLists i clients
         privateKeys txLists txIDLists).
Proof.
  induction clients as [|cl rest IH]; intros i pk tl til; cbn [buildLoop];
    [apply quiet_ret|].
  quiet_walk. apply IH.
Qed.

End Phases.

(** ** Balance verification *)

Lemma balanceReplies_app (env : Env) (a b : History) :
  forall h,
    balanceReplies env h (a ++ b)
    = balanceReplies env h a ++ balanceReplies env (h ++ a) b.
Proof.
  induction a as [|[t c] a IH]; intros h; cbn [app balanceReplies].
  - now rewrite app_nil_r.
  - rewrite IH, <- !app_assoc. reflexivity.
Qed.

Lemma Forall_class (Q Q' : Call -> bool) (evs : History) :
  (forall c, Q c = true -> Q' c = true) ->
  Forall (fun ev => Q (snd ev) = true) evs ->
  Forall (fun ev => Q' (snd ev) = true) evs.
Proof. intros H. apply Forall_impl. intros ev. apply H. Qed.

Lemma nth_error_skipn {A} (l : list A) :
  forall i x, nth_error l i = Some x -> skipn i l = x :: skipn (Datatypes.S i) l.
Proof.
  induction l as [|y l IH]; intros [|i] x H; cbn in *; try discriminate.
  - now inversion H.
  - now apply IH.
Qed.

Section Verify.

Variable env : Env.
Variable e : bombardExecutor.

Lemma decodeLoop_pure :
  forall utxosBytes i utxos w,
  exists out, decodeLoop env i utxosBytes utxos w = (out, w).
Proof.
  induction utxosBytes as [|bs rest IH]; intros i utxos w; cbn [decodeLoop].
  - eexists; reflexivity.
  - destruct (codecUnmarshal env bs) as [utxo [er|]]; [eexists; reflexivity|].
    unfold bind, store.
    destruct (i <? List.length utxos)%nat; [apply IH|eexists; reflexivity].
Qed.

(** The verification loop from client [i] on: its calls are balance
    queries and UTXO fetches; the balances it was answered are the seed
    amount for the addresses from [i] on, up to a reply that ends it; and
    it completes only when every client's balance was verified. *)
Lemma verifyLoop_spec (genesisClient : Client) (xChainAddrs : list string) :
  forall clients i utxoLists w,
  exists out w' evs j failed,
    verifyLoop env e genesisClient xChainAddrs i clients utxoLists w = (out, w') /\
    trace w' = trace w ++ evs /\
    Forall (fun ev => verifyCall (snd ev) = true) evs /\
    (j <= List.length clients)%nat /\
    (j <= List.length (skipn i xChainAddrs))%nat /\
    balanceReplies env (trace w) evs
    = map (fun a => (a, seedAmount e, None)) (firstn j (skipn i xChainAddrs))
      ++ failed /\
    (failed = [] \/
     exists a b er r,
       failed = [(a, b, er)] /\ out = Ret (inl r) /\
       (er = None ->
        b <> seedAmount e /\
        exists idx,
          r = Some (Propagated (balanceMismatch a (seedAmount e) b)
                      "Failed to verify X Chain Balance for Client: %d"
                      [ArgInt idx]))) /\
    (forall utxoLists', out = Ret (inr utxoLists') ->
       j = List.length clients /\ failed = []).
Proof.
  induction clients as [|cl rest IH]; intros i utxoLists w.
  - exists (Ret (inr utxoLists)), w, [], 0%nat, [].
    rewrite app_nil_r. cbn. repeat split; auto; lia.
  - cbn [verifyLoop]. unfold bind at 1. unfold index at 1.
    destruct (nth_error xChainAddrs i) as [addr|] eqn:Hnth.
    2:{ exists (Panic (IndexOutOfRange (Z.of_nat i) (len xChainAddrs))), w, [], 0%nat, [].
        rewrite app_nil_r. cbn. repeat split; auto; try lia. discriminate. }
    cbn [ret]. unfold bind at 1.
    destruct cl as [runner|].
    2:{ exists (Panic NilDereference), w, [], 0%nat, [].
        rewrite app_nil_r. cbn. repeat split; auto; try lia. discriminate. }
    cbn [deref ret]. unfold bind at 1.
    unfold VerifyXChainAVABalance, bind at 1, call at 1.
    set (bal := (now w, CXGetBalance (client runner) addr AvaxAssetID)).
    set (w1 := advance env w (CXGetBalance (client runner) addr AvaxAssetID) 0).
    assert (Hskip := nth_error_skipn _ _ _ Hnth).
    assert (Hrep : balanceReplies env (trace w) [bal]
                   = [(addr, fst (xGetBalance env w (client runner) addr AvaxAssetID),
                             snd (xGetBalance env w (client runner) addr AvaxAssetID))]).
    { destruct w as [t h]. reflexivity. }
    destruct (xGetBalance env w (client runner) addr AvaxAssetID) as [b [er|]] eqn:Hbal;
      cbn [fst snd] in Hrep.
    { (* the balance query fails *)
      eexists _, w1, [bal], 0%nat, [(addr, b, Some er)].
      split; [reflexivity|]. split; [reflexivity|].
      split; [repeat constructor|]. split; [lia|]. split; [lia|].
      split; [exact Hrep|]. split; [|discriminate].
      right. eexists addr, b, (Some er), _.
      split; [reflexivity|]. split; [reflexivity|]. intros H; discriminate H. }
    cbn [ret].
    destruct (Z.eqb_spec b (seedAmount e)) as [Heq|Hne]; cbn [negb ret].
    2:{ (* the balance differs from the seed amount *)
      eexists _, w1, [bal], 0%nat, [(addr, b, None)].
      split; [reflexivity|]. split; [reflexivity|].
      split; [repeat constructor|]. split; [lia|]. split; [lia|].
      split; [exact Hrep|]. split; [|discriminate].
      right. eexists addr, b, None, _. repeat split; auto.
      exists (Z.of_nat i). reflexivity. }
    subst b.
    (* the balance is the seed amount: fetch the UTXOs *)
    unfold bind at 1. unfold index at 1. rewrite Hnth. cbn [ret].
    unfold bind at 1. unfold call at 1.
    set (utx := (now w1, CXGetUTXOs genesisClient [addr] 10 "" "")).
    set (w2 := advance env w1 (CXGetUTXOs genesisClient [addr] 10 "" "") 0).
    assert (Htr2 : trace w2 = trace w ++ [bal; utx]).
    { subst w2 w1. cbn [advance trace]. rewrite <- app_assoc. reflexivity. }
    assert (Hrep2 : balanceReplies env (trace w) [bal; utx]
                    = [(addr, seedAmount e, None)]).
    { change [bal; utx] with ([bal] ++ [utx]).
      rewrite balanceReplies_app, Hrep. reflexivity. }
    assert (Hone : forall out : outcome (option error + list (list (option UTXO))),
              (forall ul, out <> Ret (inr ul)) ->
              exists out0 w' evs j failed,
                (out, w2) = (out0, w') /\ trace w' = trace w ++ evs /\
                Forall (fun ev => verifyCall (snd ev) = true) evs /\
                (j <= List.length (Some runner :: rest))%nat /\
                (j <= List.length (skipn i xChainAddrs))%nat /\
                balanceReplies env (trace w) evs
                = map (fun a => (a, seedAmount e, None))
                    (firstn j (skipn i xChainAddrs)) ++ failed /\
                (failed = [] \/
                 exists a b er r,
                   failed = [(a, b, er)] /\ out0 = Ret (inl r) /\
                   (er = None ->
                    b <> seedAmount e /\
                    exists idx,
                      r = Some (Propagated (balanceMismatch a (seedAmount e) b)
                                  "Failed to verify X Chain Balance for Client: %d"
                                  [ArgInt idx]))) /\
                (forall utxoLists', out0 = Ret (inr utxoLists') ->
                   j = List.length (Some runner :: rest) /\ failed = [])).
    { intros out Hn. exists out, w2, [bal; utx], 1%nat, [].
      split; [reflexivity|]. split; [exact Htr2|].
      split; [repeat constructor|]. split; [cbn; lia|].
      split; [rewrite Hskip; cbn; lia|].
      split; [rewrite Hrep2, Hskip; reflexivity|].
      split; [left; reflexivity|].
      intros ul Hout. exfalso. exact (Hn ul Hout). }
    destruct (xGetUTXOs env w1 genesisClient [addr] 10 "" "") as [utxosBytes [er|]].
    { apply Hone. intros ul; discriminate. }
    unfold bind at 1. unfold make at 1.
    destruct (len utxosBytes <? 0).
    { apply Hone. intros ul; discriminate. }
    cbn [ret]. unfold bind at 1.
    destruct (decodeLoop_pure utxosBytes 0%nat
                (repeat None (Z.to_nat (len utxosBytes))) w2) as (dout & Hd).
    rewrite Hd.
    destruct dout as [[res|utxos]|p|];
      try (apply Hone; intros ul; discriminate).
    (* decoded: store and go on with the next client *)
    unfold bind at 1. unfold store at 1.
    destruct (i <? List.length utxoLists)%nat;
      [|apply Hone; intros ul; discriminate].
    cbn [ret].
    destruct (IH (Datatypes.S i)
                (firstn i utxoLists ++ utxos :: skipn (Datatypes.S i) utxoLists) w2)
      as (out & w' & evs & j & failed & Hrun & Htr & Hev & Hj & Hj2 & Hb & Hf & Hc).
    exists out, w', ([bal; utx] ++ evs), (Datatypes.S j), failed.
    split; [exact Hrun|].
    split; [rewrite Htr, Htr2, <- app_assoc; reflexivity|].
    split; [apply Forall_app; split; [repeat constructor|exact Hev]|].
    split; [cbn [List.length]; lia|].
    split; [rewrite Hskip; cbn [List.length]; lia|].
    split.
    { rewrite balanceReplies_app, Hrep2, <- Htr2, Hb, Hskip. reflexivity. }
    split; [exact Hf|].
    intros ul Hout. destruct (Hc ul Hout) as [-> ->]. split; reflexivity.
Qed.

End Verify.

(** ** The seed amount through [ExecuteTest] *)

Lemma sendsOf_none (Q : Call -> bool) (evs : History) :
  (forall c, Q c = true -> sendsOf [(0, c)] = []) ->
  Forall (fun ev => Q (snd ev) = true) evs -> sendsOf evs = [].
Proof.
  intros HQ. induction 1 as [|[t c] evs H _ IH]; [reflexivity|].
  change ((t, c) :: evs) with ([(t, c)] ++ evs).
  rewrite sendsOf_app, IH, app_nil_r. apply HQ in H.
  unfold sendsOf in *. cbn in *. exact H.
Qed.

(** Every call of a funding run is a transfer of the amount or polling. *)
Lemma FundTrace_class (env : Env) (runner : RPCWorkFlowRunner) (amount : Z) :
  forall w addresses evs res w',
    FundTrace env runner amount w addresses evs res w' ->
    Forall (fun ev => fundCall amount (snd ev) = true) evs.
Proof.
  assert (Hpoll : forall cl txID polls,
            Forall (isXPollEvent cl txID) polls ->
            Forall (fun ev => fundCall amount (snd ev) = true) polls).
  { intros cl txID polls. apply Forall_impl.
    intros [t c] [H|H]; cbn in H; subst c; reflexivity. }
  assert (Hsend : forall cl u a,
            fundCall amount (CXSend cl u amount AvaxAssetID a) = true).
  { intros. cbn. rewrite Z.eqb_refl. reflexivity. }
  induction 1 as [w|w a rest txID e Hs|w a rest txID polls e w1 Hs HW
                 |w a rest txID polls w1 evs res w2 Hs HW _ IH].
  - constructor.
  - repeat constructor. apply Hsend.
  - constructor; [apply Hsend|]. eapply Hpoll, XWait_polls; eauto.
  - constructor; [apply Hsend|]. apply Forall_app.
    split; [eapply Hpoll, XWait_polls; eauto|exact IH].
Qed.

Section Seed.

Variable env : Env.
Variable e : bombardExecutor.

Lemma bind_Ret_inv {A B} (m : M A) (k : A -> M B) (w w' : World) (b : B) :
  bind m k w = (Ret b, w') ->
  exists a w1, m w = (Ret a, w1) /\ k a w1 = (Ret b, w').
Proof.
  unfold bind. destruct (m w) as [[a|p|] w1]; intros H; try discriminate.
  now exists a, w1.
Qed.

Lemma store_Ret_inv {A} (l : list A) (i : nat) (v : A) (w w' : World) (l' : list A) :
  store l i v w = (Ret l', w') -> List.length l' = List.length l.
Proof.
  unfold store. destruct (Nat.ltb_spec i (List.length l)) as [Hlt|Hge];
    intros H; [|discriminate H].
  assert (Hl : l' = firstn i l ++ v :: skipn (Datatypes.S i) l)
    by (unfold ret in H; congruence).
  rewrite Hl, length_app. cbn [List.length].
  rewrite length_firstn, length_skipn. lia.
Qed.

(** The set-up loop keeps the lengths of the two slices it fills. *)
Lemma setupLoop_lengths :
  forall clients i sc xa w sc' xa' w',
    setupLoop env e i clients sc xa w = (Ret (inr (sc', xa')), w') ->
    List.length sc' = List.length sc /\ List.length xa' = List.length xa.
Proof.
  induction clients as [|cl rest IH]; intros i sc xa w sc' xa' w' H;
    cbn [setupLoop] in H.
  - inversion H; subst. auto.
  - apply bind_Ret_inv in H. destruct H as (username & w1 & _ & H).
    apply bind_Ret_inv in H. destruct H as (password & w2 & _ & H).
    apply bind_Ret_inv in H. destruct H as (sc1 & w3 & Hst & H).
    apply store_Ret_inv in Hst.
    apply bind_Ret_inv in H. destruct H as ([[xAddr pAddr] err] & w4 & _ & H).
    destruct err as [er|]; [inversion H|].
    apply bind_Ret_inv in H. destruct H as (xa1 & w5 & Hst2 & H).
    apply store_Ret_inv in Hst2.
    apply IH in H. destruct H. split; congruence.
Qed.

Lemma make_Ret_inv {A} (zero : A) (z : Z) (w w' : World) (l : list A) :
  make zero z w = (Ret l, w') -> List.length l = Z.to_nat z.
Proof.
  unfold make. destruct (z <? 0); intros H; inversion H.
  apply repeat_length.
Qed.

(** The later phases call nothing that transfers or asks a balance. *)
Lemma quiet_laterPhases (highLevelGenesisClient : RPCWorkFlowRunner)
    (secondaryClients : list (option RPCWorkFlowRunner))
    (xChainAddrs : list string) (utxoLists : list (list (option UTXO))) :
  quiet laterCall
    (privateKeys <- make None (len secondaryClients) ;;
     txLists <- make [] (len secondaryClients) ;;
     txIDLists <- make [] (len secondaryClients) ;;
     others <- sliceFrom (normalClients e) 1 ;;
     r <- buildLoop env e secondaryClients xChainAddrs utxoLists 0
            others privateKeys txLists txIDLists ;;
     match r with
     | inl res => ret res
     | inr (txLists, txIDLists) =>
       wg <- issueLoop env 0 0 secondaryClients txLists ;;
       wgWait wg ;;
       confirmLoop env highLevelGenesisClient txIDLists ;;
       ret None
     end).
Proof.
  apply quiet_bind; [apply quiet_make|intro].
  apply quiet_bind; [apply quiet_make|intro].
  apply quiet_bind; [apply quiet_make|intro].
  apply quiet_bind; [apply quiet_sliceFrom|intro].
  apply quiet_bind; [apply quiet_buildLoop|intros [res|[tl til]]];
    [apply quiet_ret|].
  apply quiet_bind; [apply quiet_issueLoop|intro].
  apply quiet_bind; [unfold wgWait; quiet_walk|intro].
  apply quiet_bind; [apply quiet_confirmLoop|intro]. apply quiet_ret.
Qed.

End Seed.

Lemma seedAmount_wraps (e : bombardExecutor) :
  seedAmount e = ((numTxs e + 1) * txFee e) mod 2 ^ 64.
Proof.
  unfold seedAmount, wrap64. apply Z.mul_mod_idemp_l. lia.
Qed.

(** ** Unguarded indexing *)

(** The building loop completes only if every client it is run for has a
    UTXO to start from. *)
Lemma buildLoop_needs_utxos (env : Env) (e : bombardExecutor)
    (sc : list (option RPCWorkFlowRunner)) (xa : list string)
    (utxoLists : list (list (option UTXO))) :
  forall clients i pk tl til w r w',
    buildLoop env e sc xa utxoLists i clients pk tl til w = (Ret (inr r), w') ->
    forall idx, (idx < List.length clients)%nat ->
    exists u l, nth_error utxoLists (i + idx) = Some (u :: l).
Proof.
  induction clients as [|cl rest IH]; intros i pk tl til w r w' H idx Hidx;
    [cbn in Hidx; lia|].
  cbn [buildLoop] in H.
  apply bind_Ret_inv in H. destruct H as (utxos & w1 & Hu & H).
  apply bind_Ret_inv in H. destruct H as (utxo & w2 & Hu0 & H).
  unfold index in Hu, Hu0.
  destruct (nth_error utxoLists i) as [l0|] eqn:Hnth; [|discriminate].
  inversion Hu; subst utxos w1.
  destruct l0 as [|u l]; [discriminate|].
  destruct idx as [|idx].
  { rewrite Nat.add_0_r. eauto. }
  apply bind_Ret_inv in H. destruct H as (secondary & w3 & _ & H).
  apply bind_Ret_inv in H. destruct H as (runner & w4 & _ & H).
  apply bind_Ret_inv in H. destruct H as (addr & w5 & _ & H).
  apply bind_Ret_inv in H. destruct H as ([pkStr err] & w6 & _ & H).
  destruct err as [er|]; [inversion H|].
  destruct (negb (prefix SecretKeyPrefix pkStr)); [inversion H|].
  destruct (formattingDecode env (TrimPrefix pkStr SecretKeyPrefix))
    as [pkBytes [er|]]; [inversion H|].
  destruct (toPrivateKey env pkBytes) as [skIntf err2].
  apply bind_Ret_inv in H. destruct H as (sk & w7 & _ & H).
  apply bind_Ret_inv in H. destruct H as (pk' & w8 & _ & H).
  apply bind_Ret_inv in H. destruct H as ([[txs txIDs] err] & w9 & _ & H).
  destruct err as [er|]; [inversion H|].
  apply bind_Ret_inv in H. destruct H as (tl' & w10 & _ & H).
  apply bind_Ret_inv in H. destruct H as (til' & w11 & _ & H).
  replace (i + Datatypes.S idx)%nat with (Datatypes.S i + idx)%nat by lia.
  eapply IH; [exact H|]. cbn in Hidx. lia.
Qed.

(** C10.  With no client, [ExecuteTest] panics at once on
    [e.normalClients[0]].  Run for a client whose list of UTXOs is empty,
    the building loop panics on [utxoLists[i][0]], before any call and
    without returning an error; so the loop completes only if every client
    has a first UTXO.  And a run in which every earlier step succeeds but
    the node reports no UTXO ends in that panic. *)
Theorem C10_unguarded_indexing (env : Env) (e : bombardExecutor) (w : World) :
  (normalClients e = [] ->
   ExecuteTest env e w = (Panic (IndexOutOfRange 0 0), w)) /\
  (forall sc xa utxoLists i cl rest pk tl til,
     nth_error utxoLists i = Some [] ->
     buildLoop env e sc xa utxoLists i (cl :: rest) pk tl til w
     = (Panic (IndexOutOfRange 0 0), w)) /\
  (forall sc xa utxoLists clients pk tl til r w',
     buildLoop env e sc xa utxoLists 0 clients pk tl til w = (Ret (inr r), w') ->
     forall idx, (idx < List.length clients)%nat ->
     exists u l, nth_error utxoLists idx = Some (u :: l)) /\
  (exists w',
     ExecuteTest envNoUTXOs testExecutor world0
     = (Panic (IndexOutOfRange 0 0), w') /\
     xStatusReplies envNoUTXOs [] (trace w')
     = [(0, XAccepted, None); (0, XAccepted, None)] /\
     balanceReplies envNoUTXOs [] (trace w')
     = [("X-1", 30, None); ("X-2", 30, None)]).
Proof.
  split; [|split; [|split]].
  - intros H. unfold ExecuteTest, bind, index. rewrite H. reflexivity.
  - intros sc xa utxoLists i cl rest pk tl til H.
    cbn [buildLoop]. unfold bind, index. rewrite H. reflexivity.
  - intros sc xa utxoLists clients pk tl til r w' H idx Hidx.
    exact (buildLoop_needs_utxos env e sc xa utxoLists clients 0%nat pk tl til
             w r w' H idx Hidx).
  - eexists. split; [vm_compute; reflexivity|]. split; vm_compute; reflexivity.
Qed.

(** C10 at a concrete input: an executor without clients. *)
Lemma C10_unguarded_indexing_witness :
  normalClients (NewBombardExecutor [] 2 10 (5 * Second)) = [] /\
  ExecuteTest envAllGood (NewBombardExecutor [] 2 10 (5 * Second)) world0
  = (Panic (IndexOutOfRange 0 0), world0).
Proof.
  split; [reflexivity|].
  apply (proj1 (C10_unguarded_indexing envAllGood
                  (NewBombardExecutor [] 2 10 (5 * Second)) world0)).
  reflexivity.
Defined.

(** ** The Confirm phase *)

(** Whatever the waits return, the confirming loop ends normally. *)
Lemma confirmLoop_returns (env : Env) (runner : RPCWorkFlowRunner) :
  forall txIDLists w,
  exists w', confirmLoop env runner txIDLists w = (Ret tt, w').
Proof.
  induction txIDLists as [|txIDs rest IH]; intros w; cbn [confirmLoop].
  - eexists; reflexivity.
  - unfold bind.
    destruct (AwaitXChainTxs_trace env runner txIDs w)
      as (res & w1 & evs & Hrun & _).
    rewrite Hrun. destruct res; apply IH.
Qed.

(** C5, at the failing input: the ledger rejects the transactions of the
    chains, the waits of the Confirm phase see the rejections, and
    [ExecuteTest] returns success.  For every test double the confirming
    loop ends normally, whatever its waits return. *)
Theorem C5_failed_confirmation_dropped :
  (exists w',
     ExecuteTest envRejectsChains testExecutor world0 = (Ret None, w') /\
     xStatusReplies envRejectsChains [] (trace w')
     = [(0, XAccepted, None); (0, XAccepted, None);
        (0, XRejected, None); (0, XRejected, None)]) /\
  (forall env runner txIDLists w,
     exists w', confirmLoop env runner txIDLists w = (Ret tt, w')).
Proof.
  split; [|intros; apply confirmLoop_returns].
  eexists. split; [vm_compute; reflexivity|]. vm_compute. reflexivity.
Qed.

(** * Further properties *)

(** ** The pollers: edge cases and pacing *)

Lemma pollFuel_succ (timeout : Duration) :
  exists fuel, pollFuel timeout = Datatypes.S fuel.
Proof.
  unfold pollFuel. exists (Z.to_nat (timeout / Second) + 1)%nat. lia.
Qed.

(** X1.  With an acceptance timeout that is zero or negative, either
    poller returns the timeout error at once: no status query is made, no
    time passes. *)
Theorem X1_poll_nonpositive_timeout (env : Env) (runner : RPCWorkFlowRunner)
    (txID : ID) (w : World) :
  networkAcceptanceTimeout runner <= 0 ->
  waitForXchainTransactionAcceptance env runner txID w
  = (Ret (Some (xTimeoutError txID)), w) /\
  waitForPChainTransactionAcceptance env runner txID w
  = (Ret (Some (pTimeoutError txID)), w).
Proof.
  intros Ht.
  destruct (pollFuel_succ (networkAcceptanceTimeout runner)) as (fuel & Hfuel).
  unfold waitForXchainTransactionAcceptance, waitForPChainTransactionAcceptance,
    bind, timeNow.
  rewrite Hfuel. cbn [pollXchain pollPChain]. unfold bind, timeSince.
  replace (now w - now w) with 0 by lia.
  destruct (Z.ltb_spec 0 (networkAcceptanceTimeout runner)) as [H|H]; [lia|].
  split; reflexivity.
Qed.

(** X1 at a concrete input: a timeout of zero. *)
Lemma X1_poll_nonpositive_timeout_witness :
  networkAcceptanceTimeout (NewRPCWorkFlowRunner 0%nat testUser 0) <= 0 /\
  waitForXchainTransactionAcceptance envAllGood
    (NewRPCWorkFlowRunner 0%nat testUser 0) 7%N world0
  = (Ret (Some (xTimeoutError 7%N)), world0).
Proof.
  assert (H : networkAcceptanceTimeout (NewRPCWorkFlowRunner 0%nat testUser 0) <= 0)
    by (cbn; lia).
  split; [exact H|].
  exact (proj1 (X1_poll_nonpositive_timeout envAllGood
                  (NewRPCWorkFlowRunner 0%nat testUser 0) 7%N world0 H)).
Defined.

Section PollPace.

Variable env : Env.
Variable S : Type.
Variable c : Call.
Variable query : World -> S * option error.
Variable verdict : S -> option (option error).
Variable wrap : error -> option error.
Variable timeoutErr : error.
Variable timeout : Duration.
Variable start : Z.
Variable obs : History -> History -> list (Z * S * option error).
Hypothesis obs_nil : forall h, obs h [] = [].
Hypothesis obs_query : forall h t rest,
  obs h ((t, c) :: rest) =
  (t, fst (query {| now := t; trace := h |}),
      snd (query {| now := t; trace := h |})) :: obs (h ++ [(t, c)]) rest.
Hypothesis obs_sleep : forall h t d rest,
  obs h ((t, CSleep d) :: rest) = obs (h ++ [(t, CSleep d)]) rest.

(** Between two queries of a run lies a sleep of a second: the query
    number [k] is made [k] seconds into the run at the earliest, and
    within the timeout. *)
Lemma PollRun_pace w r w' :
  PollRun env S c query verdict wrap timeoutErr timeout start w r w' ->
  exists evs,
    trace w' = trace w ++ evs /\
    forall k o, nth_error (obs (trace w) evs) k = Some o ->
      now w + Z.of_nat k * Second <= fst (fst o) /\
      fst (fst o) - start < timeout.
Proof.
  induction 1 as [w Hge|w e Hlt He|w r Hlt He Hv|w r w' Hlt He Hv _ IH].
  - exists []. rewrite app_nil_r, obs_nil. split; [reflexivity|].
    intros [|k] o H; discriminate H.
  - exists [(now w, c)]. cbn [advance trace]. split; [reflexivity|].
    rewrite obs_query, obs_nil. intros [|[|k]] o H; cbn in H; try discriminate H.
    inversion H; subst o. cbn [fst]. lia.
  - exists [(now w, c)]. cbn [advance trace]. split; [reflexivity|].
    rewrite obs_query, obs_nil. intros [|[|k]] o H; cbn in H; try discriminate H.
    inversion H; subst o. cbn [fst]. lia.
  - destruct IH as (evs & Htr & Hpace).
    cbn [advance trace now] in *.
    set (t' := now w + 0 + Z.of_N (latency env w c)) in *.
    exists ((now w, c) :: (t', CSleep Second) :: evs).
    split; [rewrite Htr, <- !app_assoc; reflexivity|].
    rewrite obs_query, obs_sleep.
    intros [|k] o H; cbn [nth_error] in H.
    + inversion H; subst o. cbn [fst]. lia.
    + destruct (Hpace k o H) as [H1 H2]. split; [|exact H2].
      subst t'. unfold Second in *. lia.
Qed.

End PollPace.

(** X2.  The status queries of a wait are paced: query number [k]
    (counting from 0) is made no earlier than [k] seconds after the wait
    began and before the timeout has elapsed; so a wait makes fewer than
    [timeout / 1s + 1] queries. *)
Theorem X2_poll_pacing (env : Env) (runner : RPCWorkFlowRunner) (txID : ID)
    (w : World) :
  (exists res w' evs,
     waitForXchainTransactionAcceptance env runner txID w = (Ret res, w') /\
     trace w' = trace w ++ evs /\
     (forall k o, nth_error (xStatusReplies env (trace w) evs) k = Some o ->
        now w + Z.of_nat k * Second <= fst (fst o) /\
        fst (fst o) - now w < networkAcceptanceTimeout runner) /\
     (Z.of_nat (List.length (xStatusReplies env (trace w) evs)) - 1) * Second
     < Z.max (networkAcceptanceTimeout runner) 0) /\
  (exists res w' evs,
     waitForPChainTransactionAcceptance env runner txID w = (Ret res, w') /\
     trace w' = trace w ++ evs /\
     (forall k o, nth_error (pStatusReplies env (trace w) evs) k = Some o ->
        now w + Z.of_nat k * Second <= fst (fst o) /\
        fst (fst o) - now w < networkAcceptanceTimeout runner) /\
     (Z.of_nat (List.length (pStatusReplies env (trace w) evs)) - 1) * Second
     < Z.max (networkAcceptanceTimeout runner) 0).
Proof.
  assert (Hbound : forall (A : Type) (obs : list (Z * A * option error)) t0 T,
            (forall k o, nth_error obs k = Some o ->
               t0 + Z.of_nat k * Second <= fst (fst o) /\ fst (fst o) - t0 < T) ->
            (Z.of_nat (List.length obs) - 1) * Second < Z.max T 0).
  { intros A obs t0 T H.
    destruct obs as [|o0 obs'] eqn:Hobs; [cbn; unfold Second; lia|].
    rewrite <- Hobs in *.
    assert (Hlen : (0 < List.length obs)%nat) by (rewrite Hobs; cbn; lia).
    destruct (nth_error obs (List.length obs - 1)) as [o|] eqn:Hn.
    - destruct (H _ _ Hn) as [H1 H2].
      rewrite Nat2Z.inj_sub in H1 by lia. cbn in H1. lia.
    - apply nth_error_None in Hn. lia. }
  split.
  - unfold waitForXchainTransactionAcceptance, bind, timeNow.
    destruct (pollLoop_run env XStatus (CXGetTxStatus (client runner) txID)
                (fun w => xGetTxStatus env w (client runner) txID)
                (xVerdict txID) xStatusError (xTimeoutError txID)
                (networkAcceptanceTimeout runner) (now w)
                (pollFuel (networkAcceptanceTimeout runner)) w)
      as (r & w' & Hrun & HR).
    { pose proof (pollFuel_enough (networkAcceptanceTimeout runner)). lia. }
    { unfold pollFuel. lia. }
    rewrite pollXchain_pollLoop, Hrun.
    destruct (PollRun_pace env XStatus (CXGetTxStatus (client runner) txID)
                (fun w => xGetTxStatus env w (client runner) txID)
                (xVerdict txID) xStatusError (xTimeoutError txID)
                (networkAcceptanceTimeout runner) (now w)
                (xStatusReplies env)
                ltac:(reflexivity) ltac:(reflexivity) ltac:(reflexivity)
                w r w' HR) as (evs & Htr & Hpace).
    exists r, w', evs. split; [reflexivity|]. split; [exact Htr|].
    split; [exact Hpace|]. eapply Hbound; exact Hpace.
  - unfold waitForPChainTransactionAcceptance, bind, timeNow.
    destruct (pollLoop_run env PStatus (CPGetTxStatus (client runner) txID)
                (fun w => pGetTxStatus env w (client runner) txID)
                (pVerdict txID) pStatusError (pTimeoutError txID)
                (networkAcceptanceTimeout runner) (now w)
                (pollFuel (networkAcceptanceTimeout runner)) w)
      as (r & w' & Hrun & HR).
    { pose proof (pollFuel_enough (networkAcceptanceTimeout runner)). lia. }
    { unfold pollFuel. lia. }
    rewrite pollPChain_pollLoop, Hrun.
    destruct (PollRun_pace env PStatus (CPGetTxStatus (client runner) txID)
                (fun w => pGetTxStatus env w (client runner) txID)
                (pVerdict txID) pStatusError (pTimeoutError txID)
                (networkAcceptanceTimeout runner) (now w)
                (pStatusReplies env)
                ltac:(reflexivity) ltac:(reflexivity) ltac:(reflexivity)
                w r w' HR) as (evs & Htr & Hpace).
    exists r, w', evs. split; [reflexivity|]. split; [exact Htr|].
    split; [exact Hpace|]. eapply Hbound; exact Hpace.
Qed.

(** ** Awaiting on the P chain *)

(** The result of a wait on the P chain. *)
Lemma waitForPChain_result (env : Env) (runner : RPCWorkFlowRunner) (txID : ID)
    (w : World) :
  exists res w' evs,
    waitForPChainTransactionAcceptance env runner txID w = (Ret res, w') /\
    trace w' = trace w ++ evs /\ now w <= now w' /\
    Forall (isPPollEvent (client runner) txID) evs /\
    match res with
    | None =>
      exists evs0 t,
        evs = evs0 ++ [(t, CPGetTxStatus (client runner) txID)] /\
        pGetTxStatus env {| now := t; trace := trace w ++ evs0 |}
          (client runner) txID = (PCommitted, None)
    | Some e => pWaitError txID e
    end.
Proof.
  destruct (waitForPChain_events env runner txID w)
    as (res & w' & evs & Hrun & Htr & Hev & Hacc).
  destruct (waitForPChain_summary env runner txID w)
    as (res2 & w2 & evs2 & Hrun2 & _ & Hnow & _ & _ & _ & _ & _ & Hcases).
  rewrite Hrun in Hrun2. inversion Hrun2; subst res2 w2. clear Hrun2.
  exists res, w', evs.
  split; [exact Hrun|]. split; [exact Htr|]. split; [exact Hnow|].
  split; [exact Hev|].
  destruct res as [e|]; [|now apply Hacc].
  destruct Hcases as [H|[(t & s & e0 & _ & H)|(t & s & _ & H)]].
  - inversion H. right; left; reflexivity.
  - inversion H. right; right. now exists e0.
  - left. exists s. destruct s; cbn in H; inversion H; auto.
Qed.

(** X3.  [AwaitPChainTxs] always returns, and its run is the one of
    [AwaitPTrace] from the world of the call: the identifiers are awaited
    in the order of the list, each by the run [PWait] of the P chain
    poller (status queries for that identifier, a second apart, until one
    is answered Committed, Dropped or Aborted or fails, or the timeout has
    elapsed); it passes to the next identifier only when that wait has
    ended with the answer Committed, and returns the error of the first
    wait that fails without querying any later identifier. *)
Theorem X3_await_pchain_txs (env : Env) (runner : RPCWorkFlowRunner) :
  forall txIDs w,
  exists res w' evs,
    AwaitPChainTxs env runner txIDs w = (Ret res, w') /\
    trace w' = trace w ++ evs /\
    AwaitPTrace env runner w txIDs evs res w'.
Proof.
  induction txIDs as [|txID rest IH]; intros w.
  - exists None, w, []. rewrite app_nil_r. repeat split. constructor.
  - cbn [AwaitPChainTxs]. unfold bind, ret.
    destruct (waitForPChain_wait env runner txID w)
      as (res1 & w1 & polls & Hrun & HW).
    destruct (PWait_trace _ _ _ _ _ _ _ _ HW) as [Htr _].
    rewrite Hrun.
    destruct res1 as [e|].
    { eexists _, _, polls. split; [reflexivity|]. split; [exact Htr|].
      now apply AwaitPError. }
    destruct (IH w1) as (res & w' & evs & Hrun2 & Htr2 & Hat).
    rewrite Hrun2.
    eexists res, w', (polls ++ evs). split; [reflexivity|].
    split; [rewrite Htr2, Htr, <- !app_assoc; reflexivity|].
    eapply AwaitPNext; eauto.
Qed.

(** ** Decoding the fetched UTXOs *)

(** The decoding loop from index [i] on, when the slice has room for what
    is left to decode. *)
Lemma decodeLoop_spec (env : Env) :
  forall utxosBytes i utxos w,
    List.length utxos = (i + List.length utxosBytes)%nat ->
    exists r,
      decodeLoop env i utxosBytes utxos w = (Ret r, w) /\
      match r with
      | inr utxos' =>
        Forall (fun b => snd (codecUnmarshal env b) = None) utxosBytes /\
        utxos' = firstn i utxos
                 ++ map (fun b => Some (fst (codecUnmarshal env b))) utxosBytes
      | inl res =>
        exists pre b rest er,
          utxosBytes = pre ++ b :: rest /\
          Forall (fun b => snd (codecUnmarshal env b) = None) pre /\
          snd (codecUnmarshal env b) = Some er /\
          res = Some (Propagated er "Failed to unmarshal utxo bytes." [])
      end.
Proof.
  induction utxosBytes as [|b rest IH]; intros i utxos w Hlen;
    cbn [decodeLoop List.length] in *.
  - exists (inr utxos). split; [reflexivity|]. split; [constructor|].
    cbn [map]. rewrite app_nil_r, firstn_all2; [reflexivity|lia].
  - destruct (codecUnmarshal env b) as [utxo [er|]] eqn:Hb.
    { eexists. split; [reflexivity|]. exists [], b, rest, er.
      rewrite Hb. repeat split; auto. }
    unfold bind, store.
    destruct (Nat.ltb_spec i (List.length utxos)) as [Hlt|Hge]; [|lia].
    cbn [ret].
    destruct (IH (Datatypes.S i)
                (firstn i utxos ++ Some utxo :: skipn (Datatypes.S i) utxos) w)
      as (r & Hrun & Hr).
    { rewrite length_app. cbn [List.length].
      rewrite length_firstn, length_skipn. lia. }
    exists r. split; [exact Hrun|].
    destruct r as [res|utxos'].
    + destruct Hr as (pre & b' & rest' & er & Heq & Hpre & Hb' & Hres).
      exists (b :: pre), b', rest', er. rewrite Heq. repeat split; auto.
      constructor; [rewrite Hb; reflexivity|exact Hpre].
    + destruct Hr as [Hall Heq]. split.
      * constructor; [rewrite Hb; reflexivity|exact Hall].
      * rewrite Heq. cbn [map]. rewrite Hb. cbn [fst].
        assert (Hf : List.length (firstn i utxos) = i)
          by (rewrite length_firstn; lia).
        replace (Datatypes.S i) with (List.length (firstn i utxos) + 1)%nat at 1
          by lia.
        rewrite firstn_app_2. cbn [firstn]. rewrite <- app_assoc. reflexivity.
Qed.

(** X4.  Decoding the byte strings of a UTXO fetch, into a slice made for
    them, never panics and calls nothing.  Either every byte string decodes
    and the slice holds the decoded UTXOs in the order fetched, none nil; or
    the run of [ExecuteTest] ends with the error of the first byte string
    that does not decode, wrapped. *)
Theorem X4_decode_utxos (env : Env) (utxosBytes : list (list byte)) (w : World) :
  exists r,
    (utxos <- make None (len utxosBytes) ;;
     decodeLoop env 0 utxosBytes utxos) w = (Ret r, w) /\
    match r with
    | inr utxos =>
      Forall (fun b => snd (codecUnmarshal env b) = None) utxosBytes /\
      utxos = map (fun b => Some (fst (codecUnmarshal env b))) utxosBytes
    | inl res =>
      exists pre b rest er,
        utxosBytes = pre ++ b :: rest /\
        Forall (fun b => snd (codecUnmarshal env b) = None) pre /\
        snd (codecUnmarshal env b) = Some er /\
        res = Some (Propagated er "Failed to unmarshal utxo bytes." [])
    end.
Proof.
  unfold bind at 1, make, len.
  destruct (Z.ltb_spec (Z.of_nat (List.length utxosBytes)) 0) as [Hneg|_]; [lia|].
  cbn [ret]. rewrite Nat2Z.id.
  destruct (decodeLoop_spec env utxosBytes 0
              (repeat None (List.length utxosBytes)) w) as (r & Hrun & Hr).
  { rewrite repeat_length. reflexivity. }
  exists r. split; [exact Hrun|].
  destruct r as [res|utxos]; [exact Hr|]. exact Hr.
Qed.

(** ** How [ExecuteTest] can end *)

Lemma endsAt_bind {A B} (R : A -> World -> Prop) (m : M A) (k : A -> M B)
    (w : World) R' P :
  endsAt m w R P ->
  (forall a w1, R a w1 -> endsAt (k a) w1 R' P) ->
  endsAt (bind m k) w R' P.
Proof.
  unfold endsAt, bind. destruct (m w) as [[a|p|] w1]; intros H Hk; auto.
  exact (Hk a w1 H).
Qed.

Lemma endsAt_conseq {A} (m : M A) (w : World) (R R' : A -> World -> Prop)
    (P P' : panicValue -> World -> Prop) :
  endsAt m w R P ->
  (forall a w', R a w' -> R' a w') ->
  (forall p w', P p w' -> P' p w') ->
  endsAt m w R' P'.
Proof.
  unfold endsAt. destruct (m w) as [[a|p|] w1]; intros H HR HP; auto.
Qed.

Lemma endsAt_returns {A} (m : M A) (w : World) (R : A -> World -> Prop) P :
  (exists a w', m w = (Ret a, w') /\ R a w') -> endsAt m w R P.
Proof. intros (a & w' & Hm & H). unfold endsAt. rewrite Hm. exact H. Qed.

Lemma endsAt_ret {A} (a : A) (w : World) (R : A -> World -> Prop) P :
  R a w -> endsAt (ret a) w R P.
Proof. intros H. exact H. Qed.

Lemma endsAt_index {A} (l : list A) (i : nat) (w : World) P :
  (i < List.length l)%nat ->
  endsAt (index l i) w (fun a _ => nth_error l i = Some a) P.
Proof.
  intros Hlt. unfold endsAt, index.
  destruct (nth_error l i) as [a|] eqn:Hnth; [reflexivity|].
  apply nth_error_None in Hnth. lia.
Qed.

Lemma endsAt_store {A} (l : list A) (i : nat) (v : A) (w : World) P :
  (i < List.length l)%nat ->
  endsAt (store l i v) w
    (fun l' _ => l' = firstn i l ++ v :: skipn (Datatypes.S i) l) P.
Proof.
  intros Hlt. unfold endsAt, store.
  destruct (Nat.ltb_spec i (List.length l)); [reflexivity|lia].
Qed.

Lemma endsAt_make {A} (zero : A) (n : nat) (w : World) P :
  endsAt (make zero (Z.of_nat n)) w (fun l _ => List.length l = n) P.
Proof.
  unfold endsAt, make. destruct (Z.ltb_spec (Z.of_nat n) 0); [lia|].
  cbn [ret]. rewrite repeat_length. apply Nat2Z.id.
Qed.

Lemma length_stored {A} (l : list A) (i : nat) (v : A) :
  (i < List.length l)%nat ->
  List.length (firstn i l ++ v :: skipn (Datatypes.S i) l) = List.length l.
Proof.
  intros Hlt. rewrite length_app. cbn [List.length].
  rewrite length_firstn, length_skipn. lia.
Qed.

Lemma firstn_stored {A} (l : list A) (i : nat) (v : A) :
  (i < List.length l)%nat ->
  firstn (Datatypes.S i) (firstn i l ++ v :: skipn (Datatypes.S i) l)
  = firstn i l ++ [v].
Proof.
  intros Hlt.
  assert (Hf : List.length (firstn i l) = i) by (rewrite length_firstn; lia).
  replace (Datatypes.S i) with (List.length (firstn i l) + 1)%nat at 1 by lia.
  rewrite firstn_app_2. reflexivity.
Qed.

Section Ends.

Variable env : Env.
Variable e : bombardExecutor.

Let notNil {A} (p : option A) : Prop := p <> None.

Lemma endsAt_call {A} (c : Call) (h : World -> A) (w : World) P :
  endsAt (call env c h) w (fun _ _ => True) P.
Proof. exact I. Qed.

Lemma endsAt_createRandomString (w : World) P :
  endsAt (createRandomString env) w (fun _ _ => True) P.
Proof. exact I. Qed.

Lemma endsAt_CreateDefaultAddresses (runner : RPCWorkFlowRunner) (w : World) P :
  endsAt (CreateDefaultAddresses env runner) w (fun _ _ => True) P.
Proof.
  unfold endsAt, CreateDefaultAddresses, bind, call, ret.
  destruct (keystoreCreateUser env w (client runner) (userPass runner))
    as [b [er|]]; [exact I|].
  destruct (xCreateAddress env _ (client runner) (userPass runner))
    as [x [er|]]; [exact I|].
  destruct (pCreateAddress env _ (client runner) (userPass runner))
    as [p er]. exact I.
Qed.

Lemma endsAt_ImportGenesisFunds (runner : RPCWorkFlowRunner) (w : World) P :
  endsAt (ImportGenesisFunds env runner) w (fun _ _ => True) P.
Proof.
  unfold endsAt, ImportGenesisFunds, bind, call, ret.
  destruct (keystoreCreateUser env w (client runner) (userPass runner))
    as [b [er|]]; [exact I|].
  destruct (xImportKey env _ (client runner) (userPass runner) _)
    as [x [er|]]; exact I.
Qed.

Lemma endsAt_VerifyXChainAVABalance (runner : RPCWorkFlowRunner)
    (address : string) (expected : Z) (w : World) P :
  endsAt (VerifyXChainAVABalance env runner address expected) w
    (fun _ _ => True) P.
Proof.
  unfold endsAt, VerifyXChainAVABalance, bind, call, ret.
  destruct (xGetBalance env w (client runner) address AvaxAssetID)
    as [b [er|]]; [exact I|].
  destruct (negb (b =? expected)); exact I.
Qed.

Lemma endsAt_FundXChainAddresses (runner : RPCWorkFlowRunner)
    (addresses : list string) (amount : Z) (w : World) P :
  endsAt (FundXChainAddresses env runner addresses amount) w (fun _ _ => True) P.
Proof.
  apply endsAt_returns.
  destruct (FundXChainAddresses_trace env runner amount addresses w)
    as (res & w' & evs & Hrun & _).
  now exists res, w'.
Qed.

Lemma endsAt_confirmLoop (runner : RPCWorkFlowRunner)
    (txIDLists : list (list ID)) (w : World) P :
  endsAt (confirmLoop env runner txIDLists) w (fun _ _ => True) P.
Proof.
  apply endsAt_returns.
  destruct (confirmLoop_returns env runner txIDLists w) as (w' & Hrun).
  now exists tt, w'.
Qed.

(** The set-up loop fills the entries it passes: when it is done, every
    runner is there. *)
Lemma setupLoop_ends P :
  forall clients i sc xa w,
    List.length sc = (i + List.length clients)%nat ->
    List.length xa = (i + List.length clients)%nat ->
    Forall notNil (firstn i sc) ->
    endsAt (setupLoop env e i clients sc xa) w
      (fun r _ =>
         match r with
         | inl _ => True
         | inr (sc', xa') =>
           List.length sc' = List.length sc /\
           List.length xa' = List.length xa /\
           Forall notNil sc'
         end) P.
Proof.
  induction clients as [|cl rest IH]; intros i sc xa w Hsc Hxa Hfilled;
    cbn [setupLoop List.length] in *.
  - apply endsAt_ret. split; [reflexivity|]. split; [reflexivity|].
    rewrite firstn_all2 in Hfilled; [exact Hfilled|lia].
  - eapply endsAt_bind; [apply endsAt_createRandomString|intros username w1 _].
    eapply endsAt_bind; [apply endsAt_createRandomString|intros password w2 _].
    eapply endsAt_bind; [apply endsAt_store; lia|intros sc1 w3 ->].
    eapply endsAt_bind; [apply endsAt_CreateDefaultAddresses|].
    intros [[xAddress pAddress] [er|]] w4 _; [exact I|].
    eapply endsAt_bind; [apply endsAt_store; lia|intros xa1 w5 ->].
    eapply endsAt_conseq; [apply IH| |auto].
    + rewrite length_stored; lia.
    + rewrite length_stored; lia.
    + rewrite firstn_stored by lia. apply Forall_app. split; [exact Hfilled|].
      constructor; [discriminate|constructor].
    + intros [res|[sc' xa']] w' H; [exact I|].
      rewrite !length_stored in H by lia. exact H.
Qed.

Lemma verifyLoop_ends (genesisClient : Client) (xa : list string) P :
  forall clients i ul w,
    Forall notNil clients ->
    (i + List.length clients <= List.length xa)%nat ->
    (i + List.length clients <= List.length ul)%nat ->
    endsAt (verifyLoop env e genesisClient xa i clients ul) w
      (fun r _ =>
         match r with
         | inl _ => True
         | inr ul' => List.length ul' = List.length ul
         end) P.
Proof.
  induction clients as [|cl rest IH]; intros i ul w Hcl Hxa Hul;
    cbn [verifyLoop List.length] in *.
  - apply endsAt_ret. reflexivity.
  - inversion Hcl as [|? ? Hsome Hrest]; subst.
    eapply endsAt_bind; [apply endsAt_index; lia|intros addr w1 _].
    destruct cl as [runner|]; [|now elim Hsome].
    eapply endsAt_bind; [apply endsAt_ret; exact I|intros r w2 _].
    eapply endsAt_bind; [apply endsAt_VerifyXChainAVABalance|].
    intros [er|] w3 _; [exact I|].
    eapply endsAt_bind; [apply endsAt_index; lia|intros addr' w4 _].
    eapply endsAt_bind; [apply endsAt_call|].
    intros [utxosBytes [er|]] w5 _; [exact I|].
    eapply endsAt_bind; [apply endsAt_make|intros utxos w6 Hlen].
    eapply (endsAt_bind (fun _ _ => True)).
    { apply endsAt_returns.
      destruct (decodeLoop_spec env utxosBytes 0 utxos w6) as (r0 & Hrun & _);
        [exact Hlen|].
      now exists r0, w6. }
    intros [res|utxos'] w7 _; [exact I|].
    eapply endsAt_bind; [apply endsAt_store; lia|intros ul1 w8 ->].
    eapply endsAt_conseq; [apply IH; try assumption| |auto].
    + lia.
    + rewrite length_stored; lia.
    + intros [res|ul'] w' H; [exact I|].
      rewrite length_stored in H by lia. exact H.
Qed.

Lemma buildLoop_ends (sc : list (option RPCWorkFlowRunner)) (xa : list string)
    (ul : list (list (option UTXO))) :
  Forall notNil sc ->
  forall clients i pk tl til w,
    (i + List.length clients <= List.length sc)%nat ->
    (i + List.length clients <= List.length xa)%nat ->
    (i + List.length clients <= List.length ul)%nat ->
    (i + List.length clients <= List.length pk)%nat ->
    (i + List.length clients <= List.length tl)%nat ->
    (i + List.length clients <= List.length til)%nat ->
    endsAt (buildLoop env e sc xa ul i clients pk tl til) w
      (fun r _ =>
         match r with
         | inl _ => True
         | inr (tl', _) => List.length tl' = List.length tl
         end)
      (fun p _ => p = IndexOutOfRange 0 0 \/ p = NilInterfaceConversion).
Proof.
  intros Hsc.
  induction clients as [|cl rest IH]; intros i pk tl til w H1 H2 H3 H4 H5 H6;
    cbn [buildLoop List.length] in *.
  - apply endsAt_ret. reflexivity.
  - eapply endsAt_bind; [apply endsAt_index; lia|intros utxos w1 _].
    eapply (endsAt_bind (fun _ _ => True)).
    { destruct utxos as [|u rest']; [left; reflexivity|exact I]. }
    intros utxo w2 _.
    eapply endsAt_bind; [apply endsAt_index; lia|intros secondary w3 Hnth].
    assert (Hsome : notNil secondary).
    { cbn beta in Hnth. apply (proj1 (Forall_forall _ _) Hsc).
      eapply nth_error_In. exact Hnth. }
    destruct secondary as [runner|]; [|now elim Hsome].
    eapply endsAt_bind; [apply endsAt_ret; exact I|intros r w4 _].
    eapply endsAt_bind; [apply endsAt_index; lia|intros addr w5 _].
    eapply endsAt_bind; [apply endsAt_call|].
    intros [pkStr [er|]] w6 _; [exact I|].
    destruct (negb (prefix SecretKeyPrefix pkStr)); [exact I|].
    destruct (formattingDecode env (TrimPrefix pkStr SecretKeyPrefix))
      as [pkBytes [er|]]; [exact I|].
    destruct (toPrivateKey env pkBytes) as [[sk|] er'].
    2:{ right. reflexivity. }
    eapply endsAt_bind; [apply endsAt_ret; exact I|intros sk' w7 _].
    eapply endsAt_bind; [apply endsAt_store; lia|intros pk1 w8 ->].
    eapply endsAt_bind; [apply endsAt_call|].
    intros [[txs txIDs] [er|]] w9 _; [exact I|].
    eapply endsAt_bind; [apply endsAt_store; lia|intros tl1 w10 ->].
    eapply endsAt_bind; [apply endsAt_store; lia|intros til1 w11 ->].
    eapply endsAt_conseq; [apply IH| |auto]; try lia;
      try (rewrite length_stored; lia).
    intros [res|[tl' til']] w' H; [exact I|].
    rewrite length_stored in H by lia. exact H.
Qed.

Lemma IssueTxList_ends (runner : RPCWorkFlowRunner) P :
  forall txList w,
    endsAt (IssueTxList env runner txList) w
      (fun res w' =>
         match res with
         | None => True
         | Some er => issueFailed env (PanicError er) w'
         end) P.
Proof.
  induction txList as [|tx rest IH]; intros w; cbn [IssueTxList].
  - exact I.
  - unfold endsAt, bind, call.
    destruct (xIssueTx env w (client runner) tx) as [id [er|]] eqn:Hrep.
    + cbn. exists (trace w), (now w), (client runner), tx, er.
      split; [reflexivity|]. split; [|reflexivity].
      destruct w as [t h]. cbn. rewrite Hrep. reflexivity.
    + apply IH.
Qed.

Lemma issueLoop_ends (txLists : list (list (list byte))) :
  forall clients i wg w,
    Forall notNil clients ->
    (i + List.length clients <= List.length txLists)%nat ->
    0 <= wg ->
    endsAt (issueLoop env wg i clients txLists) w
      (fun wg' _ => wg' = wg) (issueFailed env).
Proof.
  induction clients as [|cl rest IH]; intros i wg w Hcl Hlen Hwg;
    cbn [issueLoop List.length] in *.
  - apply endsAt_ret. reflexivity.
  - inversion Hcl as [|? ? Hsome Hrest]; subst.
    destruct cl as [runner|]; [|now elim Hsome].
    destruct (Z.ltb_spec (wg + 1) 0) as [Hneg|_]; [lia|].
    eapply (endsAt_bind (fun wg1 _ => wg1 = wg + 1));
      [apply endsAt_ret; reflexivity|intros wg1 w1 ->].
    eapply endsAt_bind; [apply endsAt_index; lia|intros txList w2 _].
    eapply (endsAt_bind (fun wg' _ => wg' = wg)).
    { unfold issueTxsAsync.
      eapply endsAt_bind; [apply endsAt_ret; exact I|intros r w3 _].
      eapply endsAt_bind; [apply IssueTxList_ends|].
      intros [er|] w4 H; [exact H|].
      destruct (Z.ltb_spec (wg + 1 - 1) 0) as [Hneg|_]; [lia|].
      apply endsAt_ret. lia. }
    intros wg' w3 ->. apply IH; auto. lia.
Qed.

(** [ExecuteTest], walked through. *)
Lemma ExecuteTest_ends (w : World) :
  endsAt (ExecuteTest env e) w (fun _ _ => True)
    (fun p w' =>
       p = IndexOutOfRange 0 0 \/ p = NilInterfaceConversion \/
       issueFailed env p w').
Proof.
  unfold ExecuteTest.
  destruct (normalClients e) as [|genesis others] eqn:Hclients.
  { left. reflexivity. }
  eapply endsAt_bind; [apply endsAt_ret; exact I|intros genesisClient w1 _].
  replace (len (genesis :: others) - 1) with (Z.of_nat (List.length others))
    by (unfold len; cbn [List.length]; lia).
  eapply endsAt_bind; [apply endsAt_make|intros sc0 w2 Hsc0; cbn beta in Hsc0].
  eapply endsAt_bind; [apply endsAt_make|intros xa0 w3 Hxa0; cbn beta in Hxa0].
  eapply (endsAt_bind (fun l _ => l = others));
    [exact eq_refl|intros others' w4 ->].
  eapply endsAt_bind.
  { apply (setupLoop_ends _ others 0%nat sc0 xa0); [lia|lia|constructor]. }
  intros [res|[sc xa]] w5 Hsetup; [exact I|].
  destruct Hsetup as (Hsc & Hxa & Hfilled).
  eapply endsAt_bind; [apply endsAt_createRandomString|intros username w6 _].
  eapply endsAt_bind; [apply endsAt_createRandomString|intros password w7 _].
  eapply endsAt_bind; [apply endsAt_ImportGenesisFunds|].
  intros [addr [er|]] w8 _; [exact I|].
  eapply endsAt_bind; [apply endsAt_call|].
  intros [addrs [er|]] w9 _; [exact I|].
  destruct (Z.eqb_spec (len addrs) 1) as [Hone|_]; [|exact I].
  cbn [negb].
  eapply endsAt_bind.
  { apply endsAt_index. unfold len in Hone. lia. }
  intros genesisAddress w10 _.
  eapply endsAt_bind; [apply endsAt_FundXChainAddresses|].
  intros [er|] w11 _; [exact I|].
  destruct (createXChainCodec env) as [er|]; [exact I|].
  unfold len at 1.
  eapply endsAt_bind; [apply endsAt_make|intros ul0 w12 Hul0; cbn beta in Hul0].
  eapply endsAt_bind.
  { apply (verifyLoop_ends genesisClient xa _ sc 0%nat ul0);
      [exact Hfilled|lia|lia]. }
  intros [res|ul] w13 Hul; [exact I|]. cbn beta in Hul.
  unfold len at 1.
  eapply endsAt_bind; [apply endsAt_make|intros pk w14 Hpk; cbn beta in Hpk].
  unfold len at 1.
  eapply endsAt_bind; [apply endsAt_make|intros tl0 w15 Htl0; cbn beta in Htl0].
  unfold len at 1.
  eapply endsAt_bind; [apply endsAt_make|intros til0 w16 Htil0; cbn beta in Htil0].
  eapply (endsAt_bind (fun l _ => l = others));
    [exact eq_refl|intros others'' w17 ->].
  eapply endsAt_bind.
  { eapply endsAt_conseq;
      [apply (buildLoop_ends sc xa ul Hfilled others 0%nat pk tl0 til0); lia
      |intros a w' H; exact H
      |intros p w' [H|H]; auto]. }
  intros [res|[tl til]] w18 Htl; [exact I|]. cbn beta in Htl.
  eapply endsAt_bind.
  { eapply endsAt_conseq;
      [apply (issueLoop_ends tl sc 0%nat 0); [exact Hfilled|lia|lia]
      |intros a w' H; exact H
      |intros p w' H; auto]. }
  intros wg w19 ->.
  eapply (endsAt_bind (fun _ _ => True)); [exact I|intros [] w20 _].
  eapply endsAt_bind; [apply endsAt_confirmLoop|intros [] w21 _].
  exact I.
Qed.

End Ends.

(** X5.  [ExecuteTest] always ends, and it panics in three ways only: with
    the index 0 out of the range of an empty slice, as [e.normalClients[0]]
    and [utxoLists[i][0]] are when there is no client or no UTXO; with the
    conversion of the nil key that [ToPrivateKey] returned; or, through
    [issueTxsAsync], with the wrapped error of an [IssueTx] call that
    failed, which is then the last call of the run.  In particular
    [wg.Wait] never blocks, the wait group never goes negative, no nil
    runner is dereferenced and no index but 0 is ever out of range. *)
Theorem X5_execute_test_panics (env : Env) (e : bombardExecutor) (w : World) :
  match ExecuteTest env e w with
  | (Ret _, _) => True
  | (Panic p, w') =>
    p = IndexOutOfRange 0 0 \/ p = NilInterfaceConversion \/
    issueFailed env p w'
  | (OutOfFuel, _) => False
  end.
Proof. exact (ExecuteTest_ends env e w). Qed.

(** ** The part of each client *)

Lemma quiet_bind_result {A B} (Q : Call -> bool) (R : A -> Prop) (m : M A)
    (k : A -> M B) :
  quiet Q m ->
  (forall a w w', m w = (Ret a, w') -> R a) ->
  (forall a, R a -> quiet Q (k a)) ->
  quiet Q (bind m k).
Proof.
  intros Hm HR Hk w. apply wp_bind.
  destruct (Hm w) as (out & w1 & evs1 & Hrun & Htr & HQ).
  exists out, w1, evs1. split; [exact Hrun|]. split; [exact Htr|].
  destruct out as [a|p|]; try exact HQ.
  eapply wp_conseq; [apply (Hk a (HR a w w1 Hrun))|].
  intros out2 w2 evs2 H2. apply Forall_app. auto.
Qed.

Lemma quiet_bind_deref {A B} (Q : Call -> bool) (p : option A) (k : A -> M B) :
  (forall a, p = Some a -> quiet Q (k a)) -> quiet Q (bind (deref p) k).
Proof.
  intros H. apply (quiet_bind_result Q (fun a => p = Some a));
    [apply quiet_deref| |exact H].
  intros a w w' Hrun. destruct p as [x|]; inversion Hrun. reflexivity.
Qed.

Lemma quiet_bind_index {A B} (Q : Call -> bool) (l : list A) (i : nat)
    (k : A -> M B) :
  (forall a, nth_error l i = Some a -> quiet Q (k a)) ->
  quiet Q (bind (index l i) k).
Proof.
  intros H. apply (quiet_bind_result Q (fun a => nth_error l i = Some a));
    [apply quiet_index| |exact H].
  intros a w w' Hrun. unfold index in Hrun.
  destruct (nth_error l i) as [x|]; inversion Hrun. reflexivity.
Qed.

Lemma Forall_stored {A} (P : A -> Prop) (v : A) :
  forall l i,
    Forall P l -> P v -> Forall P (firstn i l ++ v :: skipn (Datatypes.S i) l).
Proof.
  induction l as [|x l IH]; intros i Hl Hv.
  - destruct i; cbn; auto.
  - inversion Hl; subst. destruct i as [|i]; cbn [firstn skipn app].
    + constructor; assumption.
    + constructor; [assumption|]. apply IH; assumption.
Qed.

Lemma store_Ret_eq {A} (l : list A) (i : nat) (v : A) (w w' : World)
    (l' : list A) :
  store l i v w = (Ret l', w') ->
  l' = firstn i l ++ v :: skipn (Datatypes.S i) l.
Proof.
  unfold store. destruct (i <? List.length l)%nat; intros H;
    [|discriminate H].
  unfold ret in H. congruence.
Qed.

Section Roles.

Variable env : Env.
Variable e : bombardExecutor.
Variable genesis : Client.
Variable others : list Client.

Let Q : Call -> bool := clientRole genesis others.
Let other (cl : Client) : Prop := existsb (Nat.eqb cl) others = true.
Let otherRunner (p : option RPCWorkFlowRunner) : Prop :=
  forall r, p = Some r -> other (client r).

Lemma others_other : Forall other others.
Proof.
  apply Forall_forall. intros cl Hin. apply existsb_exists.
  exists cl. split; [exact Hin|apply Nat.eqb_refl].
Qed.

Lemma role_CreateDefaultAddresses (runner : RPCWorkFlowRunner) :
  other (client runner) -> quiet Q (CreateDefaultAddresses env runner).
Proof.
  intros H. unfold CreateDefaultAddresses.
  apply quiet_bind.
  { apply quiet_call. cbn. rewrite H. apply orb_true_r. }
  intros [b [er|]]; [apply quiet_ret|].
  apply quiet_bind; [apply quiet_call; exact H|].
  intros [x [er|]]; [apply quiet_ret|].
  apply quiet_bind; [apply quiet_call; exact H|].
  intros [p er]. apply quiet_ret.
Qed.

Lemma role_ImportGenesisFunds (runner : RPCWorkFlowRunner) :
  client runner = genesis -> quiet Q (ImportGenesisFunds env runner).
Proof.
  intros H. unfold ImportGenesisFunds. rewrite H.
  apply quiet_bind.
  { apply quiet_call. cbn. rewrite Nat.eqb_refl. reflexivity. }
  intros [b [er|]]; [apply quiet_ret|].
  apply quiet_bind; [apply quiet_call; cbn; apply Nat.eqb_refl|].
  intros [x [er|]]; apply quiet_ret.
Qed.

Lemma role_wait (runner : RPCWorkFlowRunner) (txID : ID) :
  client runner = genesis ->
  quiet Q (waitForXchainTransactionAcceptance env runner txID).
Proof.
  intros H. apply quiet_waitForXchain; [|reflexivity].
  cbn. rewrite H. apply Nat.eqb_refl.
Qed.

Lemma role_FundXChainAddresses (runner : RPCWorkFlowRunner)
    (addresses : list string) (amount : Z) :
  client runner = genesis ->
  quiet Q (FundXChainAddresses env runner addresses amount).
Proof.
  intros H. induction addresses as [|address rest IH];
    cbn [FundXChainAddresses]; [apply quiet_ret|].
  apply quiet_bind.
  { apply quiet_call. cbn. rewrite H. apply Nat.eqb_refl. }
  intros [txID [er|]]; [apply quiet_ret|].
  apply quiet_bind; [now apply role_wait|].
  intros [er|]; [apply quiet_ret|exact IH].
Qed.

Lemma role_AwaitXChainTxs (runner : RPCWorkFlowRunner) (txIDs : list ID) :
  client runner = genesis -> quiet Q (AwaitXChainTxs env runner txIDs).
Proof.
  intros H. induction txIDs as [|txID rest IH]; cbn [AwaitXChainTxs];
    [apply quiet_ret|].
  apply quiet_bind; [now apply role_wait|].
  intros [er|]; [apply quiet_ret|exact IH].
Qed.

Lemma role_confirmLoop (runner : RPCWorkFlowRunner)
    (txIDLists : list (list ID)) :
  client runner = genesis -> quiet Q (confirmLoop env runner txIDLists).
Proof.
  intros H. induction txIDLists as [|txIDs rest IH]; cbn [confirmLoop];
    [apply quiet_ret|].
  apply quiet_bind; [now apply role_AwaitXChainTxs|].
  intros [er|]; exact IH.
Qed.

Lemma role_IssueTxList (runner : RPCWorkFlowRunner)
    (txList : list (list byte)) :
  other (client runner) -> quiet Q (IssueTxList env runner txList).
Proof.
  intros H. induction txList as [|tx rest IH]; cbn [IssueTxList];
    [apply quiet_ret|].
  apply quiet_bind; [apply quiet_call; exact H|].
  intros [id [er|]]; [apply quiet_ret|exact IH].
Qed.

Lemma role_setupLoop :
  forall clients i sc xa,
    Forall other clients -> quiet Q (setupLoop env e i clients sc xa).
Proof.
  induction clients as [|cl rest IH]; intros i sc xa Hcl; cbn [setupLoop];
    [apply quiet_ret|].
  inversion Hcl; subst.
  apply quiet_bind; [now apply quiet_createRandomString|intro].
  apply quiet_bind; [now apply quiet_createRandomString|intro].
  apply quiet_bind; [apply quiet_store|intro].
  apply quiet_bind; [now apply role_CreateDefaultAddresses|].
  intros [[x p0] [er|]]; [apply quiet_ret|].
  apply quiet_bind; [apply quiet_store|intro]. now apply IH.
Qed.

(** The runners that the set-up loop stores are on the clients it ranges
    over. *)
Lemma setupLoop_runners :
  forall clients i sc xa w sc' xa' w',
    setupLoop env e i clients sc xa w = (Ret (inr (sc', xa')), w') ->
    Forall other clients -> Forall otherRunner sc -> Forall otherRunner sc'.
Proof.
  induction clients as [|cl rest IH]; intros i sc xa w sc' xa' w' H Hcl Hsc;
    cbn [setupLoop] in H.
  - inversion H; subst. exact Hsc.
  - inversion Hcl; subst.
    apply bind_Ret_inv in H. destruct H as (username & w1 & _ & H).
    apply bind_Ret_inv in H. destruct H as (password & w2 & _ & H).
    apply bind_Ret_inv in H. destruct H as (sc1 & w3 & Hst & H).
    apply store_Ret_eq in Hst.
    apply bind_Ret_inv in H. destruct H as ([[xAddr pAddr] err] & w4 & _ & H).
    destruct err as [er|]; [inversion H|].
    apply bind_Ret_inv in H. destruct H as (xa1 & w5 & _ & H).
    eapply IH; [exact H|assumption|].
    subst sc1. apply Forall_stored; [exact Hsc|].
    intros r Hr. inversion Hr; subst r. assumption.
Qed.

Lemma role_verifyLoop (xa : list string) :
  forall clients i ul,
    Forall otherRunner clients ->
    quiet Q (verifyLoop env e genesis xa i clients ul).
Proof.
  induction clients as [|cl rest IH]; intros i ul Hcl; cbn [verifyLoop];
    [apply quiet_ret|].
  inversion Hcl as [|? ? Hrunner Hrest]; subst.
  apply quiet_bind; [apply quiet_index|intro addr].
  apply quiet_bind_deref. intros runner ->.
  apply quiet_bind.
  { unfold VerifyXChainAVABalance.
    apply quiet_bind; [apply quiet_call; now apply Hrunner|].
    intros [b [er|]]; [apply quiet_ret|].
    destruct (negb (b =? seedAmount e)); apply quiet_ret. }
  intros [er|]; [apply quiet_ret|].
  apply quiet_bind; [apply quiet_index|intro addr'].
  apply quiet_bind; [apply quiet_call; cbn; apply Nat.eqb_refl|].
  intros [utxosBytes [er|]]; [apply quiet_ret|].
  apply quiet_bind; [apply quiet_make|intro utxos].
  apply quiet_bind.
  { intros w. destruct (decodeLoop_pure env utxosBytes 0 utxos w) as (out & Hrun).
    exists out, w, []. rewrite app_nil_r. repeat split; auto. }
  intros [res|utxos']; [apply quiet_ret|].
  apply quiet_bind; [apply quiet_store|intro]. now apply IH.
Qed.

Lemma role_buildLoop (sc : list (option RPCWorkFlowRunner)) (xa : list string)
    (ul : list (list (option UTXO))) :
  forall clients i pk tl til,
    Forall other clients ->
    quiet Q (buildLoop env e sc xa ul i clients pk tl til).
Proof.
  induction clients as [|cl rest IH]; intros i pk tl til Hcl; cbn [buildLoop];
    [apply quiet_ret|].
  inversion Hcl; subst.
  apply quiet_bind; [apply quiet_index|intro utxos].
  apply quiet_bind; [apply quiet_index|intro utxo].
  apply quiet_bind; [apply quiet_index|intro secondary].
  apply quiet_bind; [apply quiet_deref|intro runner].
  apply quiet_bind; [apply quiet_index|intro addr].
  apply quiet_bind; [apply quiet_call; assumption|].
  intros [pkStr [er|]]; [apply quiet_ret|].
  destruct (negb (prefix SecretKeyPrefix pkStr)); [apply quiet_ret|].
  destruct (formattingDecode env (TrimPrefix pkStr SecretKeyPrefix))
    as [pkBytes [er|]]; [apply quiet_ret|].
  destruct (toPrivateKey env pkBytes) as [skIntf er'].
  apply quiet_bind; [destruct skIntf; [apply quiet_ret|apply quiet_panic]|intro sk].
  apply quiet_bind; [apply quiet_store|intro].
  apply quiet_bind; [apply quiet_call; reflexivity|].
  intros [[txs txIDs] [er|]]; [apply quiet_ret|].
  apply quiet_bind; [apply quiet_store|intro].
  apply quiet_bind; [apply quiet_store|intro]. now apply IH.
Qed.

Lemma role_issueLoop (txLists : list (list (list byte))) :
  forall clients wg i,
    Forall otherRunner clients ->
    quiet Q (issueLoop env wg i clients txLists).
Proof.
  induction clients as [|cl rest IH]; intros wg i Hcl; cbn [issueLoop];
    [apply quiet_ret|].
  inversion Hcl as [|? ? Hrunner Hrest]; subst.
  apply quiet_bind;
    [destruct (wg + 1 <? 0); [apply quiet_panic|apply quiet_ret]|intro wg1].
  apply quiet_bind; [apply quiet_index|intro txList].
  apply quiet_bind; [|intro; now apply IH].
  unfold issueTxsAsync.
  apply quiet_bind_deref. intros runner ->.
  apply quiet_bind; [apply role_IssueTxList; now apply Hrunner|].
  intros [er|]; [apply quiet_panic|].
  destruct (wg1 - 1 <? 0); [apply quiet_panic|apply quiet_ret].
Qed.

Lemma role_ExecuteTest :
  normalClients e = genesis :: others -> quiet Q (ExecuteTest env e).
Proof.
  intros Hclients. unfold ExecuteTest. rewrite Hclients.
  apply quiet_bind_index. intros genesisClient Hg.
  cbn in Hg. inversion Hg; subst genesisClient. clear Hg.
  apply (quiet_bind_result Q (Forall otherRunner)); [apply quiet_make| |].
  { intros sc0 w w' H. unfold make in H.
    destruct (len (genesis :: others) - 1 <? 0); inversion H.
    apply Forall_forall. intros p Hin. apply repeat_spec in Hin. subst p.
    intros r Hr. discriminate Hr. }
  intros sc0 Hsc0.
  apply quiet_bind; [apply quiet_make|intro xa0].
  apply (quiet_bind_result Q (fun l => l = others)); [apply quiet_sliceFrom| |].
  { intros l w w' H. cbn in H. inversion H. reflexivity. }
  intros others' ->.
  apply (quiet_bind_result Q
           (fun r => forall sc xa, r = inr (sc, xa) -> Forall otherRunner sc)).
  { apply role_setupLoop. apply others_other. }
  { intros r w w' H sc xa ->.
    eapply setupLoop_runners; [exact H|apply others_other|exact Hsc0]. }
  intros [res|[sc xa]] Hr; [apply quiet_ret|].
  assert (Hsc : Forall otherRunner sc) by (now apply (Hr sc xa)).
  apply quiet_bind; [now apply quiet_createRandomString|intro username].
  apply quiet_bind; [now apply quiet_createRandomString|intro password].
  apply quiet_bind; [now apply role_ImportGenesisFunds|].
  intros [addr [er|]]; [apply quiet_ret|].
  apply quiet_bind; [apply quiet_call; cbn; apply Nat.eqb_refl|].
  intros [addrs [er|]]; [apply quiet_ret|].
  destruct (negb (len addrs =? 1)); [apply quiet_ret|].
  apply quiet_bind; [apply quiet_index|intro genesisAddress].
  apply quiet_bind; [now apply role_FundXChainAddresses|].
  intros [er|]; [apply quiet_ret|].
  destruct (createXChainCodec env) as [er|]; [apply quiet_ret|].
  apply quiet_bind; [apply quiet_make|intro ul0].
  apply quiet_bind; [now apply role_verifyLoop|].
  intros [res|ul]; [apply quiet_ret|].
  apply quiet_bind; [apply quiet_make|intro pk].
  apply quiet_bind; [apply quiet_make|intro tl0].
  apply quiet_bind; [apply quiet_make|intro til0].
  apply (quiet_bind_result Q (fun l => l = others)); [apply quiet_sliceFrom| |].
  { intros l w w' H. cbn in H. inversion H. reflexivity. }
  intros others' ->.
  apply quiet_bind; [apply role_buildLoop; apply others_other|].
  intros [res|[tl til]]; [apply quiet_ret|].
  apply quiet_bind; [now apply role_issueLoop|intro wg].
  apply quiet_bind;
    [unfold wgWait; destruct (wg =? 0); [apply quiet_ret|apply quiet_panic]|].
  intros [].
  apply quiet_bind; [now apply role_confirmLoop|intro]. apply quiet_ret.
Qed.

End Roles.

(** X6.  In a run of [ExecuteTest] every call goes to a client of the
    executor, and each client keeps to its part: the first client alone
    imports the genesis key, lists addresses, sends funds, fetches UTXOs and
    is asked the status of transactions, also of those that the other
    clients issued; the other clients alone create addresses, are asked a
    balance, export a key and issue transactions.  No funds are moved
    between the chains and no P chain status is asked. *)
Theorem X6_client_roles (env : Env) (e : bombardExecutor) (w : World) :
  exists out w' evs,
    ExecuteTest env e w = (out, w') /\
    trace w' = trace w ++ evs /\
    Forall (fun ev => clientRole (hd 0%nat (normalClients e))
                        (tl (normalClients e)) (snd ev) = true) evs.
Proof.
  destruct (normalClients e) as [|genesis others] eqn:Hclients.
  - exists (Panic (IndexOutOfRange 0 0)), w, [].
    unfold ExecuteTest. rewrite Hclients, app_nil_r. repeat split. constructor.
  - exact (role_ExecuteTest env e genesis others Hclients w).
Qed.

(** ** Building the chains *)

(** A string with a prefix is the prefix and what [TrimPrefix] leaves. *)
Lemma TrimPrefix_prefix :
  forall p s, prefix p s = true -> s = (p ++ TrimPrefix s p)%string.
Proof.
  intros p s H. unfold TrimPrefix. rewrite H. revert s H.
  induction p as [|a p IH]; intros s H.
  - cbn. rewrite Nat.sub_0_r. clear H.
    induction s as [|b s IHs]; cbn; [reflexivity|]. now rewrite <- IHs.
  - destruct s as [|b s]; cbn in H; [discriminate H|].
    destruct (Ascii.ascii_dec a b) as [->|]; [|discriminate H].
    cbn. f_equal. apply IH. exact H.
Qed.

Section Build.

Variable env : Env.
Variable e : bombardExecutor.
Variable sc : list (option RPCWorkFlowRunner).
Variable xa : list string.
Variable ul : list (list (option UTXO)).
Hypothesis sc_filled : Forall (fun r => r <> None) sc.

Lemma buildLoop_trace :
  forall clients i pk tl til w,
    (i + List.length clients <= List.length sc)%nat ->
    (i + List.length clients <= List.length xa)%nat ->
    (i + List.length clients <= List.length ul)%nat ->
    (i + List.length clients <= List.length pk)%nat ->
    (i + List.length clients <= List.length tl)%nat ->
    (i + List.length clients <= List.length til)%nat ->
    exists out w' evs,
      buildLoop env e sc xa ul i clients pk tl til w = (out, w') /\
      trace w' = trace w ++ evs /\
      BuildTrace env e sc xa ul (trace w) i clients evs (stopOf out).
Proof.
  induction clients as [|cl rest IH]; intros i pk tl til w H1 H2 H3 H4 H5 H6;
    cbn [buildLoop List.length] in *.
  - exists (Ret (inr (tl, til))), w, []. rewrite app_nil_r.
    repeat split. constructor.
  - destruct (nth_error ul i) as [utxos|] eqn:Hul;
      [|apply nth_error_None in Hul; lia].
    destruct (nth_error sc i) as [secondary|] eqn:Hsc;
      [|apply nth_error_None in Hsc; lia].
    destruct (nth_error xa i) as [addr|] eqn:Hxa;
      [|apply nth_error_None in Hxa; lia].
    assert (Hsome : secondary <> None).
    { apply (proj1 (Forall_forall _ _) sc_filled).
      eapply nth_error_In. exact Hsc. }
    destruct secondary as [runner|]; [clear Hsome|now elim Hsome].
    unfold bind at 1, index at 1. rewrite Hul. cbn [ret].
    destruct utxos as [|utxo utxos].
    { exists (Panic (IndexOutOfRange 0 0)), w, []. rewrite app_nil_r.
      repeat split. now apply BuildNoUTXO. }
    unfold bind at 1, index at 1. cbn [nth_error ret].
    unfold bind at 1, index at 1. rewrite Hsc. cbn [ret].
    unfold bind at 1. cbn [deref ret].
    unfold bind at 1, index at 1. rewrite Hxa. cbn [ret].
    unfold bind at 1, call at 1.
    set (export := (now w, CXExportKey cl (User runner) addr)).
    set (w1 := advance env w (CXExportKey cl (User runner) addr) 0).
    assert (Hrep : xExportKey env {| now := now w; trace := trace w |} cl
                     (User runner) addr
                   = xExportKey env w cl (User runner) addr)
      by (destruct w; reflexivity).
    destruct (xExportKey env w cl (User runner) addr) as [pkStr [er|]] eqn:Hkey.
    { eexists _, w1, [export]. split; [reflexivity|]. split; [reflexivity|].
      cbn [stopOf Propagate]. eapply BuildExportFails; eauto. }
    destruct (prefix SecretKeyPrefix pkStr) eqn:Hpre; cbn [negb].
    2:{ eexists _, w1, [export]. split; [reflexivity|]. split; [reflexivity|].
        cbn [stopOf]. eapply BuildNoPrefix; eauto. }
    assert (Hsplit := TrimPrefix_prefix _ _ Hpre).
    set (body := TrimPrefix pkStr SecretKeyPrefix) in *.
    rewrite Hsplit in Hrep. unfold SecretKeyPrefix in Hrep.
    destruct (formattingDecode env body) as [pkBytes [er|]] eqn:Hdec.
    { eexists _, w1, [export]. split; [reflexivity|]. split; [reflexivity|].
      cbn [stopOf]. eapply BuildBadKey; eauto. }
    destruct (toPrivateKey env pkBytes) as [[sk|] er'] eqn:Hsk.
    2:{ eexists _, w1, [export]. split; [reflexivity|]. split; [reflexivity|].
        cbn [stopOf]. eapply BuildNilKey; eauto. }
    unfold bind at 1. cbn [ret].
    unfold bind at 1, store at 1.
    destruct (Nat.ltb_spec i (List.length pk)) as [_|Hge]; [|lia].
    cbn [ret].
    unfold bind at 1, call at 1.
    set (c2 := CCreateConsecutiveTransactions utxo (numTxs e) (seedAmount e)
                 (txFee e) sk).
    set (w2 := advance env w1 c2 0).
    destruct (createConsecutiveTransactions env utxo (numTxs e) (seedAmount e)
                (txFee e) sk) as [[txs txIDs] [er2|]] eqn:Hchain.
    { eexists _, w2, [export; (now w1, c2)].
      split; [reflexivity|]. split; [cbn; rewrite <- app_assoc; reflexivity|].
      cbn [stopOf Propagate]. eapply BuildChainFails; eauto. }
    unfold bind at 1, store at 1.
    destruct (Nat.ltb_spec i (List.length tl)) as [_|Hge]; [|lia].
    cbn [ret].
    unfold bind at 1, store at 1.
    destruct (Nat.ltb_spec i (List.length til)) as [_|Hge]; [|lia].
    cbn [ret].
    match goal with
    | |- context [buildLoop env e sc xa ul (Datatypes.S i) rest ?pk' ?tl' ?til' w2] =>
      destruct (IH (Datatypes.S i) pk' tl' til' w2)
        as (out & w' & evs & Hrun & Htr & Hbt);
        try lia; try (rewrite length_stored; lia)
    end.
    exists out, w', (export :: (now w1, c2) :: evs).
    split; [exact Hrun|].
    split; [rewrite Htr; cbn; rewrite <- !app_assoc; reflexivity|].
    eapply BuildNext; eauto.
    assert (Htw : trace w2 = trace w ++ [export; (now w1, c2)])
      by (cbn; rewrite <- app_assoc; reflexivity).
    rewrite Htw in Hbt. exact Hbt.
Qed.

End Build.

(** X7.  The loop of [ExecuteTest] that builds the chains, on slices as
    long as [ExecuteTest] makes them and with every runner set.  For every
    client in turn it exports the key of the client's address through that
    client, decodes the text after the prefix into a key and builds the
    chain from the first UTXO fetched for the address, with that key and
    the executor's [numTxs], seed amount and [txFee].  It stops at the
    first failure: with an error when the export fails, the prefix is
    missing, the text does not decode or the builder fails, and with a
    panic when there is no UTXO or [ToPrivateKey] gives no key; the builder
    is not called for a key that was not obtained. *)
Theorem X7_build_trace (env : Env) (e : bombardExecutor)
    (sc : list (option RPCWorkFlowRunner)) (xa : list string)
    (ul : list (list (option UTXO))) (clients : list Client)
    (pk : list (option PrivateKey)) (tl : list (list (list byte)))
    (til : list (list ID)) (w : World) :
  Forall (fun r => r <> None) sc ->
  (List.length clients <= List.length sc)%nat ->
  (List.length clients <= List.length xa)%nat ->
  (List.length clients <= List.length ul)%nat ->
  (List.length clients <= List.length pk)%nat ->
  (List.length clients <= List.length tl)%nat ->
  (List.length clients <= List.length til)%nat ->
  exists out w' evs,
    buildLoop env e sc xa ul 0 clients pk tl til w = (out, w') /\
    trace w' = trace w ++ evs /\
    BuildTrace env e sc xa ul (trace w) 0 clients evs (stopOf out).
Proof.
  intros Hsc H1 H2 H3 H4 H5 H6.
  apply buildLoop_trace; auto.
Qed.

Lemma X7_build_trace_witness :
  exists out w' evs,
    buildLoop envAllGood testExecutor [Some testRunner] ["X-1"%string] [[None]]
      0 [1%nat] [None] [[]] [[]] world0 = (out, w') /\
    trace w' = trace world0 ++ evs /\
    BuildTrace envAllGood testExecutor [Some testRunner] ["X-1"%string] [[None]]
      (trace world0) 0 [1%nat] evs (stopOf out).
Proof.
  apply X7_build_trace; cbn [List.length]; try lia.
  constructor; [discriminate|constructor].
Defined.

(** ** The staking workflows *)

Lemma skipn_app_length {A} (l evs : list A) :
  skipn (List.length l) (l ++ evs) = evs.
Proof.
  rewrite skipn_app, skipn_all, Nat.sub_diag. reflexivity.
Qed.

Lemma lift_run {A} (senv : StakingEnv) (m : Env -> M A) (w : SWorld)
    (out : outcome A) (w1 : World) (evs : History) :
  m (nodeEnv senv (strace w)) (baseWorld w) = (out, w1) ->
  trace w1 = trace (baseWorld w) ++ evs ->
  lift senv m w
  = (out, {| snow := now w1; strace := strace w ++ inBase evs |}).
Proof.
  intros Hrun Htr. unfold lift. rewrite Hrun. unfold newEvents.
  rewrite Htr, skipn_app_length. reflexivity.
Qed.

Lemma Unix_add (t : Z) (n : Z) : Unix (t + n * Second) = Unix t + n.
Proof. unfold Unix. apply Z.div_add. discriminate. Qed.

Lemma wrap64_add_l (a b : Z) : wrap64 (wrap64 a + b) = wrap64 (a + b).
Proof. unfold wrap64. apply Zplus_mod_idemp_l. Qed.

(** The sleep that ends a staking workflow: it ends no earlier than [d]
    past [t]. *)
Lemma sleepUntil_run (senv : StakingEnv) (t : Z) (d : Duration) (w : SWorld) :
  exists w',
    sleepUntil senv t d w = (Ret tt, w') /\
    strace w' = strace w ++ inBase [(snow w, CSleep (t - snow w + d))] /\
    t + d <= snow w'.
Proof.
  unfold sleepUntil, sbind, stimeNow.
  erewrite lift_run with (evs := [(snow w, CSleep (t - snow w + d))]);
    [|reflexivity|reflexivity].
  eexists. split; [reflexivity|]. split; [reflexivity|].
  cbn. lia.
Qed.

Section StakingFacts.

Variable senv : StakingEnv.
Variable runner : RPCWorkFlowRunner.

Lemma AddValidator_run (nodeID pchainAddress : string) (stakeAmount : Z)
    (w : SWorld) :
  exists res w' evs startTime endTime,
    AddValidatorToPrimaryNetwork senv runner nodeID pchainAddress stakeAmount w
    = (Ret res, w') /\
    strace w' = strace w
                ++ (snow w, inr (CPAddValidator (client runner) (userPass runner)
                                   pchainAddress nodeID stakeAmount startTime
                                   endTime 2))
                :: inBase evs /\
    startTime = wrap64 (Unix (snow w) + 20) /\
    endTime = wrap64 (startTime + 72 * 3600) /\
    match pAddValidator senv w (client runner) (userPass runner) pchainAddress
            nodeID stakeAmount startTime endTime 2 with
    | (_, Some e) =>
      evs = [] /\
      res = Some (Propagated e "Failed to add validator to primrary network %s"
                    [ArgStr nodeID])
    | (txID, None) =>
      afterRequest senv runner txID "Failed to confirm AddValidator Tx: %s"
        (snow w + 23 * Second)
        (sadvance senv w
           (CPAddValidator (client runner) (userPass runner) pchainAddress
              nodeID stakeAmount startTime endTime 2))
        res w' evs
    end.
Proof.
  unfold AddValidatorToPrimaryNetwork, sbind at 1, stimeNow.
  unfold sbind at 1, scall at 1.
  set (start := wrap64 (Unix (snow w + DefaultStakingDelay))).
  set (stop := wrap64 (Unix (snow w + DefaultStakingDelay + DefaultStakingPeriod))).
  assert (Hstart : start = wrap64 (Unix (snow w) + 20))
    by (unfold start, DefaultStakingDelay; now rewrite Unix_add).
  assert (Hstop : stop = wrap64 (start + 72 * 3600)).
  { unfold stop, start, DefaultStakingDelay, DefaultStakingPeriod, Hour.
    rewrite wrap64_add_l.
    replace (72 * (3600 * Second)) with (72 * 3600 * Second) by lia.
    now rewrite !Unix_add. }
  unfold DefaultDelegationFeeRate.
  set (c := CPAddValidator (client runner) (userPass runner) pchainAddress
              nodeID stakeAmount start stop 2).
  set (w1 := {| snow := snow w + Z.of_N (stakingLatency senv w c);
                strace := strace w ++ [(snow w, inr c)] |}).
  destruct (pAddValidator senv w (client runner) (userPass runner)
              pchainAddress nodeID stakeAmount start stop 2)
    as [txID [er|]] eqn:Hreq.
  { eexists _, w1, [], start, stop. split; [reflexivity|].
    split; [reflexivity|]. split; [exact Hstart|]. split; [exact Hstop|].
    rewrite Hreq. split; reflexivity. }
  destruct (waitForPChain_wait (nodeEnv senv (strace w1)) runner txID
              (baseWorld w1))
    as (res1 & w2 & polls & Hrun & HW).
  destruct (PWait_trace _ _ _ _ _ _ _ _ HW) as [Htr Hnow].
  unfold sbind at 1.
  rewrite (lift_run senv _ w1 _ w2 polls Hrun Htr).
  destruct res1 as [er|].
  { eexists _, _, polls, start, stop. split; [reflexivity|].
    split; [cbn; rewrite <- app_assoc; reflexivity|].
    split; [exact Hstart|]. split; [exact Hstop|].
    rewrite Hreq. exists polls, (Some er), w2. split; [exact HW|].
    split; reflexivity. }
  unfold sbind at 1.
  match goal with
  | |- context [sleepUntil senv ?t ?d ?w0] =>
    destruct (sleepUntil_run senv t d w0) as (w3 & Hsleep & Htr3 & Hwake)
  end.
  rewrite Hsleep.
  eexists None, w3, (polls ++ _), start, stop. split; [reflexivity|].
  split.
  { rewrite Htr3. cbn [strace w1]. unfold inBase.
    rewrite map_app, <- !app_assoc. reflexivity. }
  split; [exact Hstart|]. split; [exact Hstop|].
  rewrite Hreq. exists polls, None, w2. split; [exact HW|].
  cbn [snow] in *. split; [|split; [reflexivity|]].
  - f_equal. f_equal. f_equal. f_equal.
    unfold DefaultStakingDelay, stakingPeriodSynchronyDelay. lia.
  - unfold DefaultStakingDelay, stakingPeriodSynchronyDelay in Hwake. lia.
Qed.

Lemma AddDelegator_run (delegateeNodeID pChainAddress : string) (stakeAmount : Z)
    (w : SWorld) :
  exists res w' evs startTime endTime,
    AddDelegatorToPrimaryNetwork senv runner delegateeNodeID pChainAddress
      stakeAmount w
    = (Ret res, w') /\
    strace w' = strace w
                ++ (snow w, inr (CPAddDelegator (client runner) (userPass runner)
                                   pChainAddress delegateeNodeID stakeAmount
                                   startTime endTime))
                :: inBase evs /\
    startTime = wrap64 (Unix (snow w) + 20) /\
    endTime = wrap64 (startTime + 36 * 3600) /\
    match pAddDelegator senv w (client runner) (userPass runner) pChainAddress
            delegateeNodeID stakeAmount startTime endTime with
    | (_, Some e) =>
      evs = [] /\
      res = Some (Propagated e "Failed to add delegator %s"
                    [ArgStr pChainAddress])
    | (txID, None) =>
      afterRequest senv runner txID "Failed to accept AddDelegator tx: %s"
        (snow w + 23 * Second)
        (sadvance senv w
           (CPAddDelegator (client runner) (userPass runner) pChainAddress
              delegateeNodeID stakeAmount startTime endTime))
        res w' evs
    end.
Proof.
  unfold AddDelegatorToPrimaryNetwork, sbind at 1, stimeNow.
  unfold sbind at 1, scall at 1.
  set (start := wrap64 (Unix (snow w + DefaultDelegationDelay))).
  set (stop := wrap64 (Unix (snow w + DefaultDelegationDelay + DefaultDelegationPeriod))).
  assert (Hstart : start = wrap64 (Unix (snow w) + 20))
    by (unfold start, DefaultDelegationDelay; now rewrite Unix_add).
  assert (Hstop : stop = wrap64 (start + 36 * 3600)).
  { unfold stop, start, DefaultDelegationDelay, DefaultDelegationPeriod, Hour.
    rewrite wrap64_add_l.
    replace (36 * (3600 * Second)) with (36 * 3600 * Second) by lia.
    now rewrite !Unix_add. }
  set (c := CPAddDelegator (client runner) (userPass runner) pChainAddress
              delegateeNodeID stakeAmount start stop).
  set (w1 := {| snow := snow w + Z.of_N (stakingLatency senv w c);
                strace := strace w ++ [(snow w, inr c)] |}).
  destruct (pAddDelegator senv w (client runner) (userPass runner)
              pChainAddress delegateeNodeID stakeAmount start stop)
    as [txID [er|]] eqn:Hreq.
  { eexists _, w1, [], start, stop. split; [reflexivity|].
    split; [reflexivity|]. split; [exact Hstart|]. split; [exact Hstop|].
    rewrite Hreq. split; reflexivity. }
  destruct (waitForPChain_wait (nodeEnv senv (strace w1)) runner txID
              (baseWorld w1))
    as (res1 & w2 & polls & Hrun & HW).
  destruct (PWait_trace _ _ _ _ _ _ _ _ HW) as [Htr Hnow].
  unfold sbind at 1.
  rewrite (lift_run senv _ w1 _ w2 polls Hrun Htr).
  destruct res1 as [er|].
  { eexists _, _, polls, start, stop. split; [reflexivity|].
    split; [cbn; rewrite <- app_assoc; reflexivity|].
    split; [exact Hstart|]. split; [exact Hstop|].
    rewrite Hreq. exists polls, (Some er), w2. split; [exact HW|].
    split; reflexivity. }
  unfold sbind at 1.
  match goal with
  | |- context [sleepUntil senv ?t ?d ?w0] =>
    destruct (sleepUntil_run senv t d w0) as (w3 & Hsleep & Htr3 & Hwake)
  end.
  rewrite Hsleep.
  eexists None, w3, (polls ++ _), start, stop. split; [reflexivity|].
  split.
  { rewrite Htr3. cbn [strace w1]. unfold inBase.
    rewrite map_app, <- !app_assoc. reflexivity. }
  split; [exact Hstart|]. split; [exact Hstop|].
  rewrite Hreq. exists polls, None, w2. split; [exact HW|].
  cbn [snow] in *. split; [|split; [reflexivity|]].
  - f_equal. f_equal. f_equal. f_equal.
    unfold DefaultDelegationDelay, stakingPeriodSynchronyDelay. lia.
  - unfold DefaultDelegationDelay, stakingPeriodSynchronyDelay in Hwake. lia.
Qed.

End StakingFacts.

(** X8.  [AddValidatorToPrimaryNetwork] and [AddDelegatorToPrimaryNetwork]
    always return.  Their first call is the staking request: it asks for a
    period that starts 20 seconds after the call, in whole seconds of the
    clock, and lasts 72 hours for a validator, with a delegation fee rate
    of 2, and 36 hours for a delegator.  When the request fails its error
    is returned, wrapped, and nothing else is called.  Else what follows
    is [afterRequest]: the run [PWait] of the P chain poller for the
    transaction of the request (status queries a second apart until one is
    answered Committed, Dropped or Aborted or fails, or the timeout has
    elapsed); when that wait fails its error is returned, wrapped with the
    transaction's identifier, and nothing else is called; when it ends
    with the answer Committed the workflow sleeps, once, and returns nil
    no earlier than 3 seconds after the start of the period. *)
Theorem X8_staking_requests (senv : StakingEnv) (runner : RPCWorkFlowRunner)
    (nodeID address : string) (stakeAmount : Z) (w : SWorld) :
  (exists res w' evs startTime endTime,
     AddValidatorToPrimaryNetwork senv runner nodeID address stakeAmount w
     = (Ret res, w') /\
     strace w' = strace w
                 ++ (snow w, inr (CPAddValidator (client runner) (userPass runner)
                                    address nodeID stakeAmount startTime
                                    endTime 2))
                 :: inBase evs /\
     startTime = wrap64 (Unix (snow w) + 20) /\
     endTime = wrap64 (startTime + 72 * 3600) /\
     match pAddValidator senv w (client runner) (userPass runner) address
             nodeID stakeAmount startTime endTime 2 with
     | (_, Some e) =>
       evs = [] /\
       res = Some (Propagated e "Failed to add validator to primrary network %s"
                     [ArgStr nodeID])
     | (txID, None) =>
       afterRequest senv runner txID "Failed to confirm AddValidator Tx: %s"
         (snow w + 23 * Second)
         (sadvance senv w
            (CPAddValidator (client runner) (userPass runner) address nodeID
               stakeAmount startTime endTime 2))
         res w' evs
     end) /\
  (exists res w' evs startTime endTime,
     AddDelegatorToPrimaryNetwork senv runner nodeID address stakeAmount w
     = (Ret res, w') /\
     strace w' = strace w
                 ++ (snow w, inr (CPAddDelegator (client runner) (userPass runner)
                                    address nodeID stakeAmount startTime endTime))
                 :: inBase evs /\
     startTime = wrap64 (Unix (snow w) + 20) /\
     endTime = wrap64 (startTime + 36 * 3600) /\
     match pAddDelegator senv w (client runner) (userPass runner) address
             nodeID stakeAmount startTime endTime with
     | (_, Some e) =>
       evs = [] /\
       res = Some (Propagated e "Failed to add delegator %s" [ArgStr address])
     | (txID, None) =>
       afterRequest senv runner txID "Failed to accept AddDelegator tx: %s"
         (snow w + 23 * Second)
         (sadvance senv w
            (CPAddDelegator (client runner) (userPass runner) address nodeID
               stakeAmount startTime endTime))
         res w' evs
     end).
Proof.
  split.
  - apply AddValidator_run.
  - apply AddDelegator_run.
Qed.

(** ** Sending back and forth *)






Section BackAndForth.

Variable senv : StakingEnv.
Variable runner : RPCWorkFlowRunner.
Variable to : string.
Variable amount txFee numTxs : Z.
Hypothesis numTxs_range : numTxs < 2 ^ 64.



End BackAndForth.



(** ** Importing the genesis funds and starting to validate *)

Lemma ImportGenesisFunds_run (env : Env) (runner : RPCWorkFlowRunner) (w : World) :
  exists r w' evs,
    ImportGenesisFunds env runner w = (Ret r, w') /\
    trace w' = trace w ++ evs /\
    (snd r = None ->
     exists tK,
       evs = [(now w, CKeystoreCreateUser (client runner) (userPass runner));
              (tK, CXImportKey (client runner) (userPass runner)
                     (genesisPrivateKey env))]).
Proof.
  unfold ImportGenesisFunds, bind, call, ret.
  destruct (keystoreCreateUser env w (client runner) (userPass runner))
    as [b [er|]].
  { eexists _, _, [_]. split; [reflexivity|]. split; [reflexivity|].
    discriminate. }
  destruct (xImportKey env _ (client runner) (userPass runner) _) as [a [er|]].
  - eexists _, _, [_; _]. split; [reflexivity|].
    split; [cbn; rewrite <- app_assoc; reflexivity|]. discriminate.
  - eexists _, _, [_; _]. split; [reflexivity|].
    split; [cbn; rewrite <- app_assoc; reflexivity|].
    intros _. eexists. reflexivity.
Qed.

(** A transfer to the P chain begins with the export, whatever follows. *)
Lemma TransferAvaXChainToPChain_run (env : Env) (runner : RPCWorkFlowRunner)
    (pChainAddress : string) (amount : Z) (w : World) :
  exists res w' rest,
    TransferAvaXChainToPChain env runner pChainAddress amount w = (Ret res, w') /\
    trace w' = trace w
               ++ (now w, CXExportAVAX (client runner) (userPass runner) amount
                            pChainAddress) :: rest.
Proof.
  unfold TransferAvaXChainToPChain. unfold bind at 1, call at 1.
  set (w1 := advance env w _ 0).
  destruct (xExportAVAX env w (client runner) (userPass runner) amount
              pChainAddress) as [txID [er|]].
  { eexists _, w1, []. split; reflexivity. }
  destruct (waitForXchain_result env runner txID w1)
    as (res1 & w2 & polls & Hrun & Htr & _).
  unfold bind at 1. rewrite Hrun.
  destruct res1 as [er|].
  { eexists _, w2, polls. split; [reflexivity|].
    rewrite Htr. cbn. rewrite <- app_assoc. reflexivity. }
  unfold bind at 1, call at 1.
  set (w3 := advance env w2 _ 0).
  destruct (pImportAVAX env w2 (client runner) (userPass runner) pChainAddress
              (xChainIDString env)) as [importTxID [er|]].
  { eexists _, w3, (polls ++ [_]). split; [reflexivity|].
    cbn. rewrite Htr. cbn. rewrite <- !app_assoc. reflexivity. }
  destruct (waitForPChain_result env runner importTxID w3)
    as (res2 & w4 & polls2 & Hrun2 & Htr2 & _).
  unfold bind. rewrite Hrun2.
  exists (match res2 with
          | Some e => Propagate (Some e) "Failed to Accept ImportTx: %s"
                        [ArgID importTxID]
          | None => None
          end), w4, (polls ++ (now w2, CPImportAVAX (client runner)
                                         (userPass runner) pChainAddress
                                         (xChainIDString env)) :: polls2).
  split; [destruct res2; reflexivity|].
  rewrite Htr2. cbn. rewrite Htr. cbn. rewrite <- !app_assoc. reflexivity.
Qed.

(** X10.  [ImportGenesisFundsAndStartValidating] always returns, and with
    an error it returns the empty address.  When it succeeds its run was,
    in this order: the query of the node's ID, answered without error; the
    run of [ImportGenesisFunds], which succeeded and whose calls were the
    creation of the user and the import of the genesis key; the creation
    of a P chain address, answered without error: the address answered is
    the one that is returned; the run of [TransferAvaXChainToPChain] of
    [seedAmount] to that address, which succeeded and whose calls were the
    export and what completes the transfer; and the run of
    [AddValidatorToPrimaryNetwork] for the node of the ID that was
    answered, with [stakeAmount] and that address, which succeeded: the
    request, its polling and the sleep.  Each run starts at the moment and
    with the history that the one before has left, and the last one leaves
    the world in which the workflow returns. *)
Theorem X10_import_and_start_validating (senv : StakingEnv)
    (runner : RPCWorkFlowRunner) (seedAmount stakeAmount : Z) (w : SWorld) :
  exists r w' evs,
    ImportGenesisFundsAndStartValidating senv runner seedAmount stakeAmount w
    = (Ret r, w') /\
    strace w' = strace w ++ evs /\
    match snd r with
    | Some _ => fst r = ""%string
    | None =>
      exists nodeID tU tK key tA tE transfer tV startTime endTime after,
        infoGetNodeID senv w (client runner) = (nodeID, None) /\
        evs = (snow w, inr (CInfoGetNodeID (client runner)))
              :: inBase
                   ((tU, CKeystoreCreateUser (client runner) (userPass runner))
                    :: (tK, CXImportKey (client runner) (userPass runner) key)
                    :: (tA, CPCreateAddress (client runner) (userPass runner))
                    :: (tE, CXExportAVAX (client runner) (userPass runner)
                              seedAmount (fst r))
                    :: transfer)
              ++ (tV, inr (CPAddValidator (client runner) (userPass runner)
                             (fst r) nodeID stakeAmount startTime endTime 2))
              :: inBase after /\
        let hU := strace w ++ [(snow w, inr (CInfoGetNodeID (client runner)))] in
        let hA :=
          hU ++ inBase
                  [(tU, CKeystoreCreateUser (client runner) (userPass runner));
                   (tK, CXImportKey (client runner) (userPass runner) key)] in
        let hE :=
          hA ++ inBase
                  [(tA, CPCreateAddress (client runner) (userPass runner))] in
        let hV :=
          hE ++ inBase
                  ((tE, CXExportAVAX (client runner) (userPass runner)
                          seedAmount (fst r)) :: transfer) in
        tU = snow (sadvance senv w (CInfoGetNodeID (client runner))) /\
        key = genesisPrivateKey (nodeEnv senv hU) /\
        (exists genesis wG,
           ImportGenesisFunds (nodeEnv senv hU) runner
             {| now := tU; trace := baseEvents hU |}
           = (Ret (genesis, None), wG) /\
           trace wG
           = baseEvents hU
             ++ [(tU, CKeystoreCreateUser (client runner) (userPass runner));
                 (tK, CXImportKey (client runner) (userPass runner) key)] /\
           now wG = tA) /\
        pCreateAddress (nodeEnv senv hA) {| now := tA; trace := baseEvents hA |}
          (client runner) (userPass runner) = (fst r, None) /\
        tE = now (advance (nodeEnv senv hA)
                    {| now := tA; trace := baseEvents hA |}
                    (CPCreateAddress (client runner) (userPass runner)) 0) /\
        (exists wT,
           TransferAvaXChainToPChain (nodeEnv senv hE) runner (fst r) seedAmount
             {| now := tE; trace := baseEvents hE |}
           = (Ret None, wT) /\
           trace wT
           = baseEvents hE
             ++ (tE, CXExportAVAX (client runner) (userPass runner) seedAmount
                       (fst r)) :: transfer /\
           now wT = tV) /\
        AddValidatorToPrimaryNetwork senv runner nodeID (fst r) stakeAmount
          {| snow := tV; strace := hV |}
        = (Ret None, w')
    end.
Proof.
  unfold ImportGenesisFundsAndStartValidating. unfold sbind at 1, scall at 1.
  set (w1 := {| snow := _; strace := strace w ++ [(snow w, inr _)] |}).
  destruct (infoGetNodeID senv w (client runner)) as [nodeID [er|]] eqn:Hid.
  { eexists (_, _), w1, [_]. split; [reflexivity|]. split; reflexivity. }
  destruct (ImportGenesisFunds_run (nodeEnv senv (strace w1)) runner
              (baseWorld w1)) as (r2 & w2 & evs2 & Hrun2 & Htr2 & Hok2).
  unfold sbind at 1.
  rewrite (lift_run senv _ w1 _ w2 evs2 Hrun2 Htr2).
  destruct r2 as [addr2 [er|]].
  { eexists (_, _), _, _. split; [reflexivity|].
    split; [cbn; rewrite <- app_assoc; reflexivity|]. reflexivity. }
  destruct (Hok2 eq_refl) as (tK & Hevs2). subst evs2. clear Hok2.
  set (w2' := {| snow := now w2; strace := strace w1 ++ inBase _ |}).
  unfold sbind at 1.
  erewrite lift_run
    with (evs := [(snow w2', CPCreateAddress (client runner) (userPass runner))]);
    [|reflexivity|reflexivity].
  set (w3 := {| snow := _; strace := strace w2' ++ inBase [_] |}).
  destruct (pCreateAddress (nodeEnv senv (strace w2')) (baseWorld w2')
              (client runner) (userPass runner)) as [pChainAddress [er|]] eqn:Hpc.
  { eexists (_, _), w3, _. split; [reflexivity|].
    split; [cbn; rewrite <- !app_assoc; reflexivity|]. reflexivity. }
  destruct (TransferAvaXChainToPChain_run (nodeEnv senv (strace w3)) runner
              pChainAddress seedAmount (baseWorld w3))
    as (res4 & w4 & rest4 & Hrun4 & Htr4).
  unfold sbind at 1.
  rewrite (lift_run senv _ w3 _ w4 _ Hrun4 Htr4).
  set (w4' := {| snow := now w4; strace := strace w3 ++ inBase _ |}).
  destruct res4 as [er|].
  { eexists (_, _), w4', _. split; [reflexivity|].
    split; [cbn; rewrite <- !app_assoc; reflexivity|]. reflexivity. }
  destruct (AddValidator_run senv runner nodeID pChainAddress stakeAmount w4')
    as (res5 & w5 & evs5 & startTime & endTime & Hrun5 & Htr5 & _).
  unfold sbind at 1. rewrite Hrun5.
  destruct res5 as [er|].
  { eexists (_, _), w5, _. split; [reflexivity|].
    split; [rewrite Htr5; cbn; rewrite <- !app_assoc; reflexivity|].
    reflexivity. }
  assert (Happ : forall (l : SHistory) a bc d er f,
             ((((l ++ [a]) ++ inBase bc) ++ inBase d) ++ inBase er) ++ f
             = l ++ a :: inBase (bc ++ d ++ er) ++ f).
  { intros. unfold inBase. rewrite !map_app, <- !app_assoc. reflexivity. }
  exists (pChainAddress, None), w5,
    ((snow w, inr (CInfoGetNodeID (client runner)))
     :: inBase
          ((snow w1, CKeystoreCreateUser (client runner) (userPass runner))
           :: (tK, CXImportKey (client runner) (userPass runner)
                     (genesisPrivateKey (nodeEnv senv (strace w1))))
           :: (now w2, CPCreateAddress (client runner) (userPass runner))
           :: (snow w3, CXExportAVAX (client runner) (userPass runner)
                          seedAmount pChainAddress)
           :: rest4)
     ++ (now w4, inr (CPAddValidator (client runner) (userPass runner)
                        pChainAddress nodeID stakeAmount startTime endTime 2))
     :: inBase evs5).
  split; [reflexivity|].
  split; [rewrite Htr5; exact (Happ _ _ _ _ _ _)|].
  cbn [snd fst].
  exists nodeID, (snow w1), tK, (genesisPrivateKey (nodeEnv senv (strace w1))),
    (now w2), (snow w3), rest4, (now w4), startTime, endTime, evs5.
  split; [reflexivity|].
  split; [reflexivity|].
  cbn zeta.
  split; [reflexivity|].
  split; [reflexivity|].
  split; [exists addr2, w2; split; [exact Hrun2|split; [exact Htr2|reflexivity]]|].
  split; [exact Hpc|].
  split; [reflexivity|].
  split; [exists w4; split; [exact Hrun4|split; [exact Htr4|reflexivity]]|].
  exact Hrun5.
Qed.

(** ** The phases of [ExecuteTest] in order *)

Lemma phased_nil (phases : list (Call -> bool)) : phased phases [].
Proof.
  induction phases as [|Q rest IH]; [reflexivity|].
  exists [], []. repeat split; [constructor|exact IH].
Qed.

Lemma phased_skip (Q : Call -> bool) (phases : list (Call -> bool))
    (evs : History) :
  phased phases evs -> phased (Q :: phases) evs.
Proof. intros H. exists [], evs. repeat split; [constructor|exact H]. Qed.

Lemma phased_more (Q : Call -> bool) (phases : list (Call -> bool))
    (a evs : History) :
  Forall (fun ev => Q (snd ev) = true) a ->
  phased (Q :: phases) evs -> phased (Q :: phases) (a ++ evs).
Proof.
  intros Ha (a' & b & -> & Ha' & Hb).
  exists (a ++ a'), b. rewrite app_assoc.
  repeat split; [apply Forall_app; auto|exact Hb].
Qed.

Section PhaseOrder.

Variable env : Env.
Variable e : bombardExecutor.

(** From any world, the calls of [m] are in the given phases, in order. *)
Let inPhases {A} (phases : list (Call -> bool)) (m : M A) : Prop :=
  forall w, wp m w (fun _ _ evs => phased phases evs).

Lemma inPhases_ret {A} (phases : list (Call -> bool)) (a : A) :
  inPhases phases (ret a).
Proof. intros w. apply wp_ret. apply phased_nil. Qed.

Lemma inPhases_next {A} (Q : Call -> bool) (phases : list (Call -> bool))
    (m : M A) :
  inPhases phases m -> inPhases (Q :: phases) m.
Proof.
  intros H w. eapply wp_conseq; [apply H|].
  intros out w' evs. apply phased_skip.
Qed.

Lemma inPhases_bind {A B} (Q : Call -> bool) (phases : list (Call -> bool))
    (m : M A) (k : A -> M B) :
  quiet Q m ->
  (forall a, inPhases (Q :: phases) (k a)) ->
  inPhases (Q :: phases) (bind m k).
Proof.
  intros Hm Hk w. apply wp_bind. eapply wp_conseq; [apply Hm|].
  intros [a|p|] w1 evs1 H1; cbn.
  - eapply wp_conseq; [apply Hk|]. intros out2 w2 evs2 H2.
    now apply phased_more.
  - rewrite <- (app_nil_r evs1). apply phased_more; [exact H1|apply phased_nil].
  - rewrite <- (app_nil_r evs1). apply phased_more; [exact H1|apply phased_nil].
Qed.

Lemma setupPhase_CreateDefaultAddresses (runner : RPCWorkFlowRunner) :
  quiet setupPhase (CreateDefaultAddresses env runner).
Proof. unfold CreateDefaultAddresses. quiet_walk. Qed.

Lemma setupPhase_ImportGenesisFunds (runner : RPCWorkFlowRunner) :
  quiet setupPhase (ImportGenesisFunds env runner).
Proof. unfold ImportGenesisFunds. quiet_walk. Qed.

Lemma setupPhase_setupLoop :
  forall clients i sc xa, quiet setupPhase (setupLoop env e i clients sc xa).
Proof.
  induction clients as [|cl rest IH]; intros i sc xa; cbn [setupLoop];
    [apply quiet_ret|].
  apply quiet_bind; [now apply quiet_createRandomString|intro].
  apply quiet_bind; [now apply quiet_createRandomString|intro].
  apply quiet_bind; [apply quiet_store|intro].
  apply quiet_bind; [apply setupPhase_CreateDefaultAddresses|].
  intros [[x p0] [er|]]; [apply quiet_ret|].
  apply quiet_bind; [apply quiet_store|intro]. apply IH.
Qed.

Lemma fundCall_FundXChainAddresses (runner : RPCWorkFlowRunner)
    (addresses : list string) (amount : Z) :
  quiet (fundCall amount) (FundXChainAddresses env runner addresses amount).
Proof.
  intros w.
  destruct (FundXChainAddresses_trace env runner amount addresses w)
    as (res & w' & evs & Hrun & Htr & _ & Hft).
  exists (Ret res), w', evs. split; [exact Hrun|]. split; [exact Htr|].
  eapply FundTrace_class. exact Hft.
Qed.

Lemma verifyCall_verifyLoop (genesisClient : Client) (xa : list string)
    (clients : list (option RPCWorkFlowRunner)) (i : nat)
    (ul : list (list (option UTXO))) :
  quiet verifyCall (verifyLoop env e genesisClient xa i clients ul).
Proof.
  intros w.
  destruct (verifyLoop_spec env e genesisClient xa clients i ul w)
    as (out & w' & evs & j & failed & Hrun & Htr & Hcl & _).
  exists out, w', evs. auto.
Qed.

Lemma buildPhase_buildLoop (sc : list (option RPCWorkFlowRunner))
    (xa : list string) (ul : list (list (option UTXO))) :
  forall clients i pk tl til,
    quiet (buildPhase e) (buildLoop env e sc xa ul i clients pk tl til).
Proof.
  induction clients as [|cl rest IH]; intros i pk tl til; cbn [buildLoop];
    [apply quiet_ret|].
  apply quiet_bind; [apply quiet_index|intro utxos].
  apply quiet_bind; [apply quiet_index|intro utxo].
  apply quiet_bind; [apply quiet_index|intro secondary].
  apply quiet_bind; [apply quiet_deref|intro runner].
  apply quiet_bind; [apply quiet_index|intro addr].
  apply quiet_bind; [apply quiet_call; reflexivity|].
  intros [pkStr [er|]]; [apply quiet_ret|].
  destruct (negb (prefix SecretKeyPrefix pkStr)); [apply quiet_ret|].
  destruct (formattingDecode env (TrimPrefix pkStr SecretKeyPrefix))
    as [pkBytes [er|]]; [apply quiet_ret|].
  destruct (toPrivateKey env pkBytes) as [skIntf er'].
  apply quiet_bind; [destruct skIntf; [apply quiet_ret|apply quiet_panic]|intro sk].
  apply quiet_bind; [apply quiet_store|intro].
  apply quiet_bind.
  { apply quiet_call. cbn. rewrite !Z.eqb_refl. reflexivity. }
  intros [[txs txIDs] [er|]]; [apply quiet_ret|].
  apply quiet_bind; [apply quiet_store|intro].
  apply quiet_bind; [apply quiet_store|intro]. apply IH.
Qed.

Lemma issuePhase_issueLoop (txLists : list (list (list byte))) :
  forall clients wg i, quiet issuePhase (issueLoop env wg i clients txLists).
Proof.
  induction clients as [|cl rest IH]; intros wg i; cbn [issueLoop];
    [apply quiet_ret|].
  apply quiet_bind;
    [destruct (wg + 1 <? 0); [apply quiet_panic|apply quiet_ret]|intro wg1].
  apply quiet_bind; [apply quiet_index|intro txList].
  apply quiet_bind; [|intro; apply IH].
  unfold issueTxsAsync.
  apply quiet_bind; [apply quiet_deref|intro runner].
  apply quiet_bind.
  { induction txList as [|tx txs IHt]; cbn [IssueTxList]; [apply quiet_ret|].
    apply quiet_bind; [apply quiet_call; reflexivity|].
    intros [id [er|]]; [apply quiet_ret|exact IHt]. }
  intros [er|]; [apply quiet_panic|].
  destruct (wg1 - 1 <? 0); [apply quiet_panic|apply quiet_ret].
Qed.

Lemma confirmPhase_confirmLoop (runner : RPCWorkFlowRunner) :
  forall txIDLists, quiet confirmPhase (confirmLoop env runner txIDLists).
Proof.
  induction txIDLists as [|txIDs rest IH]; cbn [confirmLoop];
    [apply quiet_ret|].
  apply quiet_bind; [|intros [er|]; exact IH].
  induction txIDs as [|txID ids IHi]; cbn [AwaitXChainTxs]; [apply quiet_ret|].
  apply quiet_bind; [now apply quiet_waitForXchain|].
  intros [er|]; [apply quiet_ret|exact IHi].
Qed.

Lemma ExecuteTest_phases : inPhases (bombardPhases e) (ExecuteTest env e).
Proof.
  unfold ExecuteTest, bombardPhases.
  apply inPhases_bind; [apply quiet_index|intro genesisClient].
  apply inPhases_bind; [apply quiet_make|intro sc0].
  apply inPhases_bind; [apply quiet_make|intro xa0].
  apply inPhases_bind; [apply quiet_sliceFrom|intro others].
  apply inPhases_bind; [apply setupPhase_setupLoop|].
  intros [res|[sc xa]]; [apply inPhases_ret|].
  apply inPhases_bind; [now apply quiet_createRandomString|intro username].
  apply inPhases_bind; [now apply quiet_createRandomString|intro password].
  apply inPhases_bind; [apply setupPhase_ImportGenesisFunds|].
  intros [addr [er|]]; [apply inPhases_ret|].
  apply inPhases_bind; [apply quiet_call; reflexivity|].
  intros [addrs [er|]]; [apply inPhases_ret|].
  destruct (negb (len addrs =? 1)); [apply inPhases_ret|].
  apply inPhases_bind; [apply quiet_index|intro genesisAddress].
  apply inPhases_next.
  apply inPhases_bind; [apply fundCall_FundXChainAddresses|].
  intros [er|]; [apply inPhases_ret|].
  destruct (createXChainCodec env) as [er|]; [apply inPhases_ret|].
  apply inPhases_next.
  apply inPhases_bind; [apply quiet_make|intro ul0].
  apply inPhases_bind; [apply verifyCall_verifyLoop|].
  intros [res|ul]; [apply inPhases_ret|].
  apply inPhases_next.
  apply inPhases_bind; [apply quiet_make|intro pk].
  apply inPhases_bind; [apply quiet_make|intro tl0].
  apply inPhases_bind; [apply quiet_make|intro til0].
  apply inPhases_bind; [apply quiet_sliceFrom|intro others'].
  apply inPhases_bind; [apply buildPhase_buildLoop|].
  intros [res|[tl til]]; [apply inPhases_ret|].
  apply inPhases_next.
  apply inPhases_bind; [apply issuePhase_issueLoop|intro wg].
  apply inPhases_bind;
    [unfold wgWait; destruct (wg =? 0); [apply quiet_ret|apply quiet_panic]|].
  intros [].
  apply inPhases_next.
  apply inPhases_bind; [apply confirmPhase_confirmLoop|intro].
  apply inPhases_ret.
Qed.

End PhaseOrder.

(** X11.  The calls of a run of [ExecuteTest] come in six phases, in this
    order and never mixed: the set-up (users, addresses, genesis key,
    listing of the genesis addresses); the funding (transfers of the seed
    amount of AVAX and the polling of their status); the verification
    (balance queries and UTXO fetches); the building (key exports and chain
    building, with the executor's [numTxs], seed amount and [txFee]); the
    issuing ([IssueTx] only); and the confirmation (status polling only).
    So no transaction is issued before every chain is built, and no status
    of an issued transaction is asked before every chain is issued. *)
Theorem X11_phases_in_order (env : Env) (e : bombardExecutor) (w : World) :
  exists out w' evs,
    ExecuteTest env e w = (out, w') /\
    trace w' = trace w ++ evs /\
    phased (bombardPhases e) evs.
Proof. exact (ExecuteTest_phases env e w). Qed.

(** ** The addresses created are the addresses funded *)

Lemma xCreateReplies_app (env : Env) (a b : History) :
  forall h,
    xCreateReplies env h (a ++ b)
    = xCreateReplies env h a ++ xCreateReplies env (h ++ a) b.
Proof.
  induction a as [|[t c] a IH]; intros h; cbn [app xCreateReplies].
  - now rewrite app_nil_r.
  - rewrite IH, <- !app_assoc. reflexivity.
Qed.

Lemma xCreateReplies_none (env : Env) (evs : History) :
  Forall (fun ev => isXCreate (snd ev) = false) evs ->
  forall h, xCreateReplies env h evs = [].
Proof.
  induction 1 as [|[t c] evs H _ IH]; intros h; [reflexivity|].
  cbn [xCreateReplies]. rewrite IH. destruct c; cbn in H; try discriminate;
    reflexivity.
Qed.

Lemma quiet_weaken {A} (Q Q' : Call -> bool) (m : M A) :
  (forall c, Q c = true -> Q' c = true) -> quiet Q m -> quiet Q' m.
Proof.
  intros H Hm w. eapply wp_conseq; [apply Hm|].
  intros out w' evs. now apply Forall_class.
Qed.

Lemma bystander_noSend (evs : History) :
  Forall (fun ev => bystander (snd ev) = true) evs -> sendsOf evs = [].
Proof.
  apply sendsOf_none. intros c H. destruct c; try discriminate H; reflexivity.
Qed.

Lemma bystander_noCreate (evs : History) :
  Forall (fun ev => bystander (snd ev) = true) evs ->
  Forall (fun ev => isXCreate (snd ev) = false) evs.
Proof.
  apply Forall_impl. intros [t c] H. destruct c; try discriminate H; reflexivity.
Qed.

Section Created.

Variable env : Env.
Variable e : bombardExecutor.

Let toAddress (a : string) : Z * string * string :=
  (seedAmount e, AvaxAssetID, a).

(** The calls of [m] create no X chain address, and its transfers are of
    the seed amount of AVAX, to the first addresses of [xa], in order. *)
Let funds {A} (xa : list string) (m : M A) : Prop :=
  forall w,
    wp m w (fun _ _ evs =>
              Forall (fun ev => isXCreate (snd ev) = false) evs /\
              exists k, sendsOf evs = map toAddress (firstn k xa)).

Lemma funds_bystander {A} (xa : list string) (m : M A) :
  quiet bystander m -> funds xa m.
Proof.
  intros Hm w. eapply wp_conseq; [apply Hm|].
  intros out w' evs H. split; [now apply bystander_noCreate|].
  exists 0%nat. now apply bystander_noSend.
Qed.

Lemma funds_bind {A B} (xa : list string) (m : M A) (k : A -> M B) :
  quiet bystander m -> (forall a, funds xa (k a)) -> funds xa (bind m k).
Proof.
  intros Hm Hk w. apply wp_bind. eapply wp_conseq; [apply Hm|].
  intros [a|p|] w1 evs1 H1; cbn.
  - eapply wp_conseq; [apply Hk|]. intros out2 w2 evs2 (Hc & k0 & Hs).
    split; [apply Forall_app; split; [now apply bystander_noCreate|exact Hc]|].
    exists k0. now rewrite sendsOf_app, (bystander_noSend _ H1).
  - split; [now apply bystander_noCreate|].
    exists 0%nat. now apply bystander_noSend.
  - split; [now apply bystander_noCreate|].
    exists 0%nat. now apply bystander_noSend.
Qed.

Lemma funds_FundXChainAddresses {B} (runner : RPCWorkFlowRunner)
    (xa : list string) (k : option error -> M B) :
  (forall r, quiet bystander (k r)) ->
  funds xa (bind (FundXChainAddresses env runner xa (seedAmount e)) k).
Proof.
  intros Hk w. apply wp_bind.
  destruct (FundXChainAddresses_trace env runner (seedAmount e) xa w)
    as (res & w1 & evs1 & Hrun & Htr & _ & Hft).
  exists (Ret res), w1, evs1. split; [exact Hrun|]. split; [exact Htr|].
  destruct (FundTrace_sends _ _ _ _ _ _ _ _ Hft) as (k0 & _ & Hs & _).
  pose proof (FundTrace_class _ _ _ _ _ _ _ _ Hft) as Hcl.
  eapply wp_conseq; [apply Hk|]. intros out2 w2 evs2 H2.
  split.
  - apply Forall_app. split; [|now apply bystander_noCreate].
    eapply Forall_impl; [|exact Hcl].
    intros [t c] H. destruct c; try discriminate H; reflexivity.
  - exists k0. rewrite sendsOf_app, Hs, (bystander_noSend _ H2).
    apply app_nil_r.
Qed.

Lemma bystander_createRandomString : quiet bystander (createRandomString env).
Proof. now apply quiet_createRandomString. Qed.

(** What follows the funding calls nothing that transfers or creates. *)
Lemma bystander_afterFunding (genesisClient : Client)
    (highLevelGenesisClient : RPCWorkFlowRunner)
    (sc : list (option RPCWorkFlowRunner)) (xa : list string) :
  quiet bystander
    (match createXChainCodec env with
     | Some er => ret (Propagate (Some er) "Failed to initialize codec." [])
     | None =>
       utxoLists <- make [] (len sc) ;;
       r <- verifyLoop env e genesisClient xa 0 sc utxoLists ;;
       match r with
       | inl res => ret res
       | inr utxoLists =>
         privateKeys <- make None (len sc) ;;
         txLists <- make [] (len sc) ;;
         txIDLists <- make [] (len sc) ;;
         others <- sliceFrom (normalClients e) 1 ;;
         r <- buildLoop env e sc xa utxoLists 0 others privateKeys txLists
                txIDLists ;;
         match r with
         | inl res => ret res
         | inr (txLists, txIDLists) =>
           wg <- issueLoop env 0 0 sc txLists ;;
           wgWait wg ;;
           confirmLoop env highLevelGenesisClient txIDLists ;;
           ret None
         end
       end
     end).
Proof.
  destruct (createXChainCodec env) as [er|]; [apply quiet_ret|].
  apply quiet_bind; [apply quiet_make|intro ul0].
  apply quiet_bind.
  { eapply quiet_weaken; [|apply verifyCall_verifyLoop].
    intros c H. destruct c; try discriminate H; reflexivity. }
  intros [res|ul]; [apply quiet_ret|].
  apply quiet_bind; [apply quiet_make|intro pk].
  apply quiet_bind; [apply quiet_make|intro tl0].
  apply quiet_bind; [apply quiet_make|intro til0].
  apply quiet_bind; [apply quiet_sliceFrom|intro others].
  apply quiet_bind.
  { eapply quiet_weaken; [|apply buildPhase_buildLoop].
    intros c H. destruct c; try discriminate H; reflexivity. }
  intros [res|[tl til]]; [apply quiet_ret|].
  apply quiet_bind.
  { eapply quiet_weaken; [|apply issuePhase_issueLoop].
    intros c H. destruct c; try discriminate H; reflexivity. }
  intro wg.
  apply quiet_bind;
    [unfold wgWait; destruct (wg =? 0); [apply quiet_ret|apply quiet_panic]|].
  intros [].
  apply quiet_bind.
  { eapply quiet_weaken; [|apply confirmPhase_confirmLoop].
    intros c H. destruct c; try discriminate H; reflexivity. }
  intro. apply quiet_ret.
Qed.

(** [ExecuteTest] after its first loop. *)
Lemma funds_afterSetup (genesisClient : Client)
    (sc : list (option RPCWorkFlowRunner)) (xa : list string) :
  funds xa
    (username <- createRandomString env ;;
     password <- createRandomString env ;;
     let genesisUser := {| Username := username; Password := password |} in
     let highLevelGenesisClient :=
       NewRPCWorkFlowRunner genesisClient genesisUser (acceptanceTimeout e) in
     '(_, err) <- ImportGenesisFunds env highLevelGenesisClient ;;
     match err with
     | Some er => ret (Propagate (Some er) "Failed to fund genesis client." [])
     | None =>
       '(addrs, err) <- call env (CXListAddresses genesisClient genesisUser)
                          (fun h => xListAddresses env h genesisClient genesisUser) ;;
       match err with
       | Some er =>
         ret (Propagate (Some er) "Failed to get genesis client's addresses" [])
       | None =>
         if negb (len addrs =? 1) then
           ret (Some (NewError
             "Found unexecpted number of addresses for genesis client: %d"
             [ArgInt (len addrs)]))
         else
           genesisAddress <- index addrs 0 ;;
           err <- FundXChainAddresses env highLevelGenesisClient xa
                    (seedAmount e) ;;
           match err with
           | Some er =>
             ret (Propagate (Some er)
                    "Failed to fund X Chain Addresses for Clients" [])
           | None =>
             match createXChainCodec env with
             | Some er => ret (Propagate (Some er) "Failed to initialize codec." [])
             | None =>
               utxoLists <- make [] (len sc) ;;
               r <- verifyLoop env e genesisClient xa 0 sc utxoLists ;;
               match r with
               | inl res => ret res
               | inr utxoLists =>
                 privateKeys <- make None (len sc) ;;
                 txLists <- make [] (len sc) ;;
                 txIDLists <- make [] (len sc) ;;
                 others <- sliceFrom (normalClients e) 1 ;;
                 r <- buildLoop env e sc xa utxoLists 0 others privateKeys
                        txLists txIDLists ;;
                 match r with
                 | inl res => ret res
                 | inr (txLists, txIDLists) =>
                   wg <- issueLoop env 0 0 sc txLists ;;
                   wgWait wg ;;
                   confirmLoop env highLevelGenesisClient txIDLists ;;
                   ret None
                 end
               end
             end
           end
       end
     end).
Proof.
  apply funds_bind; [apply bystander_createRandomString|intro username].
  apply funds_bind; [apply bystander_createRandomString|intro password].
  cbv zeta.
  apply funds_bind; [unfold ImportGenesisFunds; quiet_walk|].
  intros [addr [er|]]; [apply funds_bystander, quiet_ret|].
  apply funds_bind; [apply quiet_call; reflexivity|].
  intros [addrs [er|]]; [apply funds_bystander, quiet_ret|].
  destruct (negb (len addrs =? 1)); [apply funds_bystander, quiet_ret|].
  apply funds_bind; [apply quiet_index|intro genesisAddress].
  apply funds_FundXChainAddresses.
  intros [er|]; [apply quiet_ret|].
  apply bystander_afterFunding.
Qed.

Lemma createRandomString_run (w : World) :
  exists s, createRandomString env w = (Ret s, advance env w CRandInt 0).
Proof. eexists. reflexivity. Qed.

Lemma CreateDefaultAddresses_run (runner : RPCWorkFlowRunner) (w : World) :
  exists r w' evs,
    CreateDefaultAddresses env runner w = (Ret r, w') /\
    trace w' = trace w ++ evs /\
    (snd r = None ->
     exists tX tP,
       evs = [(now w, CKeystoreCreateUser (client runner) (userPass runner));
              (tX, CXCreateAddress (client runner) (userPass runner));
              (tP, CPCreateAddress (client runner) (userPass runner))] /\
       xCreateAddress env
         {| now := tX;
            trace := trace w ++ [(now w, CKeystoreCreateUser (client runner)
                                           (userPass runner))] |}
         (client runner) (userPass runner)
       = (fst (fst r), None)).
Proof.
  unfold CreateDefaultAddresses, bind, call, ret.
  destruct (keystoreCreateUser env w (client runner) (userPass runner))
    as [b [er|]].
  { eexists _, _, [_]. split; [reflexivity|]. split; [reflexivity|].
    discriminate. }
  destruct (xCreateAddress env _ (client runner) (userPass runner))
    as [x [er|]] eqn:Hx.
  { eexists _, _, [_; _]. split; [reflexivity|].
    split; [cbn; rewrite <- app_assoc; reflexivity|]. discriminate. }
  destruct (pCreateAddress env _ (client runner) (userPass runner))
    as [p er].
  eexists _, _, [_; _; _]. split; [reflexivity|].
  split; [cbn; rewrite <- !app_assoc; reflexivity|].
  intros _. do 2 eexists. split; [reflexivity|]. exact Hx.
Qed.

(** The addresses that the set-up loop stores are those that the creations
    of an X chain address were answered, in their order. *)
Lemma setupLoop_created :
  forall clients i sc xa w,
    List.length xa = (i + List.length clients)%nat ->
    exists out w' evs,
      setupLoop env e i clients sc xa w = (out, w') /\
      trace w' = trace w ++ evs /\
      sendsOf evs = [] /\
      forall sc' xa',
        out = Ret (inr (sc', xa')) ->
        xa' = firstn i xa ++ map fst (xCreateReplies env (trace w) evs) /\
        Forall (fun r => snd r = None) (xCreateReplies env (trace w) evs) /\
        List.length (xCreateReplies env (trace w) evs) = List.length clients.
Proof.
  induction clients as [|cl rest IH]; intros i sc xa w Hxa;
    cbn [setupLoop List.length] in *.
  - exists (Ret (inr (sc, xa))), w, []. rewrite app_nil_r.
    split; [reflexivity|]. split; [reflexivity|]. split; [reflexivity|].
    intros sc' xa' H. inversion H; subst. cbn.
    rewrite app_nil_r, firstn_all2 by lia. repeat split. constructor.
  - destruct (createRandomString_run w) as (username & Hr1).
    unfold bind at 1. rewrite Hr1.
    set (w1 := advance env w CRandInt 0).
    destruct (createRandomString_run w1) as (password & Hr2).
    unfold bind at 1. rewrite Hr2.
    set (w2 := advance env w1 CRandInt 0).
    assert (Hw2 : trace w2 = trace w ++ [(now w, CRandInt); (now w1, CRandInt)])
      by (cbn; rewrite <- app_assoc; reflexivity).
    set (runner := NewRPCWorkFlowRunner cl _ _).
    unfold bind at 1, store at 1.
    destruct (i <? List.length sc)%nat.
    2:{ eexists _, w2, _. split; [reflexivity|]. split; [exact Hw2|].
        split; [reflexivity|]. discriminate. }
    cbn [ret].
    destruct (CreateDefaultAddresses_run runner w2)
      as ([[x p] err] & w3 & evs3 & Hrun3 & Htr3 & Hok3).
    unfold bind at 1. rewrite Hrun3.
    destruct err as [er|].
    { exists (Ret (inl (Propagate (Some er)
                "Failed to create default addresses for client: %d"
                [ArgInt (Z.of_nat i)]))), w3,
        ([(now w, CRandInt); (now w1, CRandInt)] ++ evs3).
      split; [reflexivity|].
      split; [rewrite Htr3, Hw2, <- app_assoc; reflexivity|].
      split.
      - rewrite sendsOf_app. cbn [app].
        destruct (setupPhase_CreateDefaultAddresses env runner w2)
          as (o & w3' & evs3' & Hrun3' & Htr3' & Hcl).
        rewrite Hrun3 in Hrun3'. inversion Hrun3'; subst o w3'.
        rewrite Htr3 in Htr3'. apply app_inv_head in Htr3'. subst evs3'.
        apply (sendsOf_none setupPhase); [|exact Hcl].
        intros c H. destruct c; try discriminate H; reflexivity.
      - discriminate. }
    destruct (Hok3 eq_refl) as (tX & tP & Hevs3 & Hx). cbn [fst] in Hx.
    unfold bind at 1, store at 1.
    destruct (Nat.ltb_spec i (List.length xa)) as [Hlt|Hge]; [|lia].
    cbn [ret].
    match goal with
    | |- context [setupLoop env e (Datatypes.S i) rest ?sc1 ?xa1 w3] =>
      destruct (IH (Datatypes.S i) sc1 xa1 w3)
        as (out & w' & evsR & Hrun & Htr & HsR & Hinr);
        [rewrite length_stored; lia|]
    end.
    set (five := [(now w, CRandInt); (now w1, CRandInt)] ++ evs3).
    assert (Hw3 : trace w3 = trace w ++ five)
      by (unfold five; rewrite Htr3, Hw2, <- app_assoc; reflexivity).
    assert (Hrep : xCreateReplies env (trace w) five = [(x, None)]).
    { unfold five. rewrite xCreateReplies_app. cbn [xCreateReplies app].
      rewrite Hevs3. cbn [xCreateReplies app].
      rewrite <- Hw2, Hx. reflexivity. }
    exists out, w', (five ++ evsR).
    split; [exact Hrun|].
    split; [rewrite Htr, Hw3, <- app_assoc; reflexivity|].
    split.
    { rewrite sendsOf_app, HsR, app_nil_r. unfold five. rewrite Hevs3.
      reflexivity. }
    intros sc' xa' Hout. destruct (Hinr sc' xa' Hout) as (Hxa' & Hall & Hlen).
    rewrite xCreateReplies_app, Hrep, <- Hw3.
    split; [|split].
    + rewrite Hxa', firstn_stored by lia. rewrite <- app_assoc. reflexivity.
    + constructor; [reflexivity|exact Hall].
    + cbn [app List.length]. now rewrite Hlen.
Qed.

Lemma ExecuteTest_created (w : World) :
  exists out w' evs k,
    ExecuteTest env e w = (out, w') /\
    trace w' = trace w ++ evs /\
    sendsOf evs
    = map toAddress (firstn k (map fst (xCreateReplies env (trace w) evs))) /\
    (k <> 0%nat ->
     Forall (fun r => snd r = None) (xCreateReplies env (trace w) evs) /\
     List.length (xCreateReplies env (trace w) evs)
     = List.length (tl (normalClients e))).
Proof.
  unfold ExecuteTest.
  destruct (normalClients e) as [|genesis others] eqn:Hclients.
  { exists (Panic (IndexOutOfRange 0 0)), w, [], 0%nat.
    rewrite app_nil_r. split; [reflexivity|]. split; [reflexivity|].
    split; [reflexivity|]. intros H. now elim H. }
  unfold bind at 1. cbn [index nth_error ret].
  replace (len (genesis :: others) - 1) with (Z.of_nat (List.length others))
    by (unfold len; cbn [List.length]; lia).
  unfold bind at 1, make at 1.
  destruct (Z.ltb_spec (Z.of_nat (List.length others)) 0) as [Hneg|_]; [lia|].
  cbn [ret].
  unfold bind at 1, make at 1.
  destruct (Z.ltb_spec (Z.of_nat (List.length others)) 0) as [Hneg|_]; [lia|].
  cbn [ret]. rewrite Nat2Z.id.
  unfold bind at 1. cbn [sliceFrom List.length Nat.leb skipn ret].
  destruct (setupLoop_created others 0%nat (repeat None (List.length others))
              (repeat ""%string (List.length others)) w)
    as (out1 & w1 & evs1 & Hrun1 & Htr1 & Hs1 & Hinr);
    [now rewrite repeat_length|].
  unfold bind at 1. rewrite Hrun1.
  destruct out1 as [[res|[sc xa]]|p|].
  - exists (Ret res), w1, evs1, 0%nat.
    split; [reflexivity|]. split; [exact Htr1|]. split; [exact Hs1|].
    intros H. now elim H.
  - destruct (Hinr sc xa eq_refl) as (Hxa & Hall & Hlen). cbn [firstn app] in Hxa.
    destruct (funds_afterSetup genesis sc xa w1)
      as (out2 & w2 & evs2 & Hrun2 & Htr2 & Hnc & k & Hs2).
    rewrite Hclients in Hrun2.
    exists out2, w2, (evs1 ++ evs2), k.
    split; [exact Hrun2|].
    split; [rewrite Htr2, Htr1, <- app_assoc; reflexivity|].
    rewrite xCreateReplies_app, (xCreateReplies_none env evs2 Hnc), app_nil_r.
    split; [|intros _; cbn [tl]; auto].
    rewrite sendsOf_app, Hs1, Hs2, Hxa. reflexivity.
  - exists (Panic p), w1, evs1, 0%nat.
    split; [reflexivity|]. split; [exact Htr1|]. split; [exact Hs1|].
    intros H. now elim H.
  - exists OutOfFuel, w1, evs1, 0%nat.
    split; [reflexivity|]. split; [exact Htr1|]. split; [exact Hs1|].
    intros H. now elim H.
Qed.

End Created.

(** X12.  The addresses that [ExecuteTest] funds are the addresses it had
    created: the transfers of a run are of the seed amount of AVAX and go,
    in order, to the addresses that the creations of an X chain address in
    this run were answered.  No transfer is made before every client after
    the first has been answered its address, without error. *)
Theorem X12_created_addresses_funded (env : Env) (e : bombardExecutor)
    (w : World) :
  exists out w' evs k,
    ExecuteTest env e w = (out, w') /\
    trace w' = trace w ++ evs /\
    sendsOf evs
    = map (fun a => (seedAmount e, AvaxAssetID, a))
          (firstn k (map fst (xCreateReplies env (trace w) evs))) /\
    (k <> 0%nat ->
     Forall (fun r => snd r = None) (xCreateReplies env (trace w) evs) /\
     List.length (xCreateReplies env (trace w) evs)
     = List.length (tl (normalClients e))).
Proof. exact (ExecuteTest_created env e w). Qed.

(** ** What is built is what is issued *)

Lemma builtOf_app (env : Env) (a b : History) :
  builtOf env (a ++ b) = builtOf env a ++ builtOf env b.
Proof. unfold builtOf. apply flat_map_app. Qed.

Lemma issuedOf_app (a b : History) : issuedOf (a ++ b) = issuedOf a ++ issuedOf b.
Proof. unfold issuedOf. apply flat_map_app. Qed.

Lemma noChain_built (env : Env) (evs : History) :
  Forall (fun ev => noChain (snd ev) = true) evs -> builtOf env evs = [].
Proof.
  induction 1 as [|[t c] evs H _ IH]; [reflexivity|].
  change ((t, c) :: evs) with ([(t, c)] ++ evs). rewrite builtOf_app, IH.
  destruct c; try discriminate H; reflexivity.
Qed.

Lemma noChain_issued (evs : History) :
  Forall (fun ev => noChain (snd ev) = true) evs -> issuedOf evs = [].
Proof.
  induction 1 as [|[t c] evs H _ IH]; [reflexivity|].
  change ((t, c) :: evs) with ([(t, c)] ++ evs). rewrite issuedOf_app, IH.
  destruct c; try discriminate H; reflexivity.
Qed.

Lemma issuePhase_built (env : Env) (evs : History) :
  Forall (fun ev => issuePhase (snd ev) = true) evs -> builtOf env evs = [].
Proof.
  induction 1 as [|[t c] evs H _ IH]; [reflexivity|].
  change ((t, c) :: evs) with ([(t, c)] ++ evs). rewrite builtOf_app, IH.
  destruct c; try discriminate H; reflexivity.
Qed.

Lemma buildPhase_issued (e : bombardExecutor) (evs : History) :
  Forall (fun ev => buildPhase e (snd ev) = true) evs -> issuedOf evs = [].
Proof.
  induction 1 as [|[t c] evs H _ IH]; [reflexivity|].
  change ((t, c) :: evs) with ([(t, c)] ++ evs). rewrite issuedOf_app, IH.
  destruct c; try discriminate H; reflexivity.
Qed.

Lemma issuePhase_calls (cl : Client) :
  forall (evs : History) l,
    map snd evs = map (CXIssueTx cl) l ->
    Forall (fun ev => issuePhase (snd ev) = true) evs.
Proof.
  induction evs as [|[t c] evs IH]; intros [|tx l] H; cbn in H;
    try discriminate H; constructor.
  - inversion H; subst c. reflexivity.
  - inversion H. eapply IH. eassumption.
Qed.

Lemma issuedOf_calls (cl : Client) :
  forall (evs : History) l,
    map snd evs = map (CXIssueTx cl) l -> issuedOf evs = l.
Proof.
  induction evs as [|[t c] evs IH]; intros [|tx l] H; cbn in H;
    try discriminate H; [reflexivity|].
  inversion H; subst c. cbn. f_equal. now apply IH.
Qed.

Lemma index_Ret_inv {A} (l : list A) (i : nat) (w w' : World) (a : A) :
  index l i w = (Ret a, w') -> nth_error l i = Some a /\ w' = w.
Proof.
  unfold index. destruct (nth_error l i) as [x|]; intros H; inversion H; auto.
Qed.

Lemma store_Ret_world {A} (l : list A) (i : nat) (v : A) (w w' : World)
    (l' : list A) :
  store l i v w = (Ret l', w') -> w' = w /\ (i < List.length l)%nat.
Proof.
  unfold store. destruct (Nat.ltb_spec i (List.length l)) as [Hlt|Hge];
    intros H; inversion H; auto.
Qed.

Lemma quiet_run {A} (Q : Call -> bool) (m : M A) (w w' : World)
    (out : outcome A) :
  quiet Q m -> m w = (out, w') ->
  exists evs, trace w' = trace w ++ evs /\ Forall (fun ev => Q (snd ev) = true) evs.
Proof.
  intros Hm Hrun. destruct (Hm w) as (out' & w1 & evs & Hrun' & Htr & HQ).
  rewrite Hrun in Hrun'. inversion Hrun'; subst. now exists evs.
Qed.

Section Chains.

Variable env : Env.
Variable e : bombardExecutor.

Lemma setupLoop_inl :
  forall clients i sc xa w res w',
    setupLoop env e i clients sc xa w = (Ret (inl res), w') -> res <> None.
Proof.
  induction clients as [|cl rest IH]; intros i sc xa w res w' H;
    cbn [setupLoop] in H.
  - inversion H.
  - apply bind_Ret_inv in H. destruct H as (username & w1 & _ & H).
    apply bind_Ret_inv in H. destruct H as (password & w2 & _ & H).
    apply bind_Ret_inv in H. destruct H as (sc1 & w3 & _ & H).
    apply bind_Ret_inv in H. destruct H as ([[xAddr pAddr] err] & w4 & _ & H).
    destruct err as [er|]; [inversion H; discriminate|].
    apply bind_Ret_inv in H. destruct H as (xa1 & w5 & _ & H).
    eapply IH. exact H.
Qed.

Lemma decodeLoop_inl :
  forall utxosBytes i utxos w res w',
    decodeLoop env i utxosBytes utxos w = (Ret (inl res), w') -> res <> None.
Proof.
  induction utxosBytes as [|b rest IH]; intros i utxos w res w' H;
    cbn [decodeLoop] in H.
  - inversion H.
  - destruct (codecUnmarshal env b) as [utxo [er|]];
      [inversion H; discriminate|].
    apply bind_Ret_inv in H. destruct H as (utxos1 & w1 & _ & H).
    eapply IH. exact H.
Qed.

Lemma verifyLoop_inl (genesisClient : Client) (xa : list string) :
  forall clients i ul w res w',
    verifyLoop env e genesisClient xa i clients ul w = (Ret (inl res), w') ->
    res <> None.
Proof.
  induction clients as [|cl rest IH]; intros i ul w res w' H;
    cbn [verifyLoop] in H.
  - inversion H.
  - apply bind_Ret_inv in H. destruct H as (addr & w1 & _ & H).
    apply bind_Ret_inv in H. destruct H as (runner & w2 & _ & H).
    apply bind_Ret_inv in H. destruct H as (err & w3 & _ & H).
    destruct err as [er|]; [inversion H; discriminate|].
    apply bind_Ret_inv in H. destruct H as (addr' & w4 & _ & H).
    apply bind_Ret_inv in H. destruct H as ([utxosBytes err] & w5 & _ & H).
    destruct err as [er|]; [inversion H; discriminate|].
    apply bind_Ret_inv in H. destruct H as (utxos & w6 & _ & H).
    apply bind_Ret_inv in H. destruct H as (r & w7 & Hdec & H).
    destruct r as [res0|utxos'].
    { inversion H; subst. eapply decodeLoop_inl. exact Hdec. }
    apply bind_Ret_inv in H. destruct H as (ul1 & w8 & _ & H).
    eapply IH. exact H.
Qed.

(** A pass of the building loop that goes on to the next client. *)
Lemma buildLoop_step (sc : list (option RPCWorkFlowRunner)) (xa : list string)
    (ul : list (list (option UTXO))) (cl : Client) (rest : list Client)
    (i : nat) (pk : list (option PrivateKey)) (tl : list (list (list byte)))
    (til : list (list ID)) (w w' : World)
    (r : option error + list (list (list byte)) * list (list ID)) :
  buildLoop env e sc xa ul i (cl :: rest) pk tl til w = (Ret r, w') ->
  (exists res, r = inl res /\ res <> None) \/
  exists evs pk1 txs txIDs w1,
    (i < List.length tl)%nat /\
    trace w1 = trace w ++ evs /\
    issuedOf evs = [] /\ builtOf env evs = [txs] /\
    buildLoop env e sc xa ul (Datatypes.S i) rest pk1
      (firstn i tl ++ txs :: skipn (Datatypes.S i) tl)
      (firstn i til ++ txIDs :: skipn (Datatypes.S i) til) w1
    = (Ret r, w').
Proof.
  intros H. cbn [buildLoop] in H.
  apply bind_Ret_inv in H. destruct H as (utxos & w1 & H1 & H).
  apply index_Ret_inv in H1. destruct H1 as [_ ->].
  apply bind_Ret_inv in H. destruct H as (utxo & w1 & H1 & H).
  apply index_Ret_inv in H1. destruct H1 as [_ ->].
  apply bind_Ret_inv in H. destruct H as (secondary & w1 & H1 & H).
  apply index_Ret_inv in H1. destruct H1 as [_ ->].
  apply bind_Ret_inv in H. destruct H as (runner & w1 & H1 & H).
  assert (w1 = w) by (destruct secondary; inversion H1; reflexivity). subst w1.
  clear H1.
  apply bind_Ret_inv in H. destruct H as (addr & w1 & H1 & H).
  apply index_Ret_inv in H1. destruct H1 as [_ ->].
  apply bind_Ret_inv in H. destruct H as ([pkStr err] & w1 & H1 & H).
  unfold call in H1. inversion H1; subst w1. clear H1.
  destruct err as [er|]; [left; inversion H; eexists; split; [reflexivity|discriminate]|].
  destruct (negb (prefix SecretKeyPrefix pkStr));
    [left; inversion H; eexists; split; [reflexivity|discriminate]|].
  destruct (formattingDecode env (TrimPrefix pkStr SecretKeyPrefix))
    as [pkBytes [er|]];
    [left; inversion H; eexists; split; [reflexivity|discriminate]|].
  destruct (toPrivateKey env pkBytes) as [[sk|] er'].
  2:{ apply bind_Ret_inv in H. destruct H as (sk & w1 & H1 & _). inversion H1. }
  apply bind_Ret_inv in H. destruct H as (sk' & w1 & H1 & H).
  inversion H1; subst sk' w1. clear H1.
  apply bind_Ret_inv in H. destruct H as (pk1 & w1 & H1 & H).
  apply store_Ret_world in H1. destruct H1 as [-> _].
  apply bind_Ret_inv in H. destruct H as ([[txs txIDs] err] & w1 & H1 & H).
  unfold call in H1. inversion H1 as [[Hrep Hw1]]. clear H1.
  destruct err as [er|];
    [left; inversion H; eexists; split; [reflexivity|discriminate]|].
  apply bind_Ret_inv in H. destruct H as (tl1 & w2 & H1 & H).
  pose proof (store_Ret_eq _ _ _ _ _ _ H1) as ->.
  apply store_Ret_world in H1. destruct H1 as [-> Hlt].
  apply bind_Ret_inv in H. destruct H as (til1 & w2 & H1 & H).
  pose proof (store_Ret_eq _ _ _ _ _ _ H1) as ->.
  apply store_Ret_world in H1. destruct H1 as [-> _].
  right. eexists [_; _], pk1, txs, txIDs, w1.
  split; [exact Hlt|].
  split; [subst w1; cbn; rewrite <- app_assoc; reflexivity|].
  split; [reflexivity|].
  split; [cbn; rewrite Hrep; reflexivity|].
  exact H.
Qed.

Lemma buildLoop_built (sc : list (option RPCWorkFlowRunner)) (xa : list string)
    (ul : list (list (option UTXO))) :
  forall clients i pk tl til w r w',
    buildLoop env e sc xa ul i clients pk tl til w = (Ret r, w') ->
    List.length tl = (i + List.length clients)%nat ->
    exists evs,
      trace w' = trace w ++ evs /\ issuedOf evs = [] /\
      match r with
      | inl res => res <> None
      | inr (tl', _) =>
        tl' = firstn i tl ++ builtOf env evs /\
        List.length (builtOf env evs) = List.length clients
      end.
Proof.
  induction clients as [|cl rest IH]; intros i pk tl til w r w' H Hlen.
  - cbn in H. inversion H; subst. exists []. rewrite app_nil_r.
    split; [reflexivity|]. split; [reflexivity|].
    cbn in *. rewrite app_nil_r, firstn_all2 by lia. auto.
  - cbn [List.length] in Hlen. pose proof H as Hrun.
    apply buildLoop_step in H.
    destruct H as [(res & -> & Hres)
                  |(evs1 & pk1 & txs & txIDs & w1 & Hlt & Htr1 & Hi1 & Hb1 & H)].
    + destruct (quiet_run _ _ _ _ _
                  (buildPhase_buildLoop env e sc xa ul (cl :: rest) i pk tl til)
                  Hrun) as (evs & Htr & Hcl).
      exists evs. split; [exact Htr|].
      split; [exact (buildPhase_issued e _ Hcl)|exact Hres].
    + apply IH in H; [|rewrite length_stored; lia].
      destruct H as (evs2 & Htr2 & Hi2 & Hr).
      exists (evs1 ++ evs2).
      split; [rewrite Htr2, Htr1, <- app_assoc; reflexivity|].
      split; [rewrite issuedOf_app, Hi1, Hi2; reflexivity|].
      destruct r as [res|[tl' til']]; [exact Hr|].
      destruct Hr as [Htl' Hn]. rewrite builtOf_app, Hb1.
      split.
      * rewrite Htl', firstn_stored by lia. rewrite <- app_assoc. reflexivity.
      * cbn [app List.length]. now rewrite Hn.
Qed.


Lemma issueLoop_issued (tl : list (list (list byte))) :
  forall clients i wg w,
  exists out w' evs k,
    issueLoop env wg i clients tl w = (out, w') /\
    trace w' = trace w ++ evs /\
    Forall (fun ev => issuePhase (snd ev) = true) evs /\
    issuedOf evs = firstn k (List.concat (skipn i tl)) /\
    (forall wg', out = Ret wg' ->
       issuedOf evs = List.concat (firstn (List.length clients) (skipn i tl))).
Proof.
  induction clients as [|cl rest IH]; intros i wg w; cbn [issueLoop].
  - exists (Ret wg), w, [], 0%nat. rewrite app_nil_r.
    split; [reflexivity|]. split; [reflexivity|]. split; [constructor|].
    split; [reflexivity|]. intros wg' _. reflexivity.
  - assert (Hstop : forall p,
              exists out w' evs k,
                (@Panic Z p, w) = (out, w') /\
                trace w' = trace w ++ evs /\
                Forall (fun ev => issuePhase (snd ev) = true) evs /\
                issuedOf evs = firstn k (List.concat (skipn i tl)) /\
                (forall wg', out = Ret wg' ->
                   issuedOf evs
                   = List.concat (firstn (List.length (cl :: rest)) (skipn i tl)))).
    { intros p. exists (Panic p), w, [], 0%nat. rewrite app_nil_r.
      split; [reflexivity|]. split; [reflexivity|]. split; [constructor|].
      split; [reflexivity|]. discriminate. }
    unfold bind at 1.
    destruct (wg + 1 <? 0); [apply Hstop|]. cbn [ret].
    unfold bind at 1, index at 1.
    destruct (nth_error tl i) as [txList|] eqn:Hnth; [|apply Hstop].
    cbn [ret].
    pose proof (nth_error_skipn _ _ _ Hnth) as Hskip.
    unfold bind at 1, issueTxsAsync at 1, bind at 1.
    destruct cl as [runner|]; [|apply Hstop]. cbn [deref ret].
    destruct (IssueTxList_trace env runner txList w)
      as (res & w1 & evs1 & Hrun1 & Htr1 & Hit).
    destruct (IssueTrace_calls _ _ _ _ _ _ Hit) as (k1 & Hk1 & Hcalls & Hall).
    pose proof (issuedOf_calls _ _ _ Hcalls) as Hi1.
    pose proof (issuePhase_calls _ _ _ Hcalls) as Hp1.
    unfold bind at 1. rewrite Hrun1.
    assert (Hpre : firstn k1 txList = firstn k1 (List.concat (skipn i tl))).
    { rewrite Hskip. cbn [List.concat]. rewrite firstn_app.
      replace (k1 - List.length txList)%nat with 0%nat by lia.
      cbn [firstn]. now rewrite app_nil_r. }
    assert (Hstop1 : forall p,
              exists out w' evs k,
                (@Panic Z p, w1) = (out, w') /\
                trace w' = trace w ++ evs /\
                Forall (fun ev => issuePhase (snd ev) = true) evs /\
                issuedOf evs = firstn k (List.concat (skipn i tl)) /\
                (forall wg', out = Ret wg' ->
                   issuedOf evs
                   = List.concat (firstn (List.length (Some runner :: rest))
                               (skipn i tl)))).
    { intros p. exists (Panic p), w1, evs1, k1.
      split; [reflexivity|]. split; [exact Htr1|]. split; [exact Hp1|].
      split; [now rewrite Hi1|]. discriminate. }
    destruct res as [er|]; [apply Hstop1|].
    destruct (wg + 1 - 1 <? 0); [apply Hstop1|]. cbn [ret].
    destruct (IH (Datatypes.S i) (wg + 1 - 1) w1)
      as (out & w' & evs2 & k2 & Hrun & Htr & Hp2 & Hi2 & Hret).
    exists out, w', (evs1 ++ evs2), (List.length txList + k2)%nat.
    split; [exact Hrun|].
    split; [rewrite Htr, Htr1, <- app_assoc; reflexivity|].
    split; [apply Forall_app; auto|].
    rewrite issuedOf_app, Hi1, (Hall eq_refl), firstn_all.
    split.
    + rewrite Hi2, Hskip. cbn [List.concat]. now rewrite firstn_app_2.
    + intros wg' Hout. rewrite (Hret wg' Hout), Hskip.
      cbn [List.length firstn List.concat]. reflexivity.
Qed.

(** The issued transactions are the first of the built ones; when [m]
    returns nil they are all of them, of [n] chains. *)
Let flows {A} (n : nat) (isNil : A -> Prop) (m : M A) : Prop :=
  forall w,
    wp m w (fun out _ evs =>
              (exists k, issuedOf evs = firstn k (List.concat (builtOf env evs))) /\
              (forall a, out = Ret a -> isNil a ->
                 issuedOf evs = List.concat (builtOf env evs) /\
                 List.length (builtOf env evs) = n)).

Let nil (res : option error) : Prop := res = None.

Lemma flows_exit (n : nat) (res : option error) :
  res <> None -> flows n nil (ret res).
Proof.
  intros H w. apply wp_ret. split; [exists 0%nat; reflexivity|].
  intros a Ha Hnil. inversion Ha; subst a. now elim H.
Qed.

Lemma flows_bind {A} (n : nat) (R : A -> Prop) (m : M A)
    (k : A -> M (option error)) :
  quiet noChain m ->
  (forall a w w', m w = (Ret a, w') -> R a) ->
  (forall a, R a -> flows n nil (k a)) ->
  flows n nil (bind m k).
Proof.
  intros Hm HR Hk w. apply wp_bind.
  destruct (Hm w) as (out & w1 & evs1 & Hrun & Htr & HQ).
  exists out, w1, evs1. split; [exact Hrun|]. split; [exact Htr|].
  pose proof (noChain_built env _ HQ) as Hb.
  pose proof (noChain_issued _ HQ) as Hi.
  destruct out as [a|p|].
  - eapply wp_conseq; [apply (Hk a (HR a w w1 Hrun))|].
    intros out2 w2 evs2 H2.
    now rewrite builtOf_app, issuedOf_app, Hb, Hi.
  - split; [exists 0%nat; now rewrite Hi|]. discriminate.
  - split; [exists 0%nat; now rewrite Hi|]. discriminate.
Qed.

Lemma weaken_noChain (Q : Call -> bool) {A} (m : M A) :
  (forall c, Q c = true -> noChain c = true) -> quiet Q m -> quiet noChain m.
Proof. apply quiet_weaken. Qed.

(** The building, issuing and confirming of [ExecuteTest]. *)
Lemma flows_chains (highLevelGenesisClient : RPCWorkFlowRunner)
    (sc : list (option RPCWorkFlowRunner)) (xa : list string)
    (ul : list (list (option UTXO))) (pk : list (option PrivateKey))
    (tl0 : list (list (list byte))) (til0 : list (list ID))
    (others : list Client) :
  List.length tl0 = List.length others ->
  List.length sc = List.length others ->
  flows (List.length others) nil
    (r <- buildLoop env e sc xa ul 0 others pk tl0 til0 ;;
     match r with
     | inl res => ret res
     | inr (txLists, txIDLists) =>
       wg <- issueLoop env 0 0 sc txLists ;;
       wgWait wg ;;
       confirmLoop env highLevelGenesisClient txIDLists ;;
       ret None
     end).
Proof.
  intros Htl0 Hsc w. unfold wp, bind at 1.
  destruct (buildLoop env e sc xa ul 0 others pk tl0 til0 w) as [out1 w1]
    eqn:Hrun1.
  destruct (quiet_run _ _ _ _ _
              (buildPhase_buildLoop env e sc xa ul others 0%nat pk tl0 til0)
              Hrun1) as (evs0 & Htr0 & Hcl0).
  assert (Hstop : forall out : outcome (option error),
            (forall a, out = Ret a -> a <> None) ->
            exists out' w' evs,
              (out, w1) = (out', w') /\ trace w' = trace w ++ evs /\
              (exists k, issuedOf evs = firstn k (List.concat (builtOf env evs))) /\
              (forall a, out' = Ret a -> nil a ->
                 issuedOf evs = List.concat (builtOf env evs) /\
                 List.length (builtOf env evs) = List.length others)).
  { intros out Hout. exists out, w1, evs0.
    split; [reflexivity|]. split; [exact Htr0|].
    split; [exists 0%nat; now rewrite (buildPhase_issued e _ Hcl0)|].
    intros a Ha Hnil. now elim (Hout a Ha). }
  destruct out1 as [[res|[tl til]]|p|];
    [| |apply Hstop; discriminate|apply Hstop; discriminate].
  { destruct (buildLoop_built _ _ _ _ _ _ _ _ _ _ _ Hrun1)
      as (evs1 & _ & _ & Hres); [now rewrite Htl0|].
    apply Hstop. intros a Ha. inversion Ha; subst a. exact Hres. }
  destruct (buildLoop_built _ _ _ _ _ _ _ _ _ _ _ Hrun1)
    as (evs1 & Htr1 & Hi1 & Htl & Hn); [now rewrite Htl0|].
  cbn [firstn app] in Htl. subst tl.
  destruct (issueLoop_issued (builtOf env evs1) sc 0%nat 0 w1)
    as (out2 & w2 & evs2 & k2 & Hrun2 & Htr2 & Hp2 & Hi2 & Hret2).
  cbn [skipn] in Hi2, Hret2.
  pose proof (issuePhase_built env _ Hp2) as Hb2.
  unfold bind at 1. rewrite Hrun2.
  assert (Hstop2 : forall out : outcome (option error),
            (forall a, out <> Ret a) ->
            exists out' w' evs,
              (out, w2) = (out', w') /\ trace w' = trace w ++ evs /\
              (exists k, issuedOf evs = firstn k (List.concat (builtOf env evs))) /\
              (forall a, out' = Ret a -> nil a ->
                 issuedOf evs = List.concat (builtOf env evs) /\
                 List.length (builtOf env evs) = List.length others)).
  { intros out Hout. exists out, w2, (evs1 ++ evs2).
    split; [reflexivity|].
    split; [rewrite Htr2, Htr1, <- app_assoc; reflexivity|].
    rewrite builtOf_app, issuedOf_app, Hb2, Hi1, app_nil_r. cbn [app].
    split; [exists k2; exact Hi2|].
    intros a Ha. now elim (Hout a). }
  destruct out2 as [wg|p|];
    [|apply Hstop2; discriminate|apply Hstop2; discriminate].
  unfold bind at 1, wgWait.
  destruct (wg =? 0); [|apply Hstop2; discriminate]. cbn [ret].
  destruct (confirmPhase_confirmLoop env highLevelGenesisClient til w2)
    as (out3 & w3 & evs3 & Hrun3 & Htr3 & Hcl3).
  assert (Hno3 : Forall (fun ev => noChain (snd ev) = true) evs3).
  { eapply Forall_class; [|exact Hcl3].
    intros c H. destruct c; try discriminate H; reflexivity. }
  unfold bind. rewrite Hrun3.
  exists (match out3 with
          | Ret _ => Ret None
          | Panic p => Panic p
          | OutOfFuel => OutOfFuel
          end), w3, (evs1 ++ evs2 ++ evs3).
  split; [destruct out3; reflexivity|].
  split; [rewrite Htr3, Htr2, Htr1, <- !app_assoc; reflexivity|].
  rewrite !builtOf_app, !issuedOf_app, Hb2, Hi1,
    (noChain_built env _ Hno3), (noChain_issued _ Hno3), !app_nil_r.
  cbn [app].
  split; [exists k2; exact Hi2|].
  intros a _ _. rewrite (Hret2 wg eq_refl), Hn, Hsc, <- Hn, firstn_all.
  split; reflexivity.
Qed.

Lemma ExecuteTest_flows :
  flows (List.length (tl (normalClients e))) nil (ExecuteTest env e).
Proof.
  unfold ExecuteTest.
  destruct (normalClients e) as [|genesis others] eqn:Hclients.
  { intros w. exists (Panic (IndexOutOfRange 0 0)), w, [].
    rewrite app_nil_r. split; [reflexivity|]. split; [reflexivity|].
    split; [exists 0%nat; reflexivity|]. discriminate. }
  cbn [tl].
  apply (flows_bind _ (fun _ => True)); [apply quiet_index|auto|].
  intros genesisClient _.
  replace (len (genesis :: others) - 1) with (Z.of_nat (List.length others))
    by (unfold len; cbn [List.length]; lia).
  apply (flows_bind _ (fun l : list (option RPCWorkFlowRunner) =>
                         List.length l = List.length others));
    [apply quiet_make| |].
  { intros l w w' H. apply make_Ret_inv in H. now rewrite Nat2Z.id in H. }
  intros sc0 Hsc0.
  apply (flows_bind _ (fun _ => True)); [apply quiet_make|auto|].
  intros xa0 _.
  apply (flows_bind _ (fun l => l = others)); [apply quiet_sliceFrom| |].
  { intros l w w' H. cbn in H. now inversion H. }
  intros others' ->.
  apply (flows_bind _
           (fun r => match r with
                     | inl res => res <> None
                     | inr (sc, _) => List.length sc = List.length others
                     end)).
  { eapply weaken_noChain; [|apply setupPhase_setupLoop].
    intros c H. destruct c; try discriminate H; reflexivity. }
  { intros [res|[sc xa]] w w' H.
    - eapply setupLoop_inl. exact H.
    - apply setupLoop_lengths in H. destruct H. congruence. }
  intros [res|[sc xa]] Hr; [now apply flows_exit|].
  apply (flows_bind _ (fun _ => True));
    [now apply quiet_createRandomString|auto|].
  intros username _.
  apply (flows_bind _ (fun _ => True));
    [now apply quiet_createRandomString|auto|].
  intros password _.
  apply (flows_bind _ (fun _ => True));
    [unfold ImportGenesisFunds; quiet_walk|auto|].
  intros [addr [er|]] _; [apply flows_exit; discriminate|].
  apply (flows_bind _ (fun _ => True)); [apply quiet_call; reflexivity|auto|].
  intros [addrs [er|]] _; [apply flows_exit; discriminate|].
  destruct (negb (len addrs =? 1)); [apply flows_exit; discriminate|].
  apply (flows_bind _ (fun _ => True)); [apply quiet_index|auto|].
  intros genesisAddress _.
  apply (flows_bind _ (fun _ => True)).
  { eapply weaken_noChain; [|apply fundCall_FundXChainAddresses].
    intros c H. destruct c; try discriminate H; reflexivity. }
  { auto. }
  intros [er|] _; [apply flows_exit; discriminate|].
  destruct (createXChainCodec env) as [er|]; [apply flows_exit; discriminate|].
  apply (flows_bind _ (fun _ => True)); [apply quiet_make|auto|].
  intros ul0 _.
  apply (flows_bind _ (fun r => forall res, r = inl res -> res <> None)).
  { eapply weaken_noChain; [|apply verifyCall_verifyLoop].
    intros c H. destruct c; try discriminate H; reflexivity. }
  { intros r w w' H res ->. eapply verifyLoop_inl. exact H. }
  intros [res|ul] Hv; [apply flows_exit; now apply Hv|].
  apply (flows_bind _ (fun _ => True)); [apply quiet_make|auto|].
  intros pk _.
  apply (flows_bind _ (fun l : list (list (list byte)) =>
                         List.length l = List.length others));
    [apply quiet_make| |].
  { intros l w w' H. apply make_Ret_inv in H. unfold len in H.
    now rewrite Nat2Z.id, Hr in H. }
  intros tl0 Htl0.
  apply (flows_bind _ (fun _ => True)); [apply quiet_make|auto|].
  intros til0 _.
  apply (flows_bind _ (fun l => l = others)); [apply quiet_sliceFrom| |].
  { intros l w w' H. cbn in H. now inversion H. }
  intros others' ->.
  now apply flows_chains.
Qed.

End Chains.

(** X13.  The transactions that [ExecuteTest] issues are those that were
    built: in every run the transactions submitted by [IssueTx] are, in
    order, the first transactions of the chains that the builder returned
    in this run, chain after chain.  When [ExecuteTest] returns nil, one
    chain was built for every client after the first and every transaction
    of every chain was submitted, once. *)
Theorem X13_built_chains_issued (env : Env) (e : bombardExecutor) (w : World) :
  exists out w' evs,
    ExecuteTest env e w = (out, w') /\
    trace w' = trace w ++ evs /\
    (exists k, issuedOf evs = firstn k (List.concat (builtOf env evs))) /\
    (out = Ret None ->
     issuedOf evs = List.concat (builtOf env evs) /\
     List.length (builtOf env evs) = List.length (tl (normalClients e))).
Proof.
  destruct (ExecuteTest_flows env e w) as (out & w' & evs & Hrun & Htr & Hk & Hnil).
  exists out, w', evs. split; [exact Hrun|]. split; [exact Htr|].
  split; [exact Hk|]. intros ->. now apply (Hnil None).
Qed.

(** ** What is fetched is what is stored *)

Lemma utxoReplies_app (env : Env) (a b : History) :
  forall h,
    utxoReplies env h (a ++ b)
    = utxoReplies env h a ++ utxoReplies env (h ++ a) b.
Proof.
  induction a as [|[t c] a IH]; intros h; cbn [app utxoReplies].
  - now rewrite app_nil_r.
  - rewrite IH, <- !app_assoc. reflexivity.
Qed.

Lemma utxoFetches_app (a b : History) :
  utxoFetches (a ++ b) = utxoFetches a ++ utxoFetches b.
Proof. unfold utxoFetches. apply flat_map_app. Qed.

Lemma skipn_stored {A} (l : list A) (i j : nat) (v : A) :
  (i < j)%nat -> (i < List.length l)%nat ->
  skipn j (firstn i l ++ v :: skipn (Datatypes.S i) l) = skipn j l.
Proof.
  intros Hij Hi.
  assert (Hf : List.length (firstn i l) = i) by (rewrite length_firstn; lia).
  rewrite skipn_app, Hf, skipn_all2 by lia. cbn [app].
  replace (j - i)%nat with (Datatypes.S (j - Datatypes.S i)) by lia.
  rewrite skipn_cons, skipn_skipn. f_equal. lia.
Qed.

Section Fetched.

Variable env : Env.
Variable e : bombardExecutor.
Variable genesisClient : Client.
Variable xa : list string.

Let fetch (a : string) : Client * list string * Z * string * string :=
  (genesisClient, [a], 10, ""%string, ""%string).

Lemma verifyLoop_fetched :
  forall clients i ul w ul' w',
    verifyLoop env e genesisClient xa i clients ul w = (Ret (inr ul'), w') ->
    exists evs,
      trace w' = trace w ++ evs /\
      utxoFetches evs = map fetch (firstn (List.length clients) (skipn i xa)) /\
      Forall (fun r => snd r = None) (utxoReplies env (trace w) evs) /\
      ul' = firstn i ul
            ++ map (fun r => decoded env (fst r)) (utxoReplies env (trace w) evs)
            ++ skipn (i + List.length clients) ul.
Proof.
  induction clients as [|cl rest IH]; intros i ul w ul' w' H.
  - cbn in H. inversion H; subst. exists []. rewrite app_nil_r.
    split; [reflexivity|]. split; [reflexivity|]. split; [constructor|].
    cbn. rewrite Nat.add_0_r. symmetry. apply firstn_skipn.
  - cbn [verifyLoop] in H.
    apply bind_Ret_inv in H. destruct H as (addr & w1 & H1 & H).
    apply index_Ret_inv in H1. destruct H1 as [Haddr ->].
    apply bind_Ret_inv in H. destruct H as (runner & w1 & H1 & H).
    assert (w1 = w) by (destruct cl; inversion H1; reflexivity). subst w1.
    clear H1.
    apply bind_Ret_inv in H. destruct H as (err & w1 & H1 & H).
    assert (Hw1 : w1 = advance env w
                         (CXGetBalance (client runner) addr AvaxAssetID) 0).
    { unfold VerifyXChainAVABalance, bind, call, ret in H1.
      destruct (xGetBalance env w (client runner) addr AvaxAssetID)
        as [b [er|]]; [now inversion H1|].
      destruct (negb (b =? seedAmount e)); now inversion H1. }
    clear H1.
    destruct err as [er|]; [inversion H|].
    apply bind_Ret_inv in H. destruct H as (addr' & w2 & H1 & H).
    apply index_Ret_inv in H1. destruct H1 as [Haddr' ->].
    assert (addr' = addr) by congruence. subst addr'.
    apply bind_Ret_inv in H. destruct H as ([utxosBytes err] & w2 & H1 & H).
    unfold call in H1. inversion H1 as [[Hrep Hw2]]. clear H1.
    destruct err as [er|]; [inversion H|].
    apply bind_Ret_inv in H. destruct H as (utxos & w3 & H1 & H).
    assert (Hmake : utxos = repeat None (List.length utxosBytes) /\ w3 = w2).
    { unfold make, len in H1.
      destruct (Z.of_nat (List.length utxosBytes) <? 0); inversion H1.
      now rewrite Nat2Z.id. }
    destruct Hmake as [-> ->]. clear H1.
    apply bind_Ret_inv in H. destruct H as (r & w3 & Hdec & H).
    destruct (decodeLoop_spec env utxosBytes 0
                (repeat None (List.length utxosBytes)) w2) as (r0 & Hrun0 & Hr0);
      [now rewrite repeat_length|].
    rewrite Hrun0 in Hdec. inversion Hdec; subst r0 w3. clear Hdec.
    destruct r as [res|utxos']; [inversion H|].
    destruct Hr0 as [_ Hutxos]. cbn [firstn app] in Hutxos.
    apply bind_Ret_inv in H. destruct H as (ul1 & w3 & H1 & H).
    pose proof (store_Ret_eq _ _ _ _ _ _ H1) as ->.
    apply store_Ret_world in H1. destruct H1 as [-> Hlt].
    apply IH in H. destruct H as (evsR & HtrR & HfR & HokR & Hul').
    set (bal := (now w, CXGetBalance (client runner) addr AvaxAssetID)) in *.
    set (get := (now w1, CXGetUTXOs genesisClient [addr] 10 ""%string ""%string))
      in *.
    assert (Htw2 : trace w2 = trace w ++ [bal; get])
      by (subst w2 w1; cbn; rewrite <- app_assoc; reflexivity).
    assert (Hreply : utxoReplies env (trace w) [bal; get] = [(utxosBytes, None)]).
    { cbn [utxoReplies app bal get]. subst w1. cbn [trace advance] in Hrep.
      cbn. unfold advance in Hrep. cbn in Hrep.
      destruct (xGetUTXOs env _ genesisClient [addr] 10 ""%string ""%string)
        as [bs er0] eqn:Hq in Hrep.
      inversion Hrep; subst bs er0.
      cbn in Hq. rewrite Z.add_0_r in Hq |- *. rewrite Hq. reflexivity. }
    exists ([bal; get] ++ evsR).
    split; [rewrite HtrR, Htw2, <- app_assoc; reflexivity|].
    rewrite utxoReplies_app, Hreply, <- Htw2.
    split.
    { rewrite utxoFetches_app, HfR, (nth_error_skipn _ _ _ Haddr).
      reflexivity. }
    split; [constructor; [reflexivity|exact HokR]|].
    rewrite Hul', firstn_stored, skipn_stored by lia.
    cbn [List.length map app fst]. rewrite <- app_assoc. cbn [app].
    unfold decoded. rewrite <- Hutxos.
    replace (Datatypes.S i + List.length rest)%nat
      with (i + Datatypes.S (List.length rest))%nat by lia.
    reflexivity.
Qed.

End Fetched.

(** X14.  When the loop of [ExecuteTest] that verifies the balances is
    done, it has fetched the UTXOs of each address in turn, always through
    the first client, the address alone and at most 10 of them; every fetch
    was answered without error; and the slice holds, for each client, the
    UTXOs decoded from what the fetch for its address was answered, the
    other entries being as before. *)
Theorem X14_fetched_utxos_stored (env : Env) (e : bombardExecutor)
    (genesisClient : Client) (xa : list string)
    (clients : list (option RPCWorkFlowRunner)) (i : nat)
    (ul : list (list (option UTXO))) (w : World) :
  exists out w' evs,
    verifyLoop env e genesisClient xa i clients ul w = (out, w') /\
    trace w' = trace w ++ evs /\
    forall ul',
      out = Ret (inr ul') ->
      utxoFetches evs
      = map (fun a => (genesisClient, [a], 10, ""%string, ""%string))
            (firstn (List.length clients) (skipn i xa)) /\
      Forall (fun r => snd r = None) (utxoReplies env (trace w) evs) /\
      ul' = firstn i ul
            ++ map (fun r => decoded env (fst r))
                 (utxoReplies env (trace w) evs)
            ++ skipn (i + List.length clients) ul.
Proof.
  destruct (verifyCall_verifyLoop env e genesisClient xa clients i ul w)
    as (out & w' & evs & Hrun & Htr & _).
  exists out, w', evs. split; [exact Hrun|]. split; [exact Htr|].
  intros ul' ->.
  destruct (verifyLoop_fetched env e genesisClient xa clients i ul w ul' w' Hrun)
    as (evs' & Htr' & H).
  rewrite Htr in Htr'. apply app_inv_head in Htr'. subst evs'. exact H.
Qed.

(** ** The stages of [ExecuteTest] up to the building of the chains *)

Lemma setupOk_app (env : Env) (a b : History) :
  forall h,
    setupOk env h (a ++ b) = setupOk env h a && setupOk env (h ++ a) b.
Proof.
  induction a as [|[t c] a IH]; intros h; cbn [app setupOk].
  - now rewrite app_nil_r.
  - rewrite IH, <- !app_assoc, andb_assoc. reflexivity.
Qed.

Lemma endedAtBadReply_prefix (env : Env) (h pre evs : History) :
  setupOk env h pre = true ->
  endedAtBadReply env (h ++ pre) evs ->
  endedAtBadReply env h (pre ++ evs).
Proof.
  intros Hpre (before & t & c & Hevs & Hok & Hbad).
  exists (pre ++ before), t, c. subst evs.
  split; [now rewrite app_assoc|].
  split; [rewrite setupOk_app, Hpre, Hok; reflexivity|].
  rewrite app_assoc. exact Hbad.
Qed.

Lemma world_eta (w : World) : {| now := now w; trace := trace w |} = w.
Proof. destruct w. reflexivity. Qed.

Section Stages.

Variable env : Env.
Variable e : bombardExecutor.

(** [CreateDefaultAddresses]: its calls are of the set-up; it succeeds
    when all were answered well and fails at the first that was not. *)
Lemma CreateDefaultAddresses_stages (runner : RPCWorkFlowRunner) (w : World) :
  exists r w' evs,
    CreateDefaultAddresses env runner w = (Ret r, w') /\
    trace w' = trace w ++ evs /\
    Forall (fun ev => setupPhase (snd ev) = true) evs /\
    match snd r with
    | None => setupOk env (trace w) evs = true
    | Some _ => endedAtBadReply env (trace w) evs
    end.
Proof.
  unfold CreateDefaultAddresses, bind, call, ret.
  set (cU := CKeystoreCreateUser (client runner) (userPass runner)).
  set (cX := CXCreateAddress (client runner) (userPass runner)).
  set (cP := CPCreateAddress (client runner) (userPass runner)).
  set (w1 := advance env w cU 0).
  set (w2 := advance env w1 cX 0).
  assert (HU : answeredWell env {| now := now w; trace := trace w |} cU
               = noError (snd (keystoreCreateUser env w (client runner)
                                 (userPass runner))))
    by (rewrite world_eta; reflexivity).
  assert (HX : answeredWell env
                 {| now := now w1; trace := trace w ++ [(now w, cU)] |} cX
               = noError (snd (xCreateAddress env w1 (client runner)
                                 (userPass runner))))
    by (change (trace w ++ [(now w, cU)]) with (trace w1);
        rewrite world_eta; reflexivity).
  assert (HP : answeredWell env
                 {| now := now w2;
                    trace := (trace w ++ [(now w, cU)]) ++ [(now w1, cX)] |} cP
               = noError (snd (pCreateAddress env w2 (client runner)
                                 (userPass runner))))
    by (change ((trace w ++ [(now w, cU)]) ++ [(now w1, cX)]) with (trace w2);
        rewrite world_eta; reflexivity).
  destruct (keystoreCreateUser env w (client runner) (userPass runner))
    as [b [er|]]; cbn [snd noError] in HU.
  { eexists _, _, [_]. split; [reflexivity|]. split; [reflexivity|].
    split; [repeat constructor|].
    exists [], (now w), cU. rewrite app_nil_r.
    split; [reflexivity|]. split; [reflexivity|exact HU]. }
  fold w1.
  destruct (xCreateAddress env w1 (client runner) (userPass runner))
    as [x [er|]]; cbn [snd noError] in HX.
  { eexists _, _, [(now w, cU); (now w1, cX)]. split; [reflexivity|].
    split; [subst w1; cbn [advance trace]; rewrite <- app_assoc; reflexivity|].
    split; [repeat constructor|].
    exists [(now w, cU)], (now w1), cX.
    split; [reflexivity|].
    split; [cbn [setupOk]; rewrite HU; reflexivity|exact HX]. }
  fold w2.
  destruct (pCreateAddress env w2 (client runner) (userPass runner))
    as [p [er|]]; cbn [snd noError] in HP.
  - eexists _, _, [(now w, cU); (now w1, cX); (now w2, cP)].
    split; [reflexivity|].
    split; [subst w2 w1; cbn [advance trace]; rewrite <- !app_assoc;
            reflexivity|].
    split; [repeat constructor|].
    exists [(now w, cU); (now w1, cX)], (now w2), cP.
    split; [reflexivity|].
    split; [cbn [setupOk]; rewrite HU, HX; reflexivity|].
    rewrite <- HP. rewrite <- app_assoc. reflexivity.
  - eexists _, _, [(now w, cU); (now w1, cX); (now w2, cP)].
    split; [reflexivity|].
    split; [subst w2 w1; cbn [advance trace]; rewrite <- !app_assoc;
            reflexivity|].
    split; [repeat constructor|].
    cbn [snd setupOk]. rewrite HU, HX, HP. reflexivity.
Qed.

(** The set-up loop: its calls are of the set-up; it is done when all
    were answered well, having stored a runner for each client; it returns
    an error at the first call that was not answered well. *)
Lemma setupLoop_stages :
  forall clients i sc xa w,
    List.length sc = (i + List.length clients)%nat ->
    List.length xa = (i + List.length clients)%nat ->
    exists out w' evs,
      setupLoop env e i clients sc xa w = (out, w') /\
      trace w' = trace w ++ evs /\
      Forall (fun ev => setupPhase (snd ev) = true) evs /\
      match out with
      | Ret (inr (sc', xa')) =>
        setupOk env (trace w) evs = true /\
        exists runners,
          sc' = firstn i sc ++ map Some runners /\
          map client runners = clients
      | Ret (inl r) =>
        endedAtBadReply env (trace w) evs /\ exists er, r = Some er
      | _ => False
      end.
Proof.
  induction clients as [|cl rest IH]; intros i sc xa w Hsc Hxa;
    cbn [setupLoop List.length] in *.
  - exists (Ret (inr (sc, xa))), w, []. rewrite app_nil_r.
    split; [reflexivity|]. split; [reflexivity|]. split; [constructor|].
    split; [reflexivity|]. exists [].
    cbn [map]. rewrite app_nil_r, firstn_all2 by lia. split; reflexivity.
  - destruct (createRandomString_run env w) as (username & Hr1).
    unfold bind at 1. rewrite Hr1.
    set (w1 := advance env w CRandInt 0).
    destruct (createRandomString_run env w1) as (password & Hr2).
    unfold bind at 1. rewrite Hr2.
    set (w2 := advance env w1 CRandInt 0).
    set (two := [(now w, CRandInt); (now w1, CRandInt)]).
    assert (Hw2 : trace w2 = trace w ++ two)
      by (subst w2 w1 two; cbn [advance trace]; rewrite <- app_assoc;
          reflexivity).
    assert (Htwo : setupOk env (trace w) two = true) by reflexivity.
    assert (Hcl2 : Forall (fun ev => setupPhase (snd ev) = true) two)
      by (repeat constructor).
    set (runner := NewRPCWorkFlowRunner cl _ _).
    unfold bind at 1, store at 1.
    destruct (Nat.ltb_spec i (List.length sc)) as [Hlt|Hge]; [|lia].
    cbn [ret].
    destruct (CreateDefaultAddresses_stages runner w2)
      as ([[x p] err] & w3 & evs3 & Hrun3 & Htr3 & Hcl3 & Hok3).
    unfold bind at 1. rewrite Hrun3. cbn [snd] in Hok3.
    destruct err as [er|].
    { eexists _, w3, (two ++ evs3).
      split; [reflexivity|].
      split; [rewrite Htr3, Hw2, <- app_assoc; reflexivity|].
      split; [apply Forall_app; split; assumption|].
      split; [|eexists; reflexivity].
      apply endedAtBadReply_prefix; [exact Htwo|].
      rewrite <- Hw2. exact Hok3. }
    unfold bind at 1, store at 1.
    destruct (Nat.ltb_spec i (List.length xa)) as [Hlt2|Hge]; [|lia].
    cbn [ret].
    match goal with
    | |- context [setupLoop env e (Datatypes.S i) rest ?sc1 ?xa1 w3] =>
      destruct (IH (Datatypes.S i) sc1 xa1 w3)
        as (out & w' & evsR & Hrun & Htr & HclR & Hout);
        [rewrite length_stored; lia|rewrite length_stored; lia|]
    end.
    assert (Hw3 : trace w3 = trace w ++ two ++ evs3)
      by (rewrite Htr3, Hw2, <- app_assoc; reflexivity).
    assert (Hok5 : setupOk env (trace w) (two ++ evs3) = true)
      by (rewrite setupOk_app, Htwo, <- Hw2, Hok3; reflexivity).
    exists out, w', ((two ++ evs3) ++ evsR).
    split; [exact Hrun|].
    split; [rewrite Htr, Hw3, <- !app_assoc; reflexivity|].
    split; [repeat (apply Forall_app; split); assumption|].
    destruct out as [[r|[sc' xa']]|p0|]; try contradiction.
    + destruct Hout as [Hbad Her]. split; [|exact Her].
      apply endedAtBadReply_prefix; [exact Hok5|].
      rewrite <- Hw3. exact Hbad.
    + destruct Hout as (HokR & runners & Hsc' & Hcls).
      split; [rewrite setupOk_app, Hok5, <- Hw3, HokR; reflexivity|].
      exists (runner :: runners).
      split; [|cbn [map]; rewrite Hcls; reflexivity].
      rewrite Hsc', firstn_stored by lia.
      rewrite <- app_assoc. reflexivity.
Qed.

(** The verification loop runs as [VerifyTrace], for the runners that the
    set-up has stored and the addresses from [i] on. *)
Lemma verifyLoop_trace (genesisClient : Client) (xa : list string) :
  forall runners i ul w,
    (i + List.length runners <= List.length xa)%nat ->
    (i + List.length runners <= List.length ul)%nat ->
    exists out w' evs stop,
      verifyLoop env e genesisClient xa i (map Some runners) ul w = (out, w') /\
      trace w' = trace w ++ evs /\
      VerifyTrace env e genesisClient w i
        (combine (map client runners) (skipn i xa)) evs stop w' /\
      match stop with
      | Some r => out = Ret (inl r)
      | None => exists ul', out = Ret (inr ul')
      end.
Proof.
  induction runners as [|runner rest IH]; intros i ul w Hxa Hul;
    cbn [List.length map] in *.
  - exists (Ret (inr ul)), w, [], None. rewrite app_nil_r.
    split; [reflexivity|]. split; [reflexivity|].
    split; [constructor|]. eexists; reflexivity.
  - cbn [verifyLoop]. unfold bind at 1. unfold index at 1.
    destruct (nth_error xa i) as [addr|] eqn:Hnth.
    2:{ apply nth_error_None in Hnth. lia. }
    rewrite (nth_error_skipn _ _ _ Hnth). cbn [combine].
    cbn [ret]. unfold bind at 1. cbn [deref ret]. unfold bind at 1.
    unfold VerifyXChainAVABalance, bind at 1, call at 1.
    set (cB := CXGetBalance (client runner) addr AvaxAssetID).
    set (w1 := advance env w cB 0).
    destruct (xGetBalance env w (client runner) addr AvaxAssetID)
      as [b [er|]] eqn:Hbal.
    { eexists _, w1, [(now w, cB)], _.
      split; [reflexivity|]. split; [reflexivity|].
      split; [eapply VerifyBalanceError; exact Hbal|reflexivity]. }
    cbn [ret].
    destruct (Z.eqb_spec b (seedAmount e)) as [Heq|Hne]; cbn [negb ret].
    2:{ eexists _, w1, [(now w, cB)], _.
        split; [reflexivity|]. split; [reflexivity|].
        split; [eapply VerifyMismatch; [exact Hbal|exact Hne]|reflexivity]. }
    subst b.
    unfold bind at 1. unfold index at 1. rewrite Hnth. cbn [ret].
    unfold bind at 1. unfold call at 1.
    set (cU := CXGetUTXOs genesisClient [addr] 10 "" "").
    set (w2 := advance env w1 cU 0).
    assert (Htr2 : trace w2 = trace w ++ [(now w, cB); (now w1, cU)]).
    { subst w2 w1. cbn [advance trace]. rewrite <- app_assoc. reflexivity. }
    destruct (xGetUTXOs env w1 genesisClient [addr] 10 "" "")
      as [utxosBytes [er|]] eqn:Hfetch.
    { eexists _, w2, [(now w, cB); (now w1, cU)], _.
      split; [reflexivity|]. split; [exact Htr2|].
      split; [eapply VerifyFetchError; [exact Hbal|exact Hfetch]|reflexivity]. }
    unfold bind at 1, make at 1.
    destruct (Z.ltb_spec (len utxosBytes) 0) as [Hneg|_];
      [unfold len in Hneg; lia|].
    cbn [ret]. unfold bind at 1.
    destruct (decodeLoop_spec env utxosBytes 0%nat
                (repeat None (Z.to_nat (len utxosBytes))) w2)
      as (r & Hd & Hr).
    { rewrite repeat_length. unfold len. rewrite Nat2Z.id. reflexivity. }
    rewrite Hd.
    destruct r as [res|utxos].
    { destruct Hr as (pre & bs & others & er & Hsplit & Hpre & Hbad & Hres).
      subst res.
      eexists _, w2, [(now w, cB); (now w1, cU)], _.
      split; [reflexivity|]. split; [exact Htr2|].
      split; [eapply VerifyDecodeError; eauto|reflexivity]. }
    destruct Hr as [Hall _].
    unfold bind at 1. unfold store at 1.
    destruct (Nat.ltb_spec i (List.length ul)) as [Hlt|Hge]; [|lia].
    cbn [ret].
    match goal with
    | |- context [verifyLoop env e genesisClient xa (Datatypes.S i)
                    (map Some rest) ?ul1 w2] =>
      destruct (IH (Datatypes.S i) ul1 w2)
        as (out & w' & evs & stop & Hrun & Htr & HVT & Hstop);
        [lia|rewrite length_stored; lia|]
    end.
    exists out, w', ((now w, cB) :: (now w1, cU) :: evs), stop.
    split; [exact Hrun|].
    split; [rewrite Htr, Htr2, <- app_assoc; reflexivity|].
    split; [|exact Hstop].
    eapply VerifyNext; eauto.
Qed.

(** The calls of a verification are added to the trace. *)
Lemma VerifyTrace_trace (genesisClient : Client) w i l evs stop w' :
  VerifyTrace env e genesisClient w i l evs stop w' ->
  trace w' = trace w ++ evs.
Proof.
  induction 1; cbn [advance trace]; rewrite ?app_nil_r, <- ?app_assoc;
    try reflexivity.
  rewrite IHVerifyTrace. cbn [advance trace]. rewrite <- !app_assoc.
  reflexivity.
Qed.

(** A verification that is done was answered, for each address in turn, a
    balance equal to the seed amount. *)
Lemma VerifyTrace_balances (genesisClient : Client) w i l evs stop w' :
  VerifyTrace env e genesisClient w i l evs stop w' ->
  stop = None ->
  balanceReplies env (trace w) evs
  = map (fun a => (a, seedAmount e, None)) (map snd l).
Proof.
  induction 1 as [w i| | | | |w i cl addr rest utxosBytes evs stop w' Hb Hf Hall
                             HVT IH];
    intros Hstop; try discriminate; [reflexivity|].
  cbn [balanceReplies map snd app]. rewrite world_eta, Hb. cbn [fst snd].
  f_equal. rewrite <- app_assoc. cbn [app].
  rewrite <- (IH Hstop). cbn [advance trace]. rewrite <- app_assoc.
  reflexivity.
Qed.

(** [ImportGenesisFunds]: its calls are of the set-up; it succeeds when
    both were answered well and fails at the first that was not. *)
Lemma ImportGenesisFunds_stages (runner : RPCWorkFlowRunner) (w : World) :
  exists r w' evs,
    ImportGenesisFunds env runner w = (Ret r, w') /\
    trace w' = trace w ++ evs /\
    Forall (fun ev => setupPhase (snd ev) = true) evs /\
    Forall (fun ev => isXCreate (snd ev) = false) evs /\
    match snd r with
    | None => setupOk env (trace w) evs = true
    | Some _ => endedAtBadReply env (trace w) evs
    end.
Proof.
  unfold ImportGenesisFunds, bind, call, ret.
  set (cU := CKeystoreCreateUser (client runner) (userPass runner)).
  set (cK := CXImportKey (client runner) (userPass runner)
               (genesisPrivateKey env)).
  set (w1 := advance env w cU 0).
  assert (HU : answeredWell env {| now := now w; trace := trace w |} cU
               = noError (snd (keystoreCreateUser env w (client runner)
                                 (userPass runner))))
    by (rewrite world_eta; reflexivity).
  assert (HK : answeredWell env
                 {| now := now w1; trace := trace w ++ [(now w, cU)] |} cK
               = noError (snd (xImportKey env w1 (client runner)
                                 (userPass runner) (genesisPrivateKey env))))
    by (change (trace w ++ [(now w, cU)]) with (trace w1);
        rewrite world_eta; reflexivity).
  destruct (keystoreCreateUser env w (client runner) (userPass runner))
    as [b [er|]]; cbn [snd noError] in HU.
  { eexists _, _, [(now w, cU)]. split; [reflexivity|]. split; [reflexivity|].
    split; [repeat constructor|]. split; [repeat constructor|].
    exists [], (now w), cU. rewrite app_nil_r.
    split; [reflexivity|]. split; [reflexivity|exact HU]. }
  fold w1.
  destruct (xImportKey env w1 (client runner) (userPass runner)
              (genesisPrivateKey env)) as [a [er|]]; cbn [snd noError] in HK.
  - eexists _, _, [(now w, cU); (now w1, cK)]. split; [reflexivity|].
    split; [subst w1; cbn [advance trace]; rewrite <- app_assoc; reflexivity|].
    split; [repeat constructor|]. split; [repeat constructor|].
    exists [(now w, cU)], (now w1), cK.
    split; [reflexivity|].
    split; [cbn [setupOk]; rewrite HU; reflexivity|exact HK].
  - eexists _, _, [(now w, cU); (now w1, cK)]. split; [reflexivity|].
    split; [subst w1; cbn [advance trace]; rewrite <- app_assoc; reflexivity|].
    split; [repeat constructor|]. split; [repeat constructor|].
    cbn [snd setupOk]. rewrite HU, HK. reflexivity.
Qed.

(** [ExecuteTest], stage by stage. *)
Lemma ExecuteTest_stages (w : World) :
  exists out w' evs,
    ExecuteTest env e w = (out, w') /\
    trace w' = trace w ++ evs /\
    seedStages env e w out evs.
Proof.
  unfold ExecuteTest, seedStages.
  destruct (normalClients e) as [|genesis others] eqn:Hclients.
  { exists (Panic (IndexOutOfRange 0 0)), w, []. rewrite app_nil_r.
    repeat split. }
  unfold bind at 1. cbn [index nth_error ret].
  replace (len (genesis :: others) - 1) with (Z.of_nat (List.length others))
    by (unfold len; cbn [List.length]; lia).
  unfold bind at 1, make at 1.
  destruct (Z.ltb_spec (Z.of_nat (List.length others)) 0) as [Hneg|_]; [lia|].
  cbn [ret].
  unfold bind at 1, make at 1.
  destruct (Z.ltb_spec (Z.of_nat (List.length others)) 0) as [Hneg|_]; [lia|].
  cbn [ret]. rewrite Nat2Z.id.
  unfold bind at 1. cbn [sliceFrom List.length Nat.leb skipn ret].
  set (sc0 := repeat None (List.length others)).
  set (xa0 := repeat ""%string (List.length others)).
  destruct (setupLoop_stages others 0%nat sc0 xa0 w)
    as (out1 & w1 & evs1 & Hrun1 & Htr1 & Hcl1 & Hout1);
    [subst sc0; now rewrite repeat_length
    |subst xa0; now rewrite repeat_length|].
  destruct (setupLoop_created env e others 0%nat sc0 xa0 w)
    as (out1' & w1' & evs1' & Hrun1' & Htr1' & _ & Hcreated);
    [subst xa0; now rewrite repeat_length|].
  rewrite Hrun1 in Hrun1'. inversion Hrun1'; subst out1' w1'. clear Hrun1'.
  rewrite Htr1 in Htr1'. apply app_inv_head in Htr1'. subst evs1'.
  unfold bind at 1. rewrite Hrun1.
  destruct out1 as [[res|[sc xa]]|p|]; try contradiction.
  - destruct Hout1 as [Hbad (er & ->)].
    exists (Ret (Some er)), w1, evs1.
    split; [reflexivity|]. split; [exact Htr1|].
    exists evs1, []. rewrite app_nil_r.
    split; [reflexivity|]. split; [exact Hcl1|]. left.
    split; [reflexivity|]. split; [exact Hbad|]. eexists; reflexivity.
  - destruct Hout1 as (Hok1 & runners & Hsc & Hcls). cbn [firstn app] in Hsc.
    destruct (Hcreated sc xa eq_refl) as (Hxa & _ & Hlen).
    cbn [firstn app] in Hxa. clear Hcreated.
    destruct (createRandomString_run env w1) as (username & Hr1).
    unfold bind at 1. rewrite Hr1.
    set (w2 := advance env w1 CRandInt 0).
    destruct (createRandomString_run env w2) as (password & Hr2).
    unfold bind at 1. rewrite Hr2.
    set (w3 := advance env w2 CRandInt 0).
    cbv zeta.
    set (genesisUser := {| Username := username; Password := password |}).
    set (runnerG := NewRPCWorkFlowRunner genesis genesisUser (acceptanceTimeout e)).
    set (two := [(now w1, CRandInt); (now w2, CRandInt)]).
    assert (Hw3 : trace w3 = trace w ++ evs1 ++ two).
    { subst w3 w2 two. cbn [advance trace]. rewrite Htr1, <- !app_assoc.
      reflexivity. }
    assert (Hok3 : setupOk env (trace w) (evs1 ++ two) = true)
      by (rewrite setupOk_app, Hok1; reflexivity).
    assert (Hcl3 : Forall (fun ev => setupPhase (snd ev) = true) (evs1 ++ two))
      by (apply Forall_app; split; [exact Hcl1|repeat constructor]).
    assert (Hx3 : xCreateReplies env (trace w) (evs1 ++ two)
                  = xCreateReplies env (trace w) evs1)
      by (rewrite xCreateReplies_app; cbn [xCreateReplies app];
          now rewrite app_nil_r).
    destruct (ImportGenesisFunds_stages runnerG w3)
      as ([addr err] & w4 & evs4 & Hrun4 & Htr4 & Hcl4 & Hnc4 & Hok4).
    unfold bind at 1. rewrite Hrun4. cbn [snd] in Hok4.
    destruct err as [er|].
    { eexists _, w4, ((evs1 ++ two) ++ evs4).
      split; [reflexivity|].
      split; [rewrite Htr4, Hw3, <- !app_assoc; reflexivity|].
      exists ((evs1 ++ two) ++ evs4), []. rewrite app_nil_r.
      split; [reflexivity|].
      split; [apply Forall_app; split; assumption|]. left.
      split; [reflexivity|].
      split; [|eexists; reflexivity].
      apply endedAtBadReply_prefix; [exact Hok3|].
      rewrite <- Hw3. exact Hok4. }
    set (created := (evs1 ++ two) ++ evs4).
    assert (Hw4 : trace w4 = trace w ++ created)
      by (subst created; rewrite Htr4, Hw3, <- !app_assoc; reflexivity).
    assert (Hok4' : setupOk env (trace w) created = true).
    { subst created. rewrite setupOk_app, Hok3, <- Hw3, Hok4.
      reflexivity. }
    assert (Hcl4' : Forall (fun ev => setupPhase (snd ev) = true) created)
      by (apply Forall_app; split; assumption).
    assert (Hx4 : xCreateReplies env (trace w) created
                  = xCreateReplies env (trace w) evs1).
    { subst created. rewrite xCreateReplies_app, Hx3.
      rewrite (xCreateReplies_none env evs4 Hnc4). apply app_nil_r. }
    unfold bind at 1, call at 1.
    set (cL := CXListAddresses genesis genesisUser).
    set (w5 := advance env w4 cL 0).
    assert (HL : answeredWell env
                   {| now := now w4; trace := trace w ++ created |} cL
                 = noError (snd (xListAddresses env w4 genesis genesisUser))
                   && (len (fst (xListAddresses env w4 genesis genesisUser))
                       =? 1))
      by (rewrite <- Hw4, world_eta; reflexivity).
    assert (Hw5 : trace w5 = trace w ++ created ++ [(now w4, cL)])
      by (subst w5; cbn [advance trace]; rewrite Hw4, <- app_assoc;
          reflexivity).
    assert (Hcl5 : Forall (fun ev => setupPhase (snd ev) = true)
                     (created ++ [(now w4, cL)]))
      by (apply Forall_app; split; [exact Hcl4'|repeat constructor]).
    assert (Hbad5 : answeredWell env
                      {| now := now w4; trace := trace w ++ created |} cL
                    = false ->
                    forall er,
                      exists out w' evs,
                        (@Ret (option error) (Some er), w5) = (out, w') /\
                        trace w' = trace w ++ evs /\
                        exists setup rest,
                          evs = setup ++ rest /\
                          Forall (fun ev => setupPhase (snd ev) = true) setup /\
                          ((rest = [] /\ endedAtBadReply env (trace w) setup /\
                            exists er, out = Ret (Some er)) \/
                           (setupOk env (trace w) setup = true /\
                            List.length (xCreateReplies env (trace w) setup)
                            = List.length others /\
                            exists created tL genesisUser,
                              setup = created
                                      ++ [(tL, CXListAddresses genesis
                                                 genesisUser)] /\
                              seedFunded env e genesis others
                                (map fst (xCreateReplies env (trace w) setup))
                                (NewRPCWorkFlowRunner genesis genesisUser
                                   (acceptanceTimeout e))
                                (advance env
                                   {| now := tL;
                                      trace := trace w ++ created |}
                                   (CXListAddresses genesis genesisUser) 0)
                                out rest))).
    { intros Hbad er.
      exists (Ret (Some er)), w5, (created ++ [(now w4, cL)]).
      split; [reflexivity|]. split; [exact Hw5|].
      exists (created ++ [(now w4, cL)]), []. rewrite app_nil_r.
      split; [reflexivity|]. split; [exact Hcl5|]. left.
      split; [reflexivity|]. split; [|eexists; reflexivity].
      exists created, (now w4), cL. repeat split; assumption. }
    destruct (xListAddresses env w4 genesis genesisUser) as [addrs [er|]];
      cbn [fst snd noError andb] in HL.
    { apply Hbad5. exact HL. }
    destruct (Z.eqb_spec (len addrs) 1) as [Hone|Hmany]; cbn [negb].
    2:{ apply Hbad5. exact HL. }
    clear Hbad5.
    destruct addrs as [|a0 addrs']; [discriminate Hone|].
    unfold bind at 1. cbn [index nth_error ret].
    set (setup := created ++ [(now w4, cL)]).
    assert (Hok5 : setupOk env (trace w) setup = true).
    { subst setup. rewrite setupOk_app, Hok4'. cbn [setupOk].
      rewrite HL. reflexivity. }
    assert (Hx5 : xCreateReplies env (trace w) setup
                  = xCreateReplies env (trace w) evs1).
    { subst setup. rewrite xCreateReplies_app, Hx4. cbn [xCreateReplies app].
      apply app_nil_r. }
    assert (Hlenxa : List.length xa = List.length others)
      by (rewrite Hxa, length_map; exact Hlen).
    destruct (FundXChainAddresses_trace env runnerG (seedAmount e) xa w5)
      as (fres & wV & fund & Hrun5 & HtrV & _ & Hft).
    unfold bind at 1. rewrite Hrun5.
    assert (Hstage : forall out w' rest,
              trace w' = trace w5 ++ rest ->
              seedFunded env e genesis others xa runnerG w5 out rest ->
              exists out0 w0 evs,
                (out, w') = (out0, w0) /\
                trace w0 = trace w ++ evs /\
                exists setup rest,
                  evs = setup ++ rest /\
                  Forall (fun ev => setupPhase (snd ev) = true) setup /\
                  ((rest = [] /\ endedAtBadReply env (trace w) setup /\
                    exists er, out0 = Ret (Some er)) \/
                   (setupOk env (trace w) setup = true /\
                    List.length (xCreateReplies env (trace w) setup)
                    = List.length others /\
                    exists created tL genesisUser,
                      setup = created
                              ++ [(tL, CXListAddresses genesis genesisUser)] /\
                      seedFunded env e genesis others
                        (map fst (xCreateReplies env (trace w) setup))
                        (NewRPCWorkFlowRunner genesis genesisUser
                           (acceptanceTimeout e))
                        (advance env
                           {| now := tL; trace := trace w ++ created |}
                           (CXListAddresses genesis genesisUser) 0)
                        out0 rest))).
    { intros out w' rest Htr' Hsf.
      exists out, w', (setup ++ rest).
      split; [reflexivity|].
      split; [rewrite Htr', Hw5, <- app_assoc; reflexivity|].
      exists setup, rest. split; [reflexivity|]. split; [exact Hcl5|]. right.
      split; [exact Hok5|]. split; [rewrite Hx5; exact Hlen|].
      exists created, (now w4), genesisUser. split; [reflexivity|].
      rewrite Hx5, <- Hxa, <- Hw4, world_eta. exact Hsf. }
    destruct fres as [er|].
    { apply (Hstage _ _ fund); [exact HtrV|].
      exists fund, (Some er), wV. split; [exact Hft|]. split; reflexivity. }
    destruct (FundTrace_sends _ _ _ _ _ _ _ _ Hft) as (k & _ & Hsends & Hall).
    rewrite (Hall eq_refl), firstn_all in Hsends.
    destruct (createXChainCodec env) as [er|] eqn:Hcodec.
    { apply (Hstage _ _ fund); [exact HtrV|].
      exists fund, None, wV. split; [exact Hft|]. split; [exact Hsends|].
      rewrite Hcodec. split; reflexivity. }
    unfold bind at 1, make at 1.
    destruct (Z.ltb_spec (len sc) 0) as [Hneg|_]; [unfold len in Hneg; lia|].
    cbn [ret].
    assert (Hlenr : List.length runners = List.length others)
      by (rewrite <- Hcls, length_map; reflexivity).
    destruct (verifyLoop_trace genesis xa runners 0%nat
                (repeat [] (Z.to_nat (len sc))) wV)
      as (vout & wB & verify & vres & Hrun6 & HtrB & HVT & Hvres).
    { cbn. lia. }
    { rewrite repeat_length. unfold len. rewrite Nat2Z.id, Hsc, length_map.
      cbn. lia. }
    rewrite <- Hsc in Hrun6. unfold bind at 1. rewrite Hrun6.
    cbn [skipn] in HVT. rewrite Hcls in HVT.
    destruct vres as [r|].
    { subst vout.
      apply (Hstage _ _ (fund ++ verify ++ []));
        [rewrite app_nil_r, HtrB, HtrV, <- app_assoc; reflexivity|].
      exists fund, None, wV. split; [exact Hft|]. split; [exact Hsends|].
      rewrite Hcodec. exists verify, (Some r), wB, [].
      split; [reflexivity|]. split; [exact HVT|].
      split; reflexivity. }
    destruct Hvres as (ul' & ->).
    destruct (quiet_laterPhases env e runnerG sc xa ul' wB)
      as (out & w' & post & Hrun7 & Htr7 & Hpost).
    rewrite Hclients in Hrun7.
    cbn [sliceFrom List.length Nat.leb skipn] in Hrun7. rewrite Hrun7.
    apply (Hstage _ _ (fund ++ verify ++ post));
      [rewrite Htr7, HtrB, HtrV, <- !app_assoc; reflexivity|].
    exists fund, None, wV. split; [exact Hft|]. split; [exact Hsends|].
    rewrite Hcodec. exists verify, None, wB, post.
    split; [reflexivity|]. split; [exact HVT|].
    split; [|exact Hpost].
    rewrite (VerifyTrace_balances _ _ _ _ _ _ _ HVT eq_refl).
    rewrite map_map.
    assert (Hsnd : map snd (combine others xa) = xa).
    { clear -Hlenxa. revert others Hlenxa.
      induction xa as [|a l IH]; intros [|o os] H; cbn in *;
        try discriminate; [reflexivity|]. f_equal. apply IH. lia. }
    rewrite <- Hsnd at 2. rewrite map_map. reflexivity.
Qed.

End Stages.

(** C7.  The seed amount is (numTxs + 1) x txFee in 64-bit unsigned
    arithmetic.  Every run of [ExecuteTest] goes through the stages of
    [seedStages].  After a set-up in which every call was answered well,
    the first client's runner funds the X chain address created for each
    client after the first: this is the run [FundTrace] of
    [FundXChainAddresses] for these addresses and the seed amount, one
    transfer of the seed amount of AVAX to each address in turn, each
    awaited before the next.  When the funding fails the run ends with its
    error.  When it succeeds every address was sent the seed amount, and
    the balances are verified, which is the run [VerifyTrace]: for each
    address in turn the balance of AVAX is asked through the client of the
    address and must be equal to the seed amount; at the first balance
    that is not, [ExecuteTest] returns the error that names the address,
    the seed amount expected and the balance found, and calls nothing
    more.  The calls that come after the verification, the building of the
    chains among them, are made only when every address was answered a
    balance equal to the seed amount, and they make no transfer and ask no
    balance.  A set-up in which a call is not answered well ends the run
    at that call, with an error, before any transfer. *)
Theorem C7_seed_amount_funded_and_verified (env : Env) (e : bombardExecutor)
    (w : World) :
  seedAmount e = ((numTxs e + 1) * txFee e) mod 2 ^ 64 /\
  (0 <= (numTxs e + 1) * txFee e < 2 ^ 64 ->
   seedAmount e = (numTxs e + 1) * txFee e) /\
  exists out w' evs,
    ExecuteTest env e w = (out, w') /\
    trace w' = trace w ++ evs /\
    seedStages env e w out evs.
Proof.
  split; [apply seedAmount_wraps|]. split.
  { intros H. rewrite seedAmount_wraps. apply Z.mod_small. exact H. }
  apply ExecuteTest_stages.
Qed.

(** C7 at a concrete input: no overflow, three clients, all goes well. *)
Lemma C7_seed_amount_witness :
  0 <= (numTxs testExecutor + 1) * txFee testExecutor < 2 ^ 64 /\
  seedAmount testExecutor = 30 /\
  exists out w' evs,
    ExecuteTest envAllGood testExecutor world0 = (out, w') /\
    seedStages envAllGood testExecutor world0 out evs.
Proof.
  destruct (C7_seed_amount_funded_and_verified envAllGood testExecutor world0)
    as (_ & Hexact & out & w' & evs & Hrun & _ & Hstages).
  assert (H : 0 <= (numTxs testExecutor + 1) * txFee testExecutor < 2 ^ 64)
    by (cbn; lia).
  split; [exact H|]. split; [rewrite (Hexact H); reflexivity|].
  exists out, w', evs. split; [exact Hrun|exact Hstages].
Defined.
